(** * Flight Price API: the request handler of [main.py], embedded and verified

    The development follows [src/main.py]:  the module-level credential
    ([token], [token_expiry]), [get_amadeus_token], [is_token_valid] and the
    endpoint [get_flight_price].  The handler is written in a small monad
    that threads the credential and the log of outbound HTTP calls and that
    can raise Python exceptions.  The library functions the handler calls
    ([re.match], [int], [float], [datetime.strptime], [date + timedelta],
    [strftime], [min], [raise_for_status]) are modelled next to it.  The
    calls to [print] are left out: nothing below concerns the standard
    output.

    Python strings are modelled by [string]: sequences of code points below
    256.  In that range [\d] is ['0'..'9'] and [\s] is the set computed by
    [is_space] below. *)

From Stdlib Require Import ZArith List Bool Ascii String Lia.
From Stdlib Require Import Floats.SpecFloat.
Import ListNotations.

Local Open Scope string_scope.
Local Open Scope Z_scope.

(** ** Characters and strings *)

Module Chars.

Definition code (c : ascii) : Z := Z.of_N (N_of_ascii c).

(** [\d] of the [re] module on [str] patterns. *)
Definition is_digit (c : ascii) : bool := (48 <=? code c) && (code c <=? 57).

(** [\s] of the [re] module on [str] patterns. *)
Definition is_space (c : ascii) : bool :=
  let n := code c in
  ((9 <=? n) && (n <=? 13)) || ((28 <=? n) && (n <=? 32)) || (n =? 133) || (n =? 160).

(** ASCII lower-casing, as used by [re.IGNORECASE] on the letters of a
    literal. *)
Definition lower (c : ascii) : ascii :=
  let n := code c in
  if (65 <=? n) && (n <=? 90) then ascii_of_N (Z.to_N (n + 32)) else c.

Definition eqb_nocase (a b : ascii) : bool := Ascii.eqb (lower a) (lower b).

Definition digit_value (c : ascii) : Z := code c - 48.

End Chars.

Module Str.

(** Longest prefix whose characters satisfy [p], and the rest. *)
Fixpoint span (p : ascii -> bool) (s : string) : string * string :=
  match s with
  | EmptyString => (EmptyString, EmptyString)
  | String c r =>
      if p c then let '(a, b) := span p r in (String c a, b)
      else (EmptyString, s)
  end.

Fixpoint all (p : ascii -> bool) (s : string) : bool :=
  match s with
  | EmptyString => true
  | String c r => p c && all p r
  end.

(** Removes a literal prefix, compared without case. *)
Fixpoint strip_prefix_nocase (lit s : string) : option string :=
  match lit, s with
  | EmptyString, _ => Some s
  | String a lit', String b s' =>
      if Chars.eqb_nocase a b then strip_prefix_nocase lit' s' else None
  | String _ _, EmptyString => None
  end.

Fixpoint rev_append (s acc : string) : string :=
  match s with
  | EmptyString => acc
  | String c r => rev_append r (String c acc)
  end.

Definition rev (s : string) : string := rev_append s EmptyString.

Definition is_empty (s : string) : bool :=
  match s with EmptyString => true | _ => false end.

(** Value of a run of decimal digits, most significant first. *)
Fixpoint digits_value_from (acc : Z) (s : string) : Z :=
  match s with
  | EmptyString => acc
  | String c r => digits_value_from (10 * acc + Chars.digit_value c) r
  end.

Definition digits_value (s : string) : Z := digits_value_from 0 s.

(** Decimal digits of a natural number, for [%d]-style formatting. *)
Fixpoint digits_of_fuel (fuel : nat) (n : Z) (acc : string) : string :=
  match fuel with
  | O => acc
  | S fuel' =>
      let d := ascii_of_N (Z.to_N (48 + n mod 10)) in
      if n <? 10 then String d acc
      else digits_of_fuel fuel' (n / 10) (String d acc)
  end.

Definition of_nonneg (n : Z) : string :=
  digits_of_fuel (S (Z.to_nat (Z.log2 n))) n EmptyString.

Fixpoint zeros (k : nat) : string :=
  match k with O => EmptyString | S k' => String "0" (zeros k') end.

(** Zero padding on the left up to [width] characters ([%0<width>d]). *)
Definition pad0 (width : nat) (n : Z) : string :=
  let d := of_nonneg n in
  zeros (width - String.length d) ++ d.

End Str.

(** ** The duration pattern

    [re.match(r"(\d+)\s*days", duration, re.IGNORECASE)] matches at the start
    of the string only and does not look at what follows the match.  The
    classes [\d], [\s] and the letter [d] are pairwise disjoint, so the greedy
    left-to-right reading below is the only way the pattern can match.  The
    result is group 1. *)
Definition re_match_days (duration : string) : option string :=
  let '(digits, r1) := Str.span Chars.is_digit duration in
  if Str.is_empty digits then None
  else
    let '(_, r2) := Str.span Chars.is_space r1 in
    match Str.strip_prefix_nocase "days" r2 with
    | Some _ => Some digits
    | None => None
    end.

(** The pattern the specification writes, [^\s*(\d+)\s*days\s*$] without
    case: leading and trailing white space allowed, nothing else around. *)
Definition spec_duration_pattern (duration : string) : option string :=
  let '(_, r0) := Str.span Chars.is_space duration in
  let '(digits, r1) := Str.span Chars.is_digit r0 in
  if Str.is_empty digits then None
  else
    let '(_, r2) := Str.span Chars.is_space r1 in
    match Str.strip_prefix_nocase "days" r2 with
    | Some r3 =>
        let '(_, r4) := Str.span Chars.is_space r3 in
        if Str.is_empty r4 then Some digits else None
    | None => None
    end.

(** ** Exceptions and their texts

    A text built by an f-string or by [%]-formatting is kept as the list of
    its pieces; [ReprStr s] stands for [repr(s)] of a string and [ReprJson t]
    for the [repr] of the parsed JSON document whose source text is [t]. *)
Inductive piece :=
| Lit (s : string)
| ReprStr (s : string)
| ReprJson (text : string).

Definition message := list piece.

(** The exception classes that can occur in the handler.  [ConnectionError],
    [HTTPError] and [JSONDecodeError] are the ones of [requests.exceptions],
    all three subclasses of [RequestException]; [ConnectionError] stands for
    whatever the transport raises (no connection, time out, ...), and
    [JSONDecodeError] is a subclass of [ValueError] as well (requests 2.27
    and later).  [HTTPException] is FastAPI's. *)
Inductive exn :=
| ValueError (msg : message)
| IndexError (msg : message)
| OverflowError (msg : message)
| UnboundLocalError (msg : message)
| ConnectionError (msg : message)
| HTTPError (msg : message)
| JSONDecodeError (msg : message)
| HTTPException (status_code : Z) (detail : message).

(** [str(e)] *)
Definition exn_text (e : exn) : message :=
  match e with
  | ValueError m | IndexError m | OverflowError m | UnboundLocalError m
  | ConnectionError m | HTTPError m | JSONDecodeError m => m
  | HTTPException _ d => d
  end.

Definition is_RequestException (e : exn) : bool :=
  match e with
  | ConnectionError _ | HTTPError _ | JSONDecodeError _ => true
  | _ => false
  end.

Definition is_ValueError (e : exn) : bool :=
  match e with
  | ValueError _ | JSONDecodeError _ => true
  | _ => false
  end.

Definition is_IndexError (e : exn) : bool :=
  match e with
  | IndexError _ => true
  | _ => false
  end.

Inductive result (A : Type) :=
| Ok (a : A)
| Raise (e : exn).
Arguments Ok {A} a.
Arguments Raise {A} e.

Definition rbind {A B} (r : result A) (k : A -> result B) : result B :=
  match r with
  | Ok a => k a
  | Raise e => Raise e
  end.

(** ** [datetime.date]: the proleptic Gregorian calendar of the library *)

Module Calendar.

Record date := mkdate { year : Z; month : Z; day : Z }.

Definition MAXORDINAL : Z := 3652059.

Definition DAYS_IN_MONTH : list Z :=
  [-1; 31; 28; 31; 30; 31; 30; 31; 31; 30; 31; 30; 31].

Definition DAYS_BEFORE_MONTH : list Z :=
  [-1; 0; 31; 59; 90; 120; 151; 181; 212; 243; 273; 304; 334].

Definition table (t : list Z) (i : Z) : Z := nth (Z.to_nat i) t 0.

Definition is_leap (y : Z) : bool :=
  (y mod 4 =? 0) && (negb (y mod 100 =? 0) || (y mod 400 =? 0)).

Definition days_before_year (y : Z) : Z :=
  let y1 := y - 1 in
  y1 * 365 + y1 / 4 - y1 / 100 + y1 / 400.

Definition days_in_month (y m : Z) : Z :=
  if (m =? 2) && is_leap y then 29 else table DAYS_IN_MONTH m.

Definition days_before_month (y m : Z) : Z :=
  table DAYS_BEFORE_MONTH m + (if (2 <? m) && is_leap y then 1 else 0).

(** [date.toordinal()]: 0001-01-01 is day 1. *)
Definition ymd2ord (d : date) : Z :=
  days_before_year (year d) + days_before_month (year d) (month d) + day d.

Definition DI400Y : Z := 146097.
Definition DI100Y : Z := 36524.
Definition DI4Y : Z := 1461.

(** [date.fromordinal(n)] *)
Definition ord2ymd (n : Z) : date :=
  let n := n - 1 in
  let n400 := n / DI400Y in
  let n := n mod DI400Y in
  let y := n400 * 400 + 1 in
  let n100 := n / DI100Y in
  let n := n mod DI100Y in
  let n4 := n / DI4Y in
  let n := n mod DI4Y in
  let n1 := n / 365 in
  let n := n mod 365 in
  let y := y + n100 * 100 + n4 * 4 + n1 in
  if (n1 =? 4) || (n100 =? 4) then mkdate (y - 1) 12 31
  else
    let leapyear := (n1 =? 3) && (negb (n4 =? 24) || (n100 =? 3)) in
    let m := Z.shiftr (n + 50) 5 in
    let preceding :=
      table DAYS_BEFORE_MONTH m + (if (2 <? m) && leapyear then 1 else 0) in
    if n <? preceding then
      let m := m - 1 in
      let preceding :=
        preceding
        - (table DAYS_IN_MONTH m + (if (m =? 2) && leapyear then 1 else 0)) in
      mkdate y m (n - preceding + 1)
    else mkdate y m (n - preceding + 1).

(** The dates the constructor [date(year, month, day)] accepts. *)
Definition valid (d : date) : bool :=
  (1 <=? year d) && (year d <=? 9999) &&
  (1 <=? month d) && (month d <=? 12) &&
  (1 <=? day d) && (day d <=? days_in_month (year d) (month d)).

(** [timedelta(days=n)] for a Python int [n]: the number of days kept by the
    object.  The constructor refuses what does not fit a C [int] and then
    what exceeds 999999999 days in magnitude. *)
Definition timedelta_days (n : Z) : result Z :=
  if (n <? -2147483648) || (2147483647 <? n) then
    Raise (OverflowError [Lit "Python int too large to convert to C int"])
  else if (n <? -999999999) || (999999999 <? n) then
    Raise (OverflowError [Lit "days="; Lit (Str.of_nonneg (Z.abs n));
                          Lit "; must have magnitude <= 999999999"])
  else Ok n.

(** [date + timedelta] *)
Definition add (d : date) (delta_days : Z) : result date :=
  let o := ymd2ord d + delta_days in
  if (0 <? o) && (o <=? MAXORDINAL) then Ok (ord2ymd o)
  else Raise (OverflowError [Lit "date value out of range"]).

(** [strftime("%Y-%m-%d")].  The interpreter hands the format to the C
    library, and the C library of the platform (glibc) writes [%Y] as the
    plain decimal number of the year, without padding, and [%m] and [%d] on
    two digits: the year 999 comes out on three characters. *)
Definition strftime_ymd (d : date) : string :=
  Str.of_nonneg (year d) ++ "-" ++ Str.pad0 2 (month d) ++ "-" ++ Str.pad0 2 (day d).

(** The ISO form YYYY-MM-DD of a date, [date.isoformat()]: the year on four
    digits.  The handler does not call it; it is the form that the
    specification names. *)
Definition isoformat (d : date) : string :=
  Str.pad0 4 (year d) ++ "-" ++ Str.pad0 2 (month d) ++ "-" ++ Str.pad0 2 (day d).

(** *** [datetime.strptime(s, "%Y-%m-%d").date()]

    The library turns the format into the regular expression
    [(?P<Y>\d\d\d\d)-(?P<m>1[0-2]|0[1-9]|[1-9])-(?P<d>3[0-1]|[1-2]\d|0[1-9]|[1-9]| [1-9])],
    matches it at the start of the string, refuses what is left over and
    hands the three numbers to the [date] constructor. *)

Definition in_range (lo hi : Z) (c : ascii) : bool :=
  (lo <=? Chars.code c) && (Chars.code c <=? hi).

Definition re_year (s : string) : option (Z * string) :=
  match s with
  | String a (String b (String c (String d r))) =>
      if Chars.is_digit a && Chars.is_digit b && Chars.is_digit c && Chars.is_digit d
      then Some (Str.digits_value (String a (String b (String c (String d EmptyString)))), r)
      else None
  | _ => None
  end.

Definition re_dash (s : string) : option string :=
  match s with
  | String "-" r => Some r
  | _ => None
  end.

(** [1[0-2]|0[1-9]|[1-9]] followed by [-]: the first alternative that
    matches is the only one after which a dash can follow. *)
Definition re_month (s : string) : option (Z * string) :=
  match s with
  | String a r =>
      let one := if in_range 49 57 a then Some (Chars.digit_value a, r) else None in
      match r with
      | String b r' =>
          if Ascii.eqb a "1" && in_range 48 50 b then Some (10 + Chars.digit_value b, r')
          else if Ascii.eqb a "0" && in_range 49 57 b then Some (Chars.digit_value b, r')
          else one
      | EmptyString => one
      end
  | EmptyString => None
  end.

(** [3[0-1]|[1-2]\d|0[1-9]|[1-9]| [1-9]] at the end of the pattern: the
    first alternative that matches wins. *)
Definition re_day (s : string) : option (Z * string) :=
  match s with
  | String a r =>
      let one := if in_range 49 57 a then Some (Chars.digit_value a, r) else None in
      match r with
      | String b r' =>
          if Ascii.eqb a "3" && in_range 48 49 b then Some (30 + Chars.digit_value b, r')
          else if in_range 49 50 a && Chars.is_digit b
               then Some (10 * Chars.digit_value a + Chars.digit_value b, r')
          else if Ascii.eqb a "0" && in_range 49 57 b then Some (Chars.digit_value b, r')
          else if in_range 49 57 a then one
          else if Ascii.eqb a " " && in_range 49 57 b then Some (Chars.digit_value b, r')
          else None
      | EmptyString => one
      end
  | EmptyString => None
  end.

Definition re_ymd (s : string) : option (Z * Z * Z * string) :=
  match re_year s with
  | Some (y, r1) =>
      match re_dash r1 with
      | Some r2 =>
          match re_month r2 with
          | Some (m, r3) =>
              match re_dash r3 with
              | Some r4 =>
                  match re_day r4 with
                  | Some (d, r5) => Some (y, m, d, r5)
                  | None => None
                  end
              | None => None
              end
          | None => None
          end
      | None => None
      end
  | None => None
  end.

Definition strptime_ymd (s : string) : result date :=
  match re_ymd s with
  | None =>
      Raise (ValueError [Lit "time data "; ReprStr s;
                         Lit " does not match format "; ReprStr "%Y-%m-%d"])
  | Some (y, m, d, rest) =>
      if negb (Str.is_empty rest) then
        Raise (ValueError [Lit "unconverted data remains: "; Lit rest])
      else if y <? 1 then
        Raise (ValueError [Lit "year "; Lit (Str.of_nonneg y); Lit " is out of range"])
      else if days_in_month y m <? d then
        Raise (ValueError [Lit "day is out of range for month"])
      else Ok (mkdate y m d)
  end.

End Calendar.

(** ** [datetime] and [timedelta] in the token manager

    A [datetime] is counted in microseconds from 0001-01-01 00:00:00, the
    first instant of the type; the last one is 9999-12-31 23:59:59.999999.
    A [timedelta] is a number of microseconds. *)

Definition microseconds_per_second : Z := 1000000.

Module DateTime.

Definition seconds_per_day : Z := 86400.

(** The first instant after the last [datetime]. *)
Definition end_of_calendar : Z :=
  Calendar.MAXORDINAL * seconds_per_day * microseconds_per_second.

(** [%d] of an integer *)
Definition decimal (n : Z) : string :=
  if n <? 0 then "-" ++ Str.of_nonneg (- n) else Str.of_nonneg n.

(** [timedelta(seconds=n)] for a Python int [n]: the constructor splits the
    seconds into days and a rest, refuses a number of days that does not fit
    a C [int] and then one that exceeds 999999999 in magnitude. *)
Definition timedelta_seconds (n : Z) : result Z :=
  let days := n / seconds_per_day in
  if (days <? -2147483648) || (2147483647 <? days) then
    Raise (OverflowError [Lit "Python int too large to convert to C int"])
  else if (days <? -999999999) || (999999999 <? days) then
    Raise (OverflowError [Lit "days="; Lit (decimal days);
                          Lit "; must have magnitude <= 999999999"])
  else Ok (n * microseconds_per_second).

(** [datetime + timedelta]: the sum has to be a [datetime]. *)
Definition add (t delta : Z) : result Z :=
  let r := t + delta in
  if (0 <=? r) && (r <? end_of_calendar) then Ok r
  else Raise (OverflowError [Lit "date value out of range"]).

End DateTime.

(** ** [float]: IEEE binary64 values and [float(str)]

    Floats are the [spec_float] of the standard library at precision 53 and
    [emax] 1024, and [float(s)] rounds the decimal numeral to the nearest
    such value, ties to even, as CPython does. *)

Module PyFloat.

Definition prec : Z := 53.
Definition emax : Z := 1024.

Definition is_nan (f : spec_float) : bool :=
  match f with S754_nan => true | _ => false end.

(** [a < b] on floats *)
Definition lt (a b : spec_float) : bool := SFltb a b.

(** The value [(-1)^neg * D * 10^E] rounded to binary64. *)
Definition of_decimal (neg : bool) (D E : Z) : spec_float :=
  match D with
  | Zpos d =>
      if 0 <=? E then binary_round prec emax neg (d * Z.to_pos (10 ^ E)) 0
      else SFdiv prec emax (S754_finite neg d 0)
                            (S754_finite false (Z.to_pos (10 ^ (- E))) 0)
  | _ => S754_zero neg
  end.

(** White space that [float] removes at both ends: the ASCII white space,
    and the two other white-space code points below 256, which the
    conversion first turns into blanks. *)
Definition is_float_space (c : ascii) : bool :=
  let n := Chars.code c in
  ((9 <=? n) && (n <=? 13)) || (n =? 32) || (n =? 133) || (n =? 160).

Definition strip (s : string) : string :=
  let s1 := snd (Str.span is_float_space s) in
  Str.rev (snd (Str.span is_float_space (Str.rev s1))).

(** Underscores are accepted between two digits only, and dropped. *)
Fixpoint drop_underscores (prev_digit : bool) (s : string) : option string :=
  match s with
  | EmptyString => Some EmptyString
  | String c r =>
      if Ascii.eqb c "_" then
        match r with
        | String c' _ =>
            if prev_digit && Chars.is_digit c' then drop_underscores false r
            else None
        | EmptyString => None
        end
      else
        match drop_underscores (Chars.is_digit c) r with
        | Some r' => Some (String c r')
        | None => None
        end
  end.

Definition take_sign (s : string) : bool * string :=
  match s with
  | String "-" r => (true, r)
  | String "+" r => (false, r)
  | _ => (false, s)
  end.

Definition eqb_nocase (lit s : string) : bool :=
  match Str.strip_prefix_nocase lit s with
  | Some EmptyString => true
  | _ => false
  end.

(** The optional exponent part; [None] when what follows the mantissa is
    not an exponent or is followed by something else. *)
Definition parse_exponent (s : string) : option Z :=
  match s with
  | EmptyString => Some 0
  | String c r =>
      if Chars.eqb_nocase c "e" then
        let '(neg, r1) := take_sign r in
        let '(ds, r2) := Str.span Chars.is_digit r1 in
        if Str.is_empty ds || negb (Str.is_empty r2) then None
        else Some (if neg then - Str.digits_value ds else Str.digits_value ds)
      else None
  end.

Definition parse_number (neg : bool) (s : string) : option spec_float :=
  let '(int_part, r1) := Str.span Chars.is_digit s in
  let '(frac_part, r2) :=
    match r1 with
    | String "." r => Str.span Chars.is_digit r
    | _ => (EmptyString, r1)
    end in
  if Str.is_empty int_part && Str.is_empty frac_part then None
  else
    match parse_exponent r2 with
    | Some e =>
        Some (of_decimal neg (Str.digits_value (int_part ++ frac_part))
                         (e - Z.of_nat (String.length frac_part)))
    | None => None
    end.

Definition parse (s : string) : option spec_float :=
  match drop_underscores false (strip s) with
  | None => None
  | Some t =>
      let '(neg, body) := take_sign t in
      if eqb_nocase "inf" body || eqb_nocase "infinity" body then Some (S754_infinity neg)
      else if eqb_nocase "nan" body then Some S754_nan
      else parse_number neg body
  end.

(** [float(s)] for a string [s] *)
Definition of_string (s : string) : result spec_float :=
  match parse s with
  | Some f => Ok f
  | None => Raise (ValueError [Lit "could not convert string to float: "; ReprStr s])
  end.

End PyFloat.

(** ** Python values and dictionaries

    [params], [headers] and the response of the endpoint are dictionaries
    built key by key; they are kept as association lists in insertion order,
    which is the order in which Python serialises them. *)

#[local] Set Warnings "-register-all".

Inductive value :=
| VNone
| VStr (s : string)
| VInt (z : Z)
| VFloat (f : spec_float)
| VList (l : list value)
| VDict (d : list (string * value)).

Definition dict := list (string * value).

(** [d.get(k)] *)
Fixpoint dict_get (d : dict) (k : string) : option value :=
  match d with
  | [] => None
  | (k', v) :: r => if String.eqb k k' then Some v else dict_get r k
  end.

(** [d[k] = v] *)
Fixpoint dict_set (d : dict) (k : string) (v : value) : dict :=
  match d with
  | [] => [(k, v)]
  | (k', v') :: r =>
      if String.eqb k k' then (k', v) :: r else (k', v') :: dict_set r k v
  end.

Definition dict_has (d : dict) (k : string) : bool :=
  match dict_get d k with Some _ => true | None => false end.

(** ** What the provider sends

    The JSON documents of the provider are typed after the members the code
    reads.  A document that lacks one of them makes the Python code raise
    [KeyError] or [TypeError]; such documents are outside this model. *)

Record Endpoint := { iataCode : string; at_time : string }.

Record Segment := {
  carrierCode : string;
  number : string;
  departure : Endpoint;
  arrival : Endpoint;
  segment_duration : string
}.

Record Itinerary := { itinerary_duration : string; segments : list Segment }.

Record Price := { grandTotal : string }.

Record Offer := { price : Price; itineraries : list Itinerary }.

(** Body of the token endpoint: [{access_token, expires_in}], the life time
    in seconds. *)
Record TokenData := { access_token : string; expires_in : Z }.

(** Body of the search endpoint: the member [data] when there is one, and
    the text of the whole document, which error messages quote. *)
Record SearchData := { data : option (list Offer); source_text : string }.

Inductive Body (J : Type) :=
| Json (doc : J)
| NotJson (decode_error : message).
Arguments Json {J} doc.
Arguments NotJson {J} decode_error.

Record Response (J : Type) := {
  status_code : Z;
  reason : string;
  url : string;
  body : Body J
}.
Arguments status_code {J} r.
Arguments reason {J} r.
Arguments url {J} r.
Arguments body {J} r.

(** Outcome of [requests.get] or [requests.post]: the call raises (no
    connection, time out, ...) or returns a response. *)
Inductive Reply (J : Type) :=
| Failed (error : message)
| Answered (r : Response J).
Arguments Failed {J} error.
Arguments Answered {J} r.

(** ** The environment of one request

    The two readings of the clock ([datetime.now()]) are the one in
    [is_token_valid] and the one in [get_amadeus_token]; the endpoints
    answer as functions of what they are sent.  The clock of the machine
    reads a [datetime] that is more than five minutes before the last one:
    [clock_before_the_end] says that the sum that [is_token_valid] computes
    exists. *)
Record World := {
  AMADEUS_API_KEY : option string;
  AMADEUS_API_SECRET : option string;
  now_in_is_token_valid : Z;
  now_in_get_amadeus_token : Z;
  token_endpoint : dict -> Reply TokenData;
  search_endpoint : dict -> dict -> Reply SearchData;
  clock_before_the_end :
    DateTime.add now_in_is_token_valid (5 * 60 * microseconds_per_second)
    = Ok (now_in_is_token_valid + 5 * 60 * microseconds_per_second)
}.

(** Outbound HTTP calls, in the order they are made. *)
Inductive Event :=
| PostToken (url : string) (headers : dict) (form : dict)
| GetOffers (url : string) (headers : dict) (params : dict).

Definition is_PostToken (e : Event) : bool :=
  match e with PostToken _ _ _ => true | _ => false end.

Definition is_GetOffers (e : Event) : bool :=
  match e with GetOffers _ _ _ => true | _ => false end.

(** The module-level variables [token] and [token_expiry], and the log. *)
Record Store := mkStore {
  token : string;
  token_expiry : option Z;
  calls : list Event
}.

(** ** The monad of the handler: state and exceptions *)

Definition M (A : Type) : Type := Store -> result A * Store.

Definition ret {A} (a : A) : M A := fun s => (Ok a, s).

Definition raise {A} (e : exn) : M A := fun s => (Raise e, s).

Definition bind {A B} (m : M A) (k : A -> M B) : M B :=
  fun s =>
    match m s with
    | (Ok a, s') => k a s'
    | (Raise e, s') => (Raise e, s')
    end.

Definition lift {A} (r : result A) : M A := fun s => (r, s).

(** [try: m  except <classes>: h e]; what [m] did to the store stays. *)
Definition try_except {A} (m : M A) (classes : exn -> bool) (h : exn -> M A) : M A :=
  fun s =>
    match m s with
    | (Ok a, s') => (Ok a, s')
    | (Raise e, s') => if classes e then h e s' else (Raise e, s')
    end.

(** A [try] block whose first statement binds a local variable that the
    handler reads: [try: x = first; rest  except <classes> as e: h].  The
    handler receives [None] when [first] raised, the variable being unbound
    then, and [Some x] otherwise. *)
Definition try_binding {A B} (first : M A) (rest : A -> M B)
    (classes : exn -> bool) (h : option A -> exn -> M B) : M B :=
  fun s =>
    match first s with
    | (Raise e, s') => if classes e then h None e s' else (Raise e, s')
    | (Ok x, s') => try_except (rest x) classes (h (Some x)) s'
    end.

Declare Scope py_scope.
Delimit Scope py_scope with py.
Notation "x <- m ;; k" := (bind m (fun x => k))
  (at level 61, m at next level, right associativity) : py_scope.
Notation "m ;;; k" := (bind m (fun _ => k))
  (at level 61, right associativity) : py_scope.
Local Open Scope py_scope.

Definition get_token : M string := fun s => (Ok (token s), s).
Definition set_token (t : string) : M unit :=
  fun s => (Ok tt, mkStore t (token_expiry s) (calls s)).
Definition set_token_expiry (t : option Z) : M unit :=
  fun s => (Ok tt, mkStore (token s) t (calls s)).
Definition emit (e : Event) : M unit :=
  fun s => (Ok tt, mkStore (token s) (token_expiry s) (calls s ++ [e])).

(** ** The [requests] library *)

Definition of_reply {J} (r : Reply J) : M (Response J) :=
  match r with
  | Failed msg => raise (ConnectionError msg)
  | Answered resp => ret resp
  end.

Definition opt_str (o : option string) : value :=
  match o with Some s => VStr s | None => VNone end.

Definition requests_post (w : World) (u : string) (headers form : dict)
    : M (Response TokenData) :=
  emit (PostToken u headers form) ;;; of_reply (token_endpoint w form).

Definition requests_get (w : World) (u : string) (headers params : dict)
    : M (Response SearchData) :=
  emit (GetOffers u headers params) ;;; of_reply (search_endpoint w headers params).

(** [response.raise_for_status()] *)
Definition raise_for_status {J} (r : Response J) : M unit :=
  let c := status_code r in
  if (400 <=? c) && (c <? 500) then
    raise (HTTPError [Lit (Str.of_nonneg c); Lit " Client Error: "; Lit (reason r);
                      Lit " for url: "; Lit (url r)])
  else if (500 <=? c) && (c <? 600) then
    raise (HTTPError [Lit (Str.of_nonneg c); Lit " Server Error: "; Lit (reason r);
                      Lit " for url: "; Lit (url r)])
  else ret tt.

(** [response.json()] *)
Definition response_json {J} (r : Response J) : M J :=
  match body r with
  | Json doc => ret doc
  | NotJson msg => raise (JSONDecodeError msg)
  end.

(** ** Token manager *)

(** [token] is assigned before [token_expiry], as in the source: when the
    life time or the expiry leaves the range of [timedelta] or [datetime],
    the [OverflowError] comes after the new token is stored, and the clause
    for [RequestException] does not catch it. *)
Definition get_amadeus_token (w : World) : M unit :=
  let url := "https://test.api.amadeus.com/v1/security/oauth2/token" in
  let headers := [("Content-Type", VStr "application/x-www-form-urlencoded")] in
  let data := [("grant_type", VStr "client_credentials");
               ("client_id", opt_str (AMADEUS_API_KEY w));
               ("client_secret", opt_str (AMADEUS_API_SECRET w))] in
  try_except
    (response <- requests_post w url headers data ;;
     raise_for_status response ;;;
     token_data <- response_json response ;;
     set_token (access_token token_data) ;;;
     life_time <- lift (DateTime.timedelta_seconds (expires_in token_data)) ;;
     expiry <- lift (DateTime.add (now_in_get_amadeus_token w) life_time) ;;
     set_token_expiry (Some expiry))
    is_RequestException
    (fun e => raise (HTTPException 500 [Lit "Failed to authenticate with Amadeus API."])).

(** [token and token_expiry and token_expiry > datetime.now() + timedelta(minutes=5)],
    as the truth value the caller tests.  The sum is computed only when
    there is a token and an expiry. *)
Definition is_token_valid (w : World) : M bool :=
  fun s =>
    if Str.is_empty (token s) then (Ok false, s)
    else
      match token_expiry s with
      | None => (Ok false, s)
      | Some expiry =>
          match DateTime.add (now_in_is_token_valid w)
                  (5 * 60 * microseconds_per_second) with
          | Ok limit => (Ok (limit <? expiry), s)
          | Raise e => (Raise e, s)
          end
      end.

(** ** Offer resolver *)

(** Truth value of the optional query parameter [duration]: [None] and the
    empty string are false. *)
Definition truthy (duration : option string) : bool :=
  match duration with
  | Some (String _ _) => true
  | _ => false
  end.

(** [int(s)] on a run of decimal digits.  The interpreter refuses a
    numeral of more than 4300 digits, leading zeros included (the limit of
    [sys.get_int_max_str_digits()], which the program leaves at its
    default). *)
Definition int_max_str_digits : nat := 4300.

Definition int_limit_exceeded (s : string) : message :=
  [Lit "Exceeds the limit (4300 digits) for integer string conversion: value has ";
   Lit (Str.of_nonneg (Z.of_nat (String.length s)));
   Lit " digits; use sys.set_int_max_str_digits() to increase the limit"].

Definition int_of_digits (s : string) : result Z :=
  if (int_max_str_digits <? String.length s)%nat
  then Raise (ValueError (int_limit_exceeded s))
  else Ok (Str.digits_value s).

(** The key of the selection, [float(x["price"]["grandTotal"])]. *)
Definition price_key (x : Offer) : result spec_float :=
  PyFloat.of_string (grandTotal (price x)).

(** [min(l, key=key)]: the keys are computed in order, and an element
    replaces the current one only when its key is strictly smaller. *)
Fixpoint min_loop {A} (key : A -> result spec_float)
    (best : A) (best_key : spec_float) (l : list A) : result A :=
  match l with
  | [] => Ok best
  | x :: r =>
      rbind (key x) (fun k =>
        if PyFloat.lt k best_key then min_loop key x k r
        else min_loop key best best_key r)
  end.

Definition py_min {A} (key : A -> result spec_float) (l : list A) : result A :=
  match l with
  | [] => Raise (ValueError [Lit "min() arg is an empty sequence"])
  | x :: r => rbind (key x) (fun k => min_loop key x k r)
  end.

(** [l[i]] on a list *)
Definition list_index {A} (l : list A) (i : nat) : result A :=
  match nth_error l i with
  | Some x => Ok x
  | None => Raise (IndexError [Lit "list index out of range"])
  end.

Definition segment_info (segment : Segment) : value :=
  VDict [("airline_code", VStr (carrierCode segment));
         ("flight_number", VStr (number segment));
         ("departure_airport", VStr (iataCode (departure segment)));
         ("departure_time", VStr (at_time (departure segment)));
         ("arrival_airport", VStr (iataCode (arrival segment)));
         ("arrival_time", VStr (at_time (arrival segment)));
         ("duration", VStr (segment_duration segment))].

Definition parse_itinerary_details (itinerary : Itinerary) : value :=
  let segments_info := map segment_info (segments itinerary) in
  VDict [("total_duration", VStr (itinerary_duration itinerary));
         ("segments", VList segments_info)].

Definition invalid_duration_format : message :=
  [Lit "Invalid duration format. Please use 'X days'."].

Definition no_offers_found : dict :=
  [("message", VStr "No flight offers found for the specified criteria.")].

Definition or_none (o : option value) : value :=
  match o with Some v => v | None => VNone end.

(** The [except requests.exceptions.RequestException as e] clause of the
    search.  [response] is the local variable of the handler, unbound when
    [requests.get] itself raised. *)
Definition on_request_exception (response : option (Response SearchData)) (e : exn)
    : M dict :=
  let detail :=
    ([Lit "An error occurred while fetching flight data: "] ++ exn_text e)%list in
  try_except
    (match response with
     | None =>
         raise (UnboundLocalError
                  [Lit "cannot access local variable 'response' where it is not associated with a value"])
     | Some response =>
         error_json <- response_json response ;;
         let detail :=
           if status_code response =? 400 then
             [Lit "Bad request to Amadeus API. Please check your parameters. Error: ";
              ReprJson (source_text error_json)]
           else if status_code response =? 401 then
             [Lit "Amadeus authentication failed. Please check your API key and secret."]
           else if status_code response =? 404 then
             [Lit "The requested resource was not found on the Amadeus API."]
           else detail in
         raise (HTTPException (status_code response) detail)
     end)
    is_ValueError
    (fun _ => raise (HTTPException 500 (exn_text e))).

(** The endpoint.  [duration] is [None] when the query has no such
    parameter; [if duration:] holds for a string that is not empty.  The
    result is the dictionary that the framework turns into the JSON body of
    a 200 response; an [HTTPException] becomes a response with its status,
    any other exception a 500 response. *)
Definition get_flight_price (w : World)
    (origin destination departure_date : string) (duration : option string)
    : M dict :=
  valid <- is_token_valid w ;;
  (if negb valid then get_amadeus_token w else ret tt) ;;;
  let url := "https://test.api.amadeus.com/v2/shopping/flight-offers" in
  let params := [("originLocationCode", VStr origin);
                 ("destinationLocationCode", VStr destination);
                 ("departureDate", VStr departure_date);
                 ("adults", VInt 1);
                 ("currencyCode", VStr "INR");
                 ("max", VInt 10)] in
  params <-
    (match duration with
     | Some (String c r) =>
         let duration := String c r in
         try_except
           (match re_match_days duration with
            | None => raise (ValueError invalid_duration_format)
            | Some group1 =>
                days_to_add <- lift (int_of_digits group1) ;;
                dep_date_obj <- lift (Calendar.strptime_ymd departure_date) ;;
                delta <- lift (Calendar.timedelta_days days_to_add) ;;
                return_date_obj <- lift (Calendar.add dep_date_obj delta) ;;
                ret (dict_set params "returnDate"
                       (VStr (Calendar.strftime_ymd return_date_obj)))
            end)
           (fun e => is_ValueError e || is_IndexError e)
           (fun e => raise (HTTPException 400 (exn_text e)))
     | _ => ret params
     end) ;;
  current_token <- get_token ;;
  let headers := [("Authorization", VStr ("Bearer " ++ current_token))] in
  try_binding
    (requests_get w url headers params)
    (fun response =>
       raise_for_status response ;;;
       doc <- response_json response ;;
       let flight_offers := match data doc with Some l => l | None => [] end in
       match flight_offers with
       | [] => ret no_offers_found
       | _ :: _ =>
           cheapest_offer <- lift (py_min price_key flight_offers) ;;
           first_itinerary <- lift (list_index (itineraries cheapest_offer) 0) ;;
           let outbound_journey := parse_itinerary_details first_itinerary in
           total <- lift (price_key cheapest_offer) ;;
           let response_data :=
             [("journey_type", VStr (if truthy duration then "two-way" else "one-way"));
              ("total_price_in_inr", VFloat total);
              ("outbound_journey", outbound_journey)] in
           if truthy duration && (1 <? List.length (itineraries cheapest_offer))%nat then
             second_itinerary <- lift (list_index (itineraries cheapest_offer) 1) ;;
             let return_journey := parse_itinerary_details second_itinerary in
             let response_data := dict_set response_data "return_journey" return_journey in
             ret (dict_set response_data "return_date"
                    (or_none (dict_get params "returnDate")))
           else ret response_data
       end)
    is_RequestException
    on_request_exception.

(** One request: the handler run from a credential, with an empty log. *)
Definition run {A} (m : M A) (tok : string) (expiry : option Z) : result A * Store :=
  m (mkStore tok expiry []).

(** ** The handler as a sequence of three steps

    [get_flight_price] first makes sure of the token, then builds the query,
    then searches and shapes the answer.  The three steps are named here for
    the proofs; [get_flight_price_steps] below shows that the handler is
    their sequence. *)

Definition ensure_token (w : World) : M unit :=
  valid <- is_token_valid w ;;
  (if negb valid then get_amadeus_token w else ret tt).

Definition search_url : string :=
  "https://test.api.amadeus.com/v2/shopping/flight-offers".

Definition base_params (origin destination departure_date : string) : dict :=
  [("originLocationCode", VStr origin);
   ("destinationLocationCode", VStr destination);
   ("departureDate", VStr departure_date);
   ("adults", VInt 1);
   ("currencyCode", VStr "INR");
   ("max", VInt 10)].

(** The body of the [try] around the duration, for a non-empty string. *)
Definition return_date (departure_date duration : string) : result string :=
  match re_match_days duration with
  | None => Raise (ValueError invalid_duration_format)
  | Some group1 =>
      rbind (int_of_digits group1) (fun days_to_add =>
      rbind (Calendar.strptime_ymd departure_date) (fun dep_date_obj =>
      rbind (Calendar.timedelta_days days_to_add) (fun delta =>
      rbind (Calendar.add dep_date_obj delta) (fun return_date_obj =>
      Ok (Calendar.strftime_ymd return_date_obj)))))
  end.

Definition build_params (origin destination departure_date : string)
    (duration : option string) : result dict :=
  let params := base_params origin destination departure_date in
  match duration with
  | Some (String c r) =>
      match return_date departure_date (String c r) with
      | Ok d => Ok (dict_set params "returnDate" (VStr d))
      | Raise e =>
          if is_ValueError e || is_IndexError e
          then Raise (HTTPException 400 (exn_text e))
          else Raise e
      end
  | _ => Ok params
  end.

Definition offers_of (doc : SearchData) : list Offer :=
  match data doc with Some l => l | None => [] end.

(** What the handler returns once the offers are at hand. *)
Definition shape_response (params : dict) (duration : option string)
    (flight_offers : list Offer) : result dict :=
  match flight_offers with
  | [] => Ok no_offers_found
  | _ :: _ =>
      rbind (py_min price_key flight_offers) (fun cheapest_offer =>
      rbind (list_index (itineraries cheapest_offer) 0) (fun first_itinerary =>
      rbind (price_key cheapest_offer) (fun total =>
      let response_data :=
        [("journey_type", VStr (if truthy duration then "two-way" else "one-way"));
         ("total_price_in_inr", VFloat total);
         ("outbound_journey", parse_itinerary_details first_itinerary)] in
      if truthy duration && (1 <? List.length (itineraries cheapest_offer))%nat then
        rbind (list_index (itineraries cheapest_offer) 1) (fun second_itinerary =>
        Ok (dict_set
              (dict_set response_data "return_journey"
                 (parse_itinerary_details second_itinerary))
              "return_date" (or_none (dict_get params "returnDate"))))
      else Ok response_data)))
  end.

Definition auth_headers (tok : string) : dict :=
  [("Authorization", VStr ("Bearer " ++ tok))].

Definition is_error_status (c : Z) : bool := (400 <=? c) && (c <? 600).

(** What the caller gets for an answer of the search endpoint. *)
Definition classify (params : dict) (duration : option string)
    (reply : Reply SearchData) (s : Store) : result dict * Store :=
  match reply with
  | Failed msg => on_request_exception None (ConnectionError msg) s
  | Answered response =>
      try_except
        (raise_for_status response ;;;
         doc <- response_json response ;;
         lift (shape_response params duration (offers_of doc)))
        is_RequestException
        (on_request_exception (Some response)) s
  end.

Definition search_step (w : World) (params : dict) (duration : option string)
    : M dict :=
  fun s =>
    let headers := auth_headers (token s) in
    classify params duration (search_endpoint w headers params)
      (mkStore (token s) (token_expiry s)
         (calls s ++ [GetOffers search_url headers params])).

Definition token_url : string :=
  "https://test.api.amadeus.com/v1/security/oauth2/token".

(** ** Notions used in the statements *)

Definition five_minutes : Z := 5 * 60 * microseconds_per_second.
Definition ten_minutes : Z := 10 * 60 * microseconds_per_second.

(** The rule of the specification for the cached credential. *)
Definition credential_valid (now : Z) (tok : string) (expiry : option Z) : Prop :=
  tok <> "" /\ exists e, expiry = Some e /\ e - now > five_minutes.

Definition refreshed (s : Store) : bool := existsb is_PostToken (calls s).
Definition searched (s : Store) : bool := existsb is_GetOffers (calls s).

(** The query of the last call, when that call is a search. *)
Definition sent_params (s : Store) : option dict :=
  match last (map Some (calls s)) None with
  | Some (GetOffers _ _ params) => Some params
  | _ => None
  end.

(** The response to the last call, when that call is a search that the
    provider answered. *)
Definition search_response (w : World) (s : Store) : option (Response SearchData) :=
  match last (map Some (calls s)) None with
  | Some (GetOffers _ headers params) =>
      match search_endpoint w headers params with
      | Answered r => Some r
      | Failed _ => None
      end
  | _ => None
  end.

(** The strings that begin with a match of [(\d+)\s*days] without case,
    "<N> days": [digits] is the run of digits at the front. *)
Definition begins_with_days (duration digits : string) : Prop :=
  exists spaces word rest,
    duration = (digits ++ spaces ++ word ++ rest)%string
    /\ digits <> ""
    /\ Str.all Chars.is_digit digits = true
    /\ Str.all Chars.is_space spaces = true
    /\ Str.strip_prefix_nocase "days" word = Some "".

(** The error of a malformed duration string. *)
Definition InvalidArgument : exn := HTTPException 400 invalid_duration_format.

(** [i] is the position of the first minimal key of [keys]. *)
Definition first_minimal (keys : list spec_float) (i : nat) : Prop :=
  exists k, nth_error keys i = Some k
    /\ (forall j kj, nth_error keys j = Some kj -> PyFloat.lt kj k = false)
    /\ (forall j kj, (j < i)%nat -> nth_error keys j = Some kj -> PyFloat.lt k kj = true).

(** [keys] are the keys of the elements of [l], none of them a NaN. *)
Definition keyed {A} (key : A -> result spec_float)
    (l : list A) (keys : list spec_float) : Prop :=
  Forall2 (fun x k => key x = Ok k /\ PyFloat.is_nan k = false) l keys.

(** Every offer of [offers] has a price that [float] reads as a number. *)
Definition priced (offers : list Offer) (keys : list spec_float) : Prop :=
  keyed price_key offers keys.

(** Where a request can stop: in the token step, on the query, or after the
    search, which then is the last call of the log. *)
Inductive stage (w : World) (origin destination departure_date : string)
    (duration : option string) (s : Store) : result dict * Store -> Prop :=
| stage_token e s1 :
    ensure_token w s = (Raise e, s1) ->
    stage w origin destination departure_date duration s (Raise e, s1)
| stage_params e s1 :
    ensure_token w s = (Ok tt, s1) ->
    build_params origin destination departure_date duration = Raise e ->
    stage w origin destination departure_date duration s (Raise e, s1)
| stage_search s1 params r :
    ensure_token w s = (Ok tt, s1) ->
    build_params origin destination departure_date duration = Ok params ->
    classify params duration (search_endpoint w (auth_headers (token s1)) params) s1
      = (r, s1) ->
    stage w origin destination departure_date duration s
      (r, mkStore (token s1) (token_expiry s1)
            (calls s1 ++ [GetOffers search_url (auth_headers (token s1)) params])).

(** ** Sample data for the instances *)

Definition sample_segment : Segment :=
  {| carrierCode := "AI"; number := "865";
     departure := {| iataCode := "DEL"; at_time := "2024-03-01T06:00:00" |};
     arrival := {| iataCode := "BOM"; at_time := "2024-03-01T08:10:00" |};
     segment_duration := "PT2H10M" |}.

Definition sample_itinerary : Itinerary :=
  {| itinerary_duration := "PT2H10M"; segments := [sample_segment] |}.

(** An offer at price [p] with [n] itineraries. *)
Definition sample_offer (p : string) (n : nat) : Offer :=
  {| price := {| grandTotal := p |}; itineraries := repeat sample_itinerary n |}.

Definition sample_response (c : Z) (b : Body SearchData) : Response SearchData :=
  {| status_code := c; reason := "-"; url := search_url; body := b |}.

Definition offers_response (offers : list Offer) : Reply SearchData :=
  Answered (sample_response 200
              (Json {| data := Some offers; source_text := "{...}" |})).

(** A provider that hands out the token ["T"] for 1799 seconds and answers
    every search with [reply]; the clock reads 0, then 10. *)
Definition sample_world (reply : Reply SearchData) : World :=
  {| AMADEUS_API_KEY := Some "id";
     AMADEUS_API_SECRET := Some "secret";
     now_in_is_token_valid := 0;
     now_in_get_amadeus_token := 10;
     token_endpoint := fun _ =>
       Answered {| status_code := 200; reason := "OK"; url := "-";
                   body := Json {| access_token := "T"; expires_in := 1799 |} |};
     search_endpoint := fun _ _ => reply;
     clock_before_the_end := eq_refl |}.

(** A cached token that is good for ten more minutes in [sample_world]. *)
Definition fresh_expiry : option Z := Some ten_minutes.

(** Three offers priced 500, 250 and 999; the second one has [n]
    itineraries, the other two have two. *)
Definition sample_offers (n : nat) : list Offer :=
  [sample_offer "500" 2; sample_offer "250" n; sample_offer "999" 2].

(** A request from Delhi to Mumbai with a valid cached token, answered with
    [offers]. *)
Definition sample_run (offers : list Offer) (departure_date : string)
    (duration : option string) : result dict * Store :=
  run (get_flight_price (sample_world (offers_response offers)) "DEL" "BOM"
         departure_date duration) "cached" fresh_expiry.

(** A provider that hands out the token ["T"] for [n] seconds and finds no
    offer; the clock reads 0, then 10. *)
Definition long_lived_world (n : Z) : World :=
  {| AMADEUS_API_KEY := Some "id";
     AMADEUS_API_SECRET := Some "secret";
     now_in_is_token_valid := 0;
     now_in_get_amadeus_token := 10;
     token_endpoint := fun _ =>
       Answered {| status_code := 200; reason := "OK"; url := "-";
                   body := Json {| access_token := "T"; expires_in := n |} |};
     search_endpoint := fun _ _ => offers_response [];
     clock_before_the_end := eq_refl |}.

Definition payload_of (out : result dict * Store) : dict :=
  match fst out with Ok payload => payload | Raise _ => [] end.

(** ** Further notions: the token call and the reading of a result *)

(** What [get_amadeus_token] posts: the headers and the form. *)
Definition token_headers : dict :=
  [("Content-Type", VStr "application/x-www-form-urlencoded")].

Definition token_form (w : World) : dict :=
  [("grant_type", VStr "client_credentials");
   ("client_id", opt_str (AMADEUS_API_KEY w));
   ("client_secret", opt_str (AMADEUS_API_SECRET w))].

(** The life time [n] of a new token, in seconds, is one that the refresh
    can add to its clock: it fits a [timedelta], and the expiry is a
    [datetime]. *)
Definition life_time_fits (w : World) (n : Z) : bool :=
  (-999999999 <=? n / DateTime.seconds_per_day)
  && (n / DateTime.seconds_per_day <=? 999999999)
  && (0 <=? now_in_get_amadeus_token w + n * microseconds_per_second)
  && (now_in_get_amadeus_token w + n * microseconds_per_second
      <? DateTime.end_of_calendar).

(** The error of a failed refresh. *)
Definition authentication_failed : exn :=
  HTTPException 500 [Lit "Failed to authenticate with Amadeus API."].

(** The text of [UnboundLocalError] for the local variable [response]. *)
Definition response_unbound : message :=
  [Lit "cannot access local variable 'response' where it is not associated with a value"].

(** A caller of the endpoint reads a journey of the result back by its
    keys. *)
Definition get_str (d : dict) (k : string) : option string :=
  match dict_get d k with
  | Some (VStr s) => Some s
  | _ => None
  end.

Definition read_segment (v : value) : option Segment :=
  match v with
  | VDict d =>
      match get_str d "airline_code", get_str d "flight_number",
            get_str d "departure_airport", get_str d "departure_time",
            get_str d "arrival_airport", get_str d "arrival_time",
            get_str d "duration" with
      | Some a, Some n, Some da, Some dt, Some aa, Some at', Some du =>
          Some {| carrierCode := a; number := n;
                  departure := {| iataCode := da; at_time := dt |};
                  arrival := {| iataCode := aa; at_time := at' |};
                  segment_duration := du |}
      | _, _, _, _, _, _, _ => None
      end
  | _ => None
  end.

Fixpoint read_segments (l : list value) : option (list Segment) :=
  match l with
  | [] => Some []
  | v :: r =>
      match read_segment v, read_segments r with
      | Some x, Some xs => Some (x :: xs)
      | _, _ => None
      end
  end.

Definition read_itinerary (v : value) : option Itinerary :=
  match v with
  | VDict d =>
      match get_str d "total_duration", dict_get d "segments" with
      | Some t, Some (VList l) =>
          match read_segments l with
          | Some segs => Some {| itinerary_duration := t; segments := segs |}
          | None => None
          end
      | _, _ => None
      end
  | _ => None
  end.

(** The keys of a dictionary, in order. *)
Definition dict_keys (d : dict) : list string := map fst d.

(** * Proofs *)

Local Open Scope list_scope.

(** ** The monad *)

Lemma bind_ext {A B} (m m' : M A) (f g : A -> M B) (s : Store) :
  (forall s0, m s0 = m' s0) -> (forall a s0, f a s0 = g a s0) ->
  bind m f s = bind m' g s.
Proof.
  intros Hm Hf. unfold bind. rewrite Hm.
  destruct (m' s) as [[a|e] s1]; [apply Hf | reflexivity].
Qed.

Lemma bind_assoc {A B C} (m : M A) (f : A -> M B) (g : B -> M C) (s : Store) :
  bind (bind m f) g s = bind m (fun a => bind (f a) g) s.
Proof.
  unfold bind. destruct (m s) as [[a|e] s1]; reflexivity.
Qed.

(** ** The handler is the sequence of its three steps *)

Lemma shape_response_run (params : dict) (duration : option string) (x : Offer) (r : list Offer) (s : Store) :
  (cheapest_offer <- lift (py_min price_key (x :: r)) ;;
   first_itinerary <- lift (list_index (itineraries cheapest_offer) 0) ;;
   let outbound_journey := parse_itinerary_details first_itinerary in
   total <- lift (price_key cheapest_offer) ;;
   let response_data :=
     [("journey_type", VStr (if truthy duration then "two-way" else "one-way"));
      ("total_price_in_inr", VFloat total);
      ("outbound_journey", outbound_journey)] in
   if truthy duration && (1 <? List.length (itineraries cheapest_offer))%nat then
     second_itinerary <- lift (list_index (itineraries cheapest_offer) 1) ;;
     let return_journey := parse_itinerary_details second_itinerary in
     let response_data := dict_set response_data "return_journey" return_journey in
     ret (dict_set response_data "return_date" (or_none (dict_get params "returnDate")))
   else ret response_data) s
  = lift (shape_response params duration (x :: r)) s.
Proof.
  unfold shape_response, bind, lift, ret, rbind.
  destruct (py_min price_key (x :: r)) as [o|e]; [|reflexivity].
  destruct (list_index (itineraries o) 0) as [i0|e]; [|reflexivity].
  destruct (price_key o) as [t|e]; [|reflexivity].
  cbv zeta.
  destruct (truthy duration && (1 <? List.length (itineraries o))%nat); [|reflexivity].
  destruct (list_index (itineraries o) 1) as [i1|e]; reflexivity.
Qed.

Lemma duration_block_run origin destination departure_date duration s :
  (match duration with
     | Some (String c r) =>
         let duration := String c r in
         try_except
           (match re_match_days duration with
            | None => raise (ValueError invalid_duration_format)
            | Some group1 =>
                days_to_add <- lift (int_of_digits group1) ;;
                dep_date_obj <- lift (Calendar.strptime_ymd departure_date) ;;
                delta <- lift (Calendar.timedelta_days days_to_add) ;;
                return_date_obj <- lift (Calendar.add dep_date_obj delta) ;;
                ret (dict_set (base_params origin destination departure_date) "returnDate"
                       (VStr (Calendar.strftime_ymd return_date_obj)))
            end)
           (fun e => is_ValueError e || is_IndexError e)
           (fun e => raise (HTTPException 400 (exn_text e)))
     | _ => ret (base_params origin destination departure_date)
     end) s
  = lift (build_params origin destination departure_date duration) s.
Proof.
  unfold build_params, return_date.
  destruct duration as [[|c r]|]; try reflexivity.
  cbv zeta. unfold try_except, lift, raise, ret, bind, rbind.
  destruct (re_match_days (String c r)) as [g|]; [|reflexivity].
  destruct (int_of_digits g) as [k|e]; [|simpl; destruct (_ || _); reflexivity].
  destruct (Calendar.strptime_ymd departure_date) as [d|e]; [|simpl; destruct (_ || _); reflexivity].
  destruct (Calendar.timedelta_days k) as [n|e]; [|simpl; destruct (_ || _); reflexivity].
  destruct (Calendar.add d n) as [d'|e]; [reflexivity|simpl; destruct (_ || _); reflexivity].
Qed.

Lemma search_block_run w params duration s :
  (current_token <- get_token ;;
   let headers := [("Authorization", VStr ("Bearer " ++ current_token))] in
   try_binding
    (requests_get w search_url headers params)
    (fun response =>
       raise_for_status response ;;;
       doc <- response_json response ;;
       let flight_offers := match data doc with Some l => l | None => [] end in
       match flight_offers with
       | [] => ret no_offers_found
       | _ :: _ =>
           cheapest_offer <- lift (py_min price_key flight_offers) ;;
           first_itinerary <- lift (list_index (itineraries cheapest_offer) 0) ;;
           let outbound_journey := parse_itinerary_details first_itinerary in
           total <- lift (price_key cheapest_offer) ;;
           let response_data :=
             [("journey_type", VStr (if truthy duration then "two-way" else "one-way"));
              ("total_price_in_inr", VFloat total);
              ("outbound_journey", outbound_journey)] in
           if truthy duration && (1 <? List.length (itineraries cheapest_offer))%nat then
             second_itinerary <- lift (list_index (itineraries cheapest_offer) 1) ;;
             let return_journey := parse_itinerary_details second_itinerary in
             let response_data := dict_set response_data "return_journey" return_journey in
             ret (dict_set response_data "return_date"
                    (or_none (dict_get params "returnDate")))
           else ret response_data
       end)
    is_RequestException
    on_request_exception) s
  = search_step w params duration s.
Proof.
  unfold search_step, classify, get_token.
  unfold bind at 1. cbv zeta.
  unfold try_binding, requests_get, auth_headers.
  unfold bind at 1. unfold emit at 1.
  destruct (search_endpoint w _ params) as [msg|response]; [reflexivity|].
  unfold of_reply, ret at 1.
  unfold try_except.
  set (s1 := mkStore _ _ _).
  match goal with |- (match ?a with _ => _ end) = (match ?b with _ => _ end) =>
    assert (E : a = b); [|rewrite E; reflexivity] end.
  apply bind_ext; [reflexivity|]. intros _ s2.
  apply bind_ext; [reflexivity|]. intros doc s3.
  unfold offers_of.
  destruct (match data doc with Some l => l | None => [] end) as [|x r] eqn:E; [reflexivity|].
  apply shape_response_run.
Qed.

Lemma get_flight_price_steps w origin destination departure_date duration s :
  get_flight_price w origin destination departure_date duration s
  = (ensure_token w ;;;
     params <- lift (build_params origin destination departure_date duration) ;;
     search_step w params duration) s.
Proof.
  unfold get_flight_price, ensure_token.
  rewrite bind_assoc.
  apply bind_ext; [reflexivity|]. intros v s0.
  apply bind_ext; [reflexivity|]. intros _ s1.
  cbv zeta.
  apply bind_ext.
  - intros s2. apply duration_block_run.
  - intros params s2. apply search_block_run.
Qed.

(** ** The token step *)

(** With the clock of [World] the check never raises: it is the test
    [token] not empty and [token_expiry] later than the clock plus five
    minutes. *)
Lemma is_token_valid_eq w s :
  is_token_valid w s
  = (Ok (negb (Str.is_empty (token s))
         && match token_expiry s with
            | Some expiry =>
                now_in_is_token_valid w + 5 * 60 * microseconds_per_second <? expiry
            | None => false
            end),
     s).
Proof.
  unfold is_token_valid. rewrite (clock_before_the_end w).
  destruct (Str.is_empty (token s)); [reflexivity|].
  destruct (token_expiry s); reflexivity.
Qed.

Lemma is_token_valid_store w s : snd (is_token_valid w s) = s.
Proof. now rewrite is_token_valid_eq. Qed.

Lemma is_token_valid_true w s :
  fst (is_token_valid w s) = Ok true
  <-> credential_valid (now_in_is_token_valid w) (token s) (token_expiry s).
Proof.
  rewrite is_token_valid_eq.
  unfold credential_valid, five_minutes, microseconds_per_second.
  cbn [fst].
  split.
  - intros H. injection H as H. apply andb_true_iff in H as [Ht He].
    split.
    + intros E. rewrite E in Ht. discriminate.
    + destruct (token_expiry s) as [e|]; [|discriminate].
      exists e. split; [reflexivity|]. apply Z.ltb_lt in He. lia.
  - intros [Ht [e [Ee He]]]. rewrite Ee. f_equal.
    apply andb_true_iff. split.
    + destruct (token s); [congruence|reflexivity].
    + apply Z.ltb_lt. lia.
Qed.

Lemma is_token_valid_bool w s : exists b, is_token_valid w s = (Ok b, s).
Proof. eexists. apply is_token_valid_eq. Qed.

Lemma ensure_token_when_valid w s :
  fst (is_token_valid w s) = Ok true -> ensure_token w s = (Ok tt, s).
Proof.
  intros H. unfold ensure_token, bind.
  destruct (is_token_valid_bool w s) as [b E]. rewrite E in *. cbn in H.
  injection H as ->. reflexivity.
Qed.

Lemma ensure_token_when_invalid w s :
  fst (is_token_valid w s) = Ok false -> ensure_token w s = get_amadeus_token w s.
Proof.
  intros H. unfold ensure_token, bind.
  destruct (is_token_valid_bool w s) as [b E]. rewrite E in *. cbn in H.
  injection H as ->. reflexivity.
Qed.

Lemma raise_for_status_error {J} (r : Response J) :
  is_error_status (status_code r) = true ->
  exists m, forall s, raise_for_status r s = (Raise (HTTPError m), s).
Proof.
  unfold is_error_status, raise_for_status. intros H.
  apply andb_true_iff in H as [H1 H2]. rewrite H1. cbn [andb].
  destruct (status_code r <? 500) eqn:E; [eexists; intros s; reflexivity|].
  assert (E5 : (500 <=? status_code r) = true).
  { apply Z.leb_le. apply Z.ltb_ge in E. exact E. }
  rewrite E5, H2. eexists; intros s; reflexivity.
Qed.

Lemma raise_for_status_pass {J} (r : Response J) (s : Store) :
  is_error_status (status_code r) = false ->
  raise_for_status r s = (Ok tt, s).
Proof.
  unfold is_error_status, raise_for_status. intros H.
  destruct (400 <=? status_code r) eqn:E4; cbn [andb] in *.
  - rewrite H. rewrite andb_false_r.
    destruct (status_code r <? 500) eqn:E5; [|reflexivity].
    apply Z.ltb_lt in E5. apply Z.ltb_ge in H. lia.
  - destruct (500 <=? status_code r) eqn:E5; [|reflexivity].
    apply Z.leb_le in E5. apply Z.leb_gt in E4. lia.
Qed.

Lemma timedelta_seconds_raise n e :
  DateTime.timedelta_seconds n = Raise e -> exists m, e = OverflowError m.
Proof.
  unfold DateTime.timedelta_seconds. cbv zeta.
  destruct (_ || _); [intros H; injection H as <-; eauto|].
  destruct (_ || _); [intros H; injection H as <-; eauto|discriminate].
Qed.

Lemma timedelta_seconds_ok n delta :
  DateTime.timedelta_seconds n = Ok delta -> delta = n * microseconds_per_second.
Proof.
  unfold DateTime.timedelta_seconds. cbv zeta.
  destruct (_ || _); [discriminate|]. destruct (_ || _); [discriminate|].
  intros H. now injection H.
Qed.

Lemma datetime_add_raise t delta e :
  DateTime.add t delta = Raise e -> exists m, e = OverflowError m.
Proof.
  unfold DateTime.add. cbv zeta. destruct (_ && _); [discriminate|].
  intros H. injection H as <-. eauto.
Qed.

Lemma datetime_add_ok t delta r :
  DateTime.add t delta = Ok r -> r = t + delta /\ 0 <= r < DateTime.end_of_calendar.
Proof.
  unfold DateTime.add. cbv zeta.
  destruct (_ && _) eqn:E; [|discriminate].
  intros H. injection H as <-. apply andb_true_iff in E as [E1 E2].
  apply Z.leb_le in E1. apply Z.ltb_lt in E2. auto.
Qed.

(** The expiry that a refresh computes from the life time of the token. *)
Lemma new_expiry_cases w n :
  (exists m,
     rbind (DateTime.timedelta_seconds n) (DateTime.add (now_in_get_amadeus_token w))
     = Raise (OverflowError m))
  \/ (rbind (DateTime.timedelta_seconds n) (DateTime.add (now_in_get_amadeus_token w))
      = Ok (now_in_get_amadeus_token w + n * microseconds_per_second)
      /\ 0 <= now_in_get_amadeus_token w + n * microseconds_per_second
         < DateTime.end_of_calendar).
Proof.
  destruct (DateTime.timedelta_seconds n) as [delta|e] eqn:Ed; cbn [rbind].
  2:{ left. destruct (timedelta_seconds_raise _ _ Ed) as [m ->]. eauto. }
  apply timedelta_seconds_ok in Ed. subst delta.
  destruct (DateTime.add _ _) as [r|e] eqn:Ea.
  - right. apply datetime_add_ok in Ea as [-> Hr]. auto.
  - left. destruct (datetime_add_raise _ _ _ Ea) as [m ->]. eauto.
Qed.

(** The outcomes of a refresh: the call is logged first; then the refresh
    fails with the error of the authentication and leaves the credential
    alone, or it stores the new token and fails on its life time, or it
    stores the new token and its expiry. *)
Lemma get_amadeus_token_cases w s :
  let s1 := mkStore (token s) (token_expiry s)
              (calls s ++ [PostToken token_url token_headers (token_form w)]) in
  get_amadeus_token w s
  = match token_endpoint w (token_form w) with
    | Failed _ => (Raise authentication_failed, s1)
    | Answered resp =>
        if is_error_status (status_code resp) then (Raise authentication_failed, s1)
        else match body resp with
             | NotJson _ => (Raise authentication_failed, s1)
             | Json doc =>
                 match rbind (DateTime.timedelta_seconds (expires_in doc))
                         (DateTime.add (now_in_get_amadeus_token w)) with
                 | Ok expiry =>
                     (Ok tt, mkStore (access_token doc) (Some expiry) (calls s1))
                 | Raise e =>
                     (Raise e, mkStore (access_token doc) (token_expiry s) (calls s1))
                 end
             end
    end.
Proof.
  cbv zeta.
  unfold get_amadeus_token, try_except, requests_post, bind, emit.
  change [("grant_type", VStr "client_credentials");
          ("client_id", opt_str (AMADEUS_API_KEY w));
          ("client_secret", opt_str (AMADEUS_API_SECRET w))] with (token_form w).
  destruct (token_endpoint w (token_form w)) as [msg|resp]; [reflexivity|].
  cbn [of_reply ret].
  destruct (is_error_status (status_code resp)) eqn:Es.
  - destruct (raise_for_status_error resp Es) as [m Hm]. rewrite Hm. reflexivity.
  - rewrite (raise_for_status_pass resp _ Es). unfold response_json.
    destruct (body resp) as [doc|m]; [|reflexivity].
    cbn [ret set_token lift token token_expiry calls].
    destruct (DateTime.timedelta_seconds (expires_in doc)) as [delta|e] eqn:Ed;
      cbn [rbind].
    + destruct (DateTime.add (now_in_get_amadeus_token w) delta) as [r|e] eqn:Ea.
      * reflexivity.
      * destruct (datetime_add_raise _ _ _ Ea) as [m ->]. reflexivity.
    + destruct (timedelta_seconds_raise _ _ Ed) as [m ->]. reflexivity.
Qed.

Lemma get_amadeus_token_calls w s :
  exists headers form,
    calls (snd (get_amadeus_token w s)) = calls s ++ [PostToken token_url headers form].
Proof.
  do 2 eexists. rewrite get_amadeus_token_cases. cbv zeta.
  destruct (token_endpoint w (token_form w)) as [msg|resp]; [reflexivity|].
  destruct (is_error_status (status_code resp)); [reflexivity|].
  destruct (body resp) as [doc|m]; [|reflexivity].
  destruct (rbind _ _); reflexivity.
Qed.

Lemma get_amadeus_token_outcome w s :
  fst (get_amadeus_token w s) = Ok tt
  \/ fst (get_amadeus_token w s) = Raise authentication_failed
  \/ exists m, fst (get_amadeus_token w s) = Raise (OverflowError m).
Proof.
  rewrite get_amadeus_token_cases. cbv zeta.
  destruct (token_endpoint w (token_form w)) as [msg|resp]; [right; left; reflexivity|].
  destruct (is_error_status (status_code resp)); [right; left; reflexivity|].
  destruct (body resp) as [doc|m]; [|right; left; reflexivity].
  destruct (new_expiry_cases w (expires_in doc)) as [[m ->]|[-> _]].
  - right. right. exists m. reflexivity.
  - left. reflexivity.
Qed.

(** The token step logs a call exactly when the cached credential is not
    valid. *)
Lemma ensure_token_refreshed w s :
  refreshed (snd (ensure_token w s))
  = refreshed s || negb (match fst (is_token_valid w s) with Ok b => b | Raise _ => false end).
Proof.
  destruct (is_token_valid_bool w s) as [b E].
  destruct b.
  - rewrite ensure_token_when_valid by (rewrite E; reflexivity).
    rewrite E. cbn. now rewrite orb_false_r.
  - rewrite ensure_token_when_invalid by (rewrite E; reflexivity).
    rewrite E. cbn [fst negb].
    destruct (get_amadeus_token_calls w s) as [h [f Hc]].
    unfold refreshed. rewrite Hc, existsb_app. cbn. reflexivity.
Qed.

Lemma ensure_token_searched w s :
  searched (snd (ensure_token w s)) = searched s.
Proof.
  destruct (is_token_valid_bool w s) as [b E].
  destruct b.
  - rewrite ensure_token_when_valid by (rewrite E; reflexivity). reflexivity.
  - rewrite ensure_token_when_invalid by (rewrite E; reflexivity).
    destruct (get_amadeus_token_calls w s) as [h [f Hc]].
    unfold searched. rewrite Hc, existsb_app. cbn. now rewrite orb_false_r.
Qed.

(** ** The search step *)

(** Neither the classification of the answer nor the error clause touches
    the store. *)
Lemma on_request_exception_pure response e :
  exists r, forall s, on_request_exception response e s = (r, s).
Proof.
  unfold on_request_exception, try_except.
  destruct response as [resp|]; [|eexists; intros s; reflexivity].
  unfold bind, response_json.
  destruct (body resp); eexists; intros s; cbn; reflexivity.
Qed.

Lemma classify_pure params duration reply :
  exists r, forall s, classify params duration reply s = (r, s).
Proof.
  unfold classify.
  destruct reply as [msg|resp]; [apply on_request_exception_pure|].
  unfold try_except, bind, raise_for_status.
  destruct ((400 <=? status_code resp) && (status_code resp <? 500)).
  { cbn. apply on_request_exception_pure. }
  destruct ((500 <=? status_code resp) && (status_code resp <? 600)).
  { cbn. apply on_request_exception_pure. }
  cbn [ret]. unfold response_json.
  destruct (body resp) as [doc|m]; cbn; [|apply on_request_exception_pure].
  destruct (shape_response params duration (offers_of doc)) as [p|e].
  { eexists; intros s; reflexivity. }
  destruct (is_RequestException e); [apply on_request_exception_pure|].
  eexists; intros s; reflexivity.
Qed.

Lemma search_step_store w params duration s :
  snd (search_step w params duration s)
  = mkStore (token s) (token_expiry s)
      (calls s ++ [GetOffers search_url (auth_headers (token s)) params]).
Proof.
  unfold search_step.
  destruct (classify_pure params duration
              (search_endpoint w (auth_headers (token s)) params)) as [r H].
  now rewrite H.
Qed.

Lemma search_step_outcome w params duration s :
  fst (search_step w params duration s)
  = fst (classify params duration
           (search_endpoint w (auth_headers (token s)) params) s).
Proof.
  unfold search_step.
  destruct (classify_pure params duration
              (search_endpoint w (auth_headers (token s)) params)) as [r H].
  now rewrite !H.
Qed.

(** ** One request, step by step *)

Lemma get_flight_price_token_failure w o d dd dur s e s1 :
  ensure_token w s = (Raise e, s1) ->
  get_flight_price w o d dd dur s = (Raise e, s1).
Proof.
  intros H. rewrite get_flight_price_steps. unfold bind at 1. now rewrite H.
Qed.

Lemma get_flight_price_params_failure w o d dd dur s s1 e :
  ensure_token w s = (Ok tt, s1) ->
  build_params o d dd dur = Raise e ->
  get_flight_price w o d dd dur s = (Raise e, s1).
Proof.
  intros H1 H2. rewrite get_flight_price_steps. unfold bind at 1. rewrite H1.
  unfold bind, lift. now rewrite H2.
Qed.

Lemma get_flight_price_search w o d dd dur s s1 params :
  ensure_token w s = (Ok tt, s1) ->
  build_params o d dd dur = Ok params ->
  get_flight_price w o d dd dur s = search_step w params dur s1.
Proof.
  intros H1 H2. rewrite get_flight_price_steps. unfold bind at 1. rewrite H1.
  unfold bind, lift. now rewrite H2.
Qed.

Lemma ensure_token_cases w s :
  (exists s1, ensure_token w s = (Ok tt, s1))
  \/ (exists s1, ensure_token w s = (Raise authentication_failed, s1))
  \/ (exists m s1, ensure_token w s = (Raise (OverflowError m), s1)).
Proof.
  destruct (is_token_valid_bool w s) as [[|] E].
  - left. exists s. apply ensure_token_when_valid. now rewrite E.
  - rewrite ensure_token_when_invalid by now rewrite E.
    destruct (get_amadeus_token w s) as [r s1] eqn:G.
    destruct (get_amadeus_token_outcome w s) as [H|[H|[m H]]];
      rewrite G in H; cbn in H; subst r;
      [left|right; left|right; right; exists m]; now exists s1.
Qed.

(** ** The order of floats and [min] *)

Lemma lt_irrefl a : PyFloat.lt a a = false.
Proof.
  unfold PyFloat.lt, SFltb, SFcompare.
  destruct a as [[|]|[|]| |[|] m e]; try reflexivity;
    rewrite Z.compare_refl; change (Pos.compare_cont Eq m m) with (Pos.compare m m);
    rewrite Pos.compare_refl; reflexivity.
Qed.

Ltac float_order :=
  repeat match goal with
  | H : context [ (?a ?= ?b)%Z ] |- _ =>
      let C := fresh "C" in
      destruct (Z.compare_spec a b) as [C|C|C]; try discriminate H
  | |- context [ (?a ?= ?b)%Z ] =>
      let C := fresh "C" in
      destruct (Z.compare_spec a b) as [C|C|C]
  | H : context [ Pos.compare_cont Eq ?a ?b ] |- _ =>
      let C := fresh "C" in
      change (Pos.compare_cont Eq a b) with (Pos.compare a b) in H;
      destruct (Pos.compare_spec a b) as [C|C|C]; try discriminate H
  | |- context [ Pos.compare_cont Eq ?a ?b ] =>
      let C := fresh "C" in
      change (Pos.compare_cont Eq a b) with (Pos.compare a b);
      destruct (Pos.compare_spec a b) as [C|C|C]
  end;
  cbn in *; try reflexivity; try discriminate; try lia.

Lemma lt_trans a b c :
  PyFloat.lt a b = true -> PyFloat.lt b c = true -> PyFloat.lt a c = true.
Proof.
  unfold PyFloat.lt, SFltb, SFcompare.
  destruct a as [[|]|[|]| |[|] ma ea], b as [[|]|[|]| |[|] mb eb],
           c as [[|]|[|]| |[|] mc ec];
    intros H1 H2; try discriminate H1; try discriminate H2; try reflexivity;
    float_order.
Qed.

(** On numbers, "not smaller" is transitive as well. *)
Lemma lt_false_trans a b c :
  PyFloat.is_nan a = false -> PyFloat.is_nan b = false -> PyFloat.is_nan c = false ->
  PyFloat.lt a b = false -> PyFloat.lt b c = false -> PyFloat.lt a c = false.
Proof.
  unfold PyFloat.lt, PyFloat.is_nan, SFltb, SFcompare.
  destruct a as [[|]|[|]| |[|] ma ea], b as [[|]|[|]| |[|] mb eb],
           c as [[|]|[|]| |[|] mc ec];
    intros Na Nb Nc H1 H2; try discriminate; try reflexivity;
    float_order.
Qed.

Section Min.

Context {A : Type} (key : A -> result spec_float).

Lemma nth_error_snoc {B} (l : list B) (x : B) (j : nat) (y : B) :
  nth_error (l ++ [x]) j = Some y ->
  (j < List.length l /\ nth_error l j = Some y)%nat \/ (j = List.length l /\ y = x).
Proof.
  intros H. destruct (Nat.lt_ge_cases j (List.length l)) as [L|L].
  - left. split; [exact L|]. now rewrite nth_error_app1 in H.
  - right. rewrite nth_error_app2 in H by exact L.
    destruct (j - List.length l)%nat as [|n] eqn:E.
    + cbn in H. injection H as <-. split; [lia|reflexivity].
    + cbn in H. destruct n; discriminate H.
Qed.

Lemma min_loop_first_minimal (rest : list A) :
  forall (done : list A) (best : A) (bk : spec_float)
         (dkeys rkeys : list spec_float) (i : nat),
    keyed key rest rkeys ->
    List.length done = List.length dkeys ->
    Forall (fun k => PyFloat.is_nan k = false) dkeys ->
    nth_error done i = Some best ->
    nth_error dkeys i = Some bk ->
    (forall j kj, nth_error dkeys j = Some kj -> PyFloat.lt kj bk = false) ->
    (forall j kj, (j < i)%nat -> nth_error dkeys j = Some kj -> PyFloat.lt bk kj = true) ->
    exists i' o,
      min_loop key best bk rest = Ok o
      /\ nth_error (done ++ rest) i' = Some o
      /\ first_minimal (dkeys ++ rkeys) i'.
Proof.
  induction rest as [|x r IH]; intros done best bk dkeys rkeys i HK HL HN Hb Hk Hmin Hfirst.
  - inversion HK; subst. exists i, best. rewrite !app_nil_r.
    split; [reflexivity|]. split; [exact Hb|].
    exists bk. auto.
  - inversion HK as [|x' k r' ks [Hx Nk] HK']; subst.
    assert (Nbk : PyFloat.is_nan bk = false).
    { rewrite Forall_forall in HN. apply HN. eapply nth_error_In; eassumption. }
    assert (Hi : (i < List.length dkeys)%nat).
    { apply nth_error_Some. congruence. }
    cbn [min_loop]. rewrite Hx. cbn [rbind].
    replace (done ++ x :: r) with ((done ++ [x]) ++ r) by (rewrite <- app_assoc; reflexivity).
    replace (dkeys ++ k :: ks) with ((dkeys ++ [k]) ++ ks) by (rewrite <- app_assoc; reflexivity).
    assert (HL' : List.length (done ++ [x]) = List.length (dkeys ++ [k])).
    { rewrite !length_app. cbn. lia. }
    assert (HN' : Forall (fun k0 => PyFloat.is_nan k0 = false) (dkeys ++ [k])).
    { apply Forall_app. split; [exact HN|]. constructor; [exact Nk|constructor]. }
    destruct (PyFloat.lt k bk) eqn:Hlt.
    + apply (IH (done ++ [x]) x k (dkeys ++ [k]) ks (List.length done)); auto.
      * rewrite nth_error_app2 by lia. now rewrite Nat.sub_diag.
      * rewrite HL, nth_error_app2 by lia. now rewrite Nat.sub_diag.
      * intros j kj Hj. apply nth_error_snoc in Hj as [[Lj Hj]|[_ ->]].
        -- destruct (PyFloat.lt kj k) eqn:E; [|reflexivity].
           pose proof (Hmin j kj Hj) as Hc.
           rewrite (lt_trans _ _ _ E Hlt) in Hc. discriminate.
        -- apply lt_irrefl.
      * intros j kj Lj Hj. apply nth_error_snoc in Hj as [[_ Hj]|[Ej _]]; [|lia].
        destruct (PyFloat.lt k kj) eqn:E; [reflexivity|].
        assert (Nkj : PyFloat.is_nan kj = false).
        { rewrite Forall_forall in HN. apply HN. eapply nth_error_In; eassumption. }
        rewrite (lt_false_trans k kj bk Nk Nkj Nbk E (Hmin j kj Hj)) in Hlt. discriminate.
    + apply (IH (done ++ [x]) best bk (dkeys ++ [k]) ks i); auto.
      * rewrite nth_error_app1 by lia. exact Hb.
      * rewrite nth_error_app1 by lia. exact Hk.
      * intros j kj Hj. apply nth_error_snoc in Hj as [[_ Hj]|[_ ->]]; [eauto|exact Hlt].
      * intros j kj Lj Hj. apply nth_error_snoc in Hj as [[_ Hj]|[Ej _]]; [eauto|lia].
Qed.

(** [min] returns the element at the first position whose key is minimal. *)
Lemma py_min_first_minimal (x : A) (r : list A) (keys : list spec_float) :
  keyed key (x :: r) keys ->
  exists i o,
    py_min key (x :: r) = Ok o
    /\ nth_error (x :: r) i = Some o
    /\ first_minimal keys i.
Proof.
  intros HK. inversion HK as [|x' k r' ks [Hx Nk] HK']; subst.
  cbn [py_min]. rewrite Hx. cbn [rbind].
  apply (min_loop_first_minimal r [x] x k [k] ks 0%nat); auto.
  - intros j kj Hj. destruct j as [|[|j]]; try discriminate Hj.
    injection Hj as <-. apply lt_irrefl.
  - intros j kj Lj. lia.
Qed.

End Min.

(** ** The calendar: ordinals and dates correspond *)

Module CalendarFacts.
Import Calendar.

Lemma days_before_year_split a b c d :
  0 <= a -> 0 <= b <= 3 -> 0 <= c <= 24 -> 0 <= d <= 3 ->
  days_before_year (a * 400 + 1 + b * 100 + c * 4 + d)
  = a * DI400Y + b * DI100Y + c * DI4Y + d * 365.
Proof.
  intros Ha Hb Hc Hd. unfold days_before_year, DI400Y, DI100Y, DI4Y.
  Z.to_euclidean_division_equations. lia.
Qed.

Lemma is_leap_split a b c d :
  0 <= a -> 0 <= b <= 3 -> 0 <= c <= 24 -> 0 <= d <= 3 ->
  is_leap (a * 400 + 1 + b * 100 + c * 4 + d)
  = (d =? 3) && (negb (c =? 24) || (b =? 3)).
Proof.
  intros Ha Hb Hc Hd. unfold is_leap.
  set (y := a * 400 + 1 + b * 100 + c * 4 + d).
  destruct (d =? 3) eqn:E3; destruct (c =? 24) eqn:E24; destruct (b =? 3) eqn:Eb;
    destruct (y mod 4 =? 0) eqn:M4; destruct (y mod 100 =? 0) eqn:M100;
    destruct (y mod 400 =? 0) eqn:M400; try reflexivity; exfalso;
    rewrite ?Z.eqb_eq, ?Z.eqb_neq in *; subst y;
    Z.to_euclidean_division_equations; lia.
Qed.

Ltac eval_tables :=
  repeat match goal with
  | |- context [ table ?t ?i ] =>
      let v := eval vm_compute in (table t i) in change (table t i) with v
  end.

(** Month and day inside a year, from the number [r] of days elapsed. *)
Lemma month_day_correct (y : Z) (L : bool) (r : Z) :
  is_leap y = L -> 0 <= r < 365 ->
  let m0 := Z.shiftr (r + 50) 5 in
  let p0 := table DAYS_BEFORE_MONTH m0 + (if (2 <? m0) && L then 1 else 0) in
  let d :=
    if r <? p0 then
      mkdate y (m0 - 1)
        (r - (p0 - (table DAYS_IN_MONTH (m0 - 1)
                    + (if (m0 - 1 =? 2) && L then 1 else 0))) + 1)
    else mkdate y m0 (r - p0 + 1) in
  1 <= month d <= 12
  /\ 1 <= day d <= days_in_month y (month d)
  /\ days_before_month y (month d) + day d = r + 1
  /\ year d = y.
Proof.
  intros HL Hr. cbv zeta.
  rewrite Z.shiftr_div_pow2 by lia. change (2 ^ 5) with 32.
  assert (Hm : 1 <= (r + 50) / 32 <= 12) by (Z.to_euclidean_division_equations; lia).
  assert (Hq : 32 * ((r + 50) / 32) <= r + 50 < 32 * ((r + 50) / 32) + 32)
    by (Z.to_euclidean_division_equations; lia).
  set (m0 := (r + 50) / 32) in *.
  unfold days_in_month, days_before_month. rewrite HL.
  assert (Hcases : m0 = 1 \/ m0 = 2 \/ m0 = 3 \/ m0 = 4 \/ m0 = 5 \/ m0 = 6 \/ m0 = 7
                   \/ m0 = 8 \/ m0 = 9 \/ m0 = 10 \/ m0 = 11 \/ m0 = 12) by lia.
  clearbody m0.
  destruct L;
    repeat (destruct Hcases as [->|Hcases]); try subst m0;
    change (2 - 1) with 1; change (3 - 1) with 2; change (4 - 1) with 3;
    change (5 - 1) with 4; change (6 - 1) with 5; change (7 - 1) with 6;
    change (8 - 1) with 7; change (9 - 1) with 8; change (10 - 1) with 9;
    change (11 - 1) with 10; change (12 - 1) with 11; change (1 - 1) with 0;
    match goal with
    | |- context [ r <? ?p ] => destruct (Z.ltb_spec r p)
    end;
    cbn [year month day] in *; eval_tables;
    repeat match goal with
    | H : context [ table ?t ?i ] |- _ =>
        let v := eval vm_compute in (table t i) in change (table t i) with v in H
    end;
    cbn [andb Z.ltb Z.eqb Z.compare Pos.compare Pos.compare_cont Pos.eqb] in *; lia.
Qed.

(** [fromordinal] yields a date of the calendar, and [toordinal] brings it
    back. *)
Lemma ord2ymd_correct (n : Z) :
  1 <= n <= MAXORDINAL ->
  valid (ord2ymd n) = true /\ ymd2ord (ord2ymd n) = n.
Proof.
  intros Hn. unfold MAXORDINAL in Hn.
  cbv beta zeta delta [ord2ymd].
  set (n0 := n - 1).
  set (n400 := n0 / DI400Y). set (r1 := n0 mod DI400Y).
  set (n100 := r1 / DI100Y). set (r2 := r1 mod DI100Y).
  set (n4 := r2 / DI4Y). set (r3 := r2 mod DI4Y).
  set (n1 := r3 / 365). set (r4 := r3 mod 365).
  assert (E1 : n0 = DI400Y * n400 + r1 /\ 0 <= r1 < DI400Y).
  { unfold n400, r1, DI400Y. Z.to_euclidean_division_equations. lia. }
  assert (E2 : r1 = DI100Y * n100 + r2 /\ 0 <= r2 < DI100Y).
  { unfold n100, r2, DI100Y. Z.to_euclidean_division_equations. lia. }
  assert (E3 : r2 = DI4Y * n4 + r3 /\ 0 <= r3 < DI4Y).
  { unfold n4, r3, DI4Y. Z.to_euclidean_division_equations. lia. }
  assert (E4 : r3 = 365 * n1 + r4 /\ 0 <= r4 < 365).
  { unfold n1, r4. Z.to_euclidean_division_equations. lia. }
  assert (E0 : n = n0 + 1) by (unfold n0; lia).
  clearbody n0 n400 r1 n100 r2 n4 r3 n1 r4.
  unfold DI400Y, DI100Y, DI4Y in *.
  assert (B400 : 0 <= n400 <= 24) by lia.
  assert (B100 : 0 <= n100 <= 4) by lia.
  assert (B4 : 0 <= n4 <= 24) by lia.
  assert (B1 : 0 <= n1 <= 4) by lia.
  destruct ((n1 =? 4) || (n100 =? 4)) eqn:Special.
  - (* the last day of a leap year *)
    assert (Hy : n400 * 400 + 1 + n100 * 100 + n4 * 4 + n1 - 1
                 = n400 * 400 + 1 + (if n100 =? 4 then 3 else n100) * 100
                   + (if n100 =? 4 then 24 else n4) * 4 + 3).
    { apply orb_true_iff in Special as [S|S]; apply Z.eqb_eq in S;
        destruct (n100 =? 4) eqn:C; rewrite ?Z.eqb_eq, ?Z.eqb_neq in C; lia. }
    rewrite Hy.
    set (b := if n100 =? 4 then 3 else n100).
    set (c := if n100 =? 4 then 24 else n4).
    assert (Bb : 0 <= b <= 3) by (unfold b; destruct (n100 =? 4) eqn:C;
                                  rewrite ?Z.eqb_neq in C; lia).
    assert (Bc : 0 <= c <= 24) by (unfold c; destruct (n100 =? 4); lia).
    assert (Hleap : is_leap (n400 * 400 + 1 + b * 100 + c * 4 + 3) = true).
    { rewrite is_leap_split by lia. cbn [Z.eqb Pos.eqb andb].
      unfold b, c. apply orb_true_iff in Special as [S|S]; apply Z.eqb_eq in S.
      - destruct (n100 =? 4) eqn:C; [reflexivity|].
        apply orb_true_iff. left. apply negb_true_iff, Z.eqb_neq. lia.
      - replace (n100 =? 4) with true by (symmetry; apply Z.eqb_eq; exact S).
        reflexivity. }
    assert (Hdby := days_before_year_split n400 b c 3 (proj1 B400) Bb Bc ltac:(lia)).
    unfold valid, ymd2ord, days_in_month, days_before_month.
    cbn [year month day]. rewrite Hleap, Hdby.
    unfold DI400Y, DI100Y, DI4Y.
    change (table DAYS_IN_MONTH 12) with 31.
    change (table DAYS_BEFORE_MONTH 12) with 334.
    cbn [Z.eqb Pos.eqb andb Z.ltb Z.compare Pos.compare Pos.compare_cont].
    assert (Hsum : n400 * 146097 + b * 36524 + c * 1461 + 3 * 365 + (334 + 1) + 31 = n).
    { unfold b, c. apply orb_true_iff in Special as [S|S]; apply Z.eqb_eq in S;
        destruct (n100 =? 4) eqn:C; rewrite ?Z.eqb_eq, ?Z.eqb_neq in C; lia. }
    split; [|exact Hsum].
    repeat (apply andb_true_iff; split); apply Z.leb_le; unfold b, c;
      destruct (n100 =? 4) eqn:C; rewrite ?Z.eqb_eq, ?Z.eqb_neq in C; lia.
  - apply orb_false_iff in Special as [S1 S100].
    apply Z.eqb_neq in S1, S100.
    set (y := n400 * 400 + 1 + n100 * 100 + n4 * 4 + n1).
    set (L := (n1 =? 3) && (negb (n4 =? 24) || (n100 =? 3))).
    assert (Hleap : is_leap y = L) by (apply is_leap_split; lia).
    assert (Hdby : days_before_year y = n400 * 146097 + n100 * 36524 + n4 * 1461 + n1 * 365)
      by (apply days_before_year_split; lia).
    pose proof (month_day_correct y L r4 Hleap (proj2 E4)) as M.
    cbv zeta in M.
    match type of M with
    | 1 <= month ?d <= 12 /\ _ =>
        match goal with |- valid ?d' = true /\ _ => change d' with d end;
        set (dt := d) in *
    end.
    destruct M as (Mm & Md & Ms & My).
    unfold valid, ymd2ord. rewrite My, Hdby.
    split; [|lia].
    repeat (apply andb_true_iff; split); apply Z.leb_le; try lia; unfold y; lia.
Qed.

Lemma ymd2ord_positive (d : date) : valid d = true -> 1 <= ymd2ord d.
Proof.
  unfold valid, ymd2ord. intros H.
  repeat (apply andb_true_iff in H as [H ?]).
  rewrite ?Z.leb_le in *.
  assert (0 <= days_before_year (year d)).
  { unfold days_before_year. Z.to_euclidean_division_equations. lia. }
  assert (0 <= days_before_month (year d) (month d)).
  { unfold days_before_month.
    assert (Hc : month d = 1 \/ month d = 2 \/ month d = 3 \/ month d = 4 \/ month d = 5
                 \/ month d = 6 \/ month d = 7 \/ month d = 8 \/ month d = 9
                 \/ month d = 10 \/ month d = 11 \/ month d = 12) by lia.
    repeat (destruct Hc as [->|Hc]); try rewrite Hc; eval_tables;
      destruct (_ && _); lia. }
  lia.
Qed.

End CalendarFacts.

(** ** Parsed dates and durations *)

Module ParseFacts.
Import Calendar.

Lemma is_digit_value c : Chars.is_digit c = true -> 0 <= Chars.digit_value c <= 9.
Proof.
  unfold Chars.is_digit, Chars.digit_value. intros H.
  apply andb_true_iff in H as [H1 H2]. apply Z.leb_le in H1, H2. lia.
Qed.

Lemma in_range_value lo hi c :
  in_range lo hi c = true -> lo - 48 <= Chars.digit_value c <= hi - 48.
Proof.
  unfold in_range, Chars.digit_value. intros H.
  apply andb_true_iff in H as [H1 H2]. apply Z.leb_le in H1, H2. lia.
Qed.

Lemma some_pair_fst {A B} (a a' : A) (b b' : B) : Some (a, b) = Some (a', b') -> a = a'.
Proof. congruence. Qed.

Lemma re_year_range s y r : re_year s = Some (y, r) -> 0 <= y <= 9999.
Proof.
  unfold re_year.
  destruct s as [|a [|b [|c [|d s]]]]; try discriminate.
  destruct (Chars.is_digit a) eqn:Da; [|discriminate].
  destruct (Chars.is_digit b) eqn:Db; [|discriminate].
  destruct (Chars.is_digit c) eqn:Dc; [|discriminate].
  destruct (Chars.is_digit d) eqn:Dd; [|discriminate].
  cbn [andb]. intros H. apply some_pair_fst in H. subst.
  apply is_digit_value in Da, Db, Dc, Dd.
  unfold Str.digits_value. cbn [Str.digits_value_from]. lia.
Qed.

Lemma re_month_range s m r : re_month s = Some (m, r) -> 1 <= m <= 12.
Proof.
  unfold re_month.
  destruct s as [|a s]; [discriminate|].
  assert (One : forall t, (if in_range 49 57 a then Some (Chars.digit_value a, t) else None)
                          = Some (m, r) -> 1 <= m <= 12).
  { intros t. destruct (in_range 49 57 a) eqn:E; [|discriminate].
    intros H. apply some_pair_fst in H. subst. apply in_range_value in E. lia. }
  destruct s as [|b s]; [apply One|].
  destruct (Ascii.eqb a "1" && in_range 48 50 b) eqn:E1.
  { intros H. apply some_pair_fst in H. subst. apply andb_true_iff in E1 as [_ E1].
    apply in_range_value in E1. lia. }
  destruct (Ascii.eqb a "0" && in_range 49 57 b) eqn:E2.
  { intros H. apply some_pair_fst in H. subst. apply andb_true_iff in E2 as [_ E2].
    apply in_range_value in E2. lia. }
  apply One.
Qed.

Lemma re_day_range s d r : re_day s = Some (d, r) -> 1 <= d <= 31.
Proof.
  unfold re_day.
  destruct s as [|a s]; [discriminate|].
  assert (One : forall t, (if in_range 49 57 a then Some (Chars.digit_value a, t) else None)
                          = Some (d, r) -> 1 <= d <= 31).
  { intros t. destruct (in_range 49 57 a) eqn:E; [|discriminate].
    intros H. apply some_pair_fst in H. subst. apply in_range_value in E. lia. }
  destruct s as [|b s]; [apply One|].
  destruct (Ascii.eqb a "3" && in_range 48 49 b) eqn:E1.
  { intros H. apply some_pair_fst in H. subst. apply andb_true_iff in E1 as [_ E1].
    apply in_range_value in E1. lia. }
  destruct (in_range 49 50 a && Chars.is_digit b) eqn:E2.
  { intros H. apply some_pair_fst in H. subst. apply andb_true_iff in E2 as [Ea Eb].
    apply in_range_value in Ea. apply is_digit_value in Eb. lia. }
  destruct (Ascii.eqb a "0" && in_range 49 57 b) eqn:E3.
  { intros H. apply some_pair_fst in H. subst. apply andb_true_iff in E3 as [_ E3].
    apply in_range_value in E3. lia. }
  destruct (in_range 49 57 a) eqn:E4.
  { intros H. apply some_pair_fst in H. subst. apply in_range_value in E4. lia. }
  destruct (Ascii.eqb a " " && in_range 49 57 b) eqn:E5; [|discriminate].
  intros H. apply some_pair_fst in H. subst. apply andb_true_iff in E5 as [_ E5].
  apply in_range_value in E5. lia.
Qed.

(** [strptime] only returns dates of the calendar. *)
Lemma strptime_ymd_valid s d : strptime_ymd s = Ok d -> valid d = true.
Proof.
  unfold strptime_ymd, re_ymd.
  destruct (re_year s) as [[y r1]|] eqn:Ey; [|discriminate].
  destruct (re_dash r1) as [r2|]; [|discriminate].
  destruct (re_month r2) as [[m r3]|] eqn:Em; [|discriminate].
  destruct (re_dash r3) as [r4|]; [|discriminate].
  destruct (re_day r4) as [[dd r5]|] eqn:Ed; [|discriminate].
  destruct (negb (Str.is_empty r5)); [discriminate|].
  destruct (Z.ltb_spec y 1) as [Hy|Hy]; [discriminate|].
  destruct (Z.ltb_spec (days_in_month y m) dd) as [Hd|Hd]; [discriminate|].
  intros H. injection H as <-.
  apply re_year_range in Ey. apply re_month_range in Em. apply re_day_range in Ed.
  unfold valid. cbn [year month day].
  repeat (apply andb_true_iff; split); apply Z.leb_le; lia.
Qed.

Lemma span_all p s : Str.all p (fst (Str.span p s)) = true.
Proof.
  induction s as [|c s IH]; [reflexivity|].
  cbn [Str.span]. destruct (p c) eqn:E; [|reflexivity].
  destruct (Str.span p s) as [a b]. cbn [fst Str.all] in *. now rewrite E, IH.
Qed.

Lemma digits_value_from_nonneg s :
  forall acc, 0 <= acc -> Str.all Chars.is_digit s = true ->
              acc <= Str.digits_value_from acc s.
Proof.
  induction s as [|c s IH]; intros acc Hacc Hall; cbn [Str.digits_value_from]; [lia|].
  cbn [Str.all] in Hall. apply andb_true_iff in Hall as [Hc Hs].
  apply is_digit_value in Hc.
  specialize (IH (10 * acc + Chars.digit_value c) ltac:(lia) Hs). lia.
Qed.

(** Group 1 of the duration pattern is a run of digits; its value is a
    natural number. *)
Lemma re_match_days_digits duration g :
  re_match_days duration = Some g ->
  Str.all Chars.is_digit g = true /\ g <> "" /\ 0 <= Str.digits_value g.
Proof.
  unfold re_match_days.
  pose proof (span_all Chars.is_digit duration) as Hall.
  destruct (Str.span Chars.is_digit duration) as [ds r1]. cbn [fst] in Hall.
  destruct (Str.is_empty ds) eqn:E; [discriminate|].
  destruct (Str.span Chars.is_space r1) as [ws r2].
  destruct (Str.strip_prefix_nocase "days" r2); [|discriminate].
  intros H. injection H as <-.
  split; [exact Hall|]. split.
  - intros ->. discriminate E.
  - apply (digits_value_from_nonneg ds 0); [lia|exact Hall].
Qed.

End ParseFacts.

(** ** [int] on the digits of the duration *)

Lemma int_of_digits_short g :
  (String.length g <= int_max_str_digits)%nat ->
  int_of_digits g = Ok (Str.digits_value g).
Proof.
  intros H. unfold int_of_digits.
  replace (int_max_str_digits <? String.length g)%nat with false; [reflexivity|].
  symmetry. apply Nat.ltb_ge. exact H.
Qed.

Lemma int_of_digits_long g :
  (int_max_str_digits < String.length g)%nat ->
  int_of_digits g = Raise (ValueError (int_limit_exceeded g)).
Proof.
  intros H. unfold int_of_digits.
  replace (int_max_str_digits <? String.length g)%nat with true; [reflexivity|].
  symmetry. apply Nat.ltb_lt. exact H.
Qed.

Lemma int_of_digits_ok g n :
  int_of_digits g = Ok n ->
  n = Str.digits_value g /\ (String.length g <= int_max_str_digits)%nat.
Proof.
  unfold int_of_digits.
  destruct (int_max_str_digits <? String.length g)%nat eqn:E; [discriminate|].
  intros H. injection H as <-. split; [reflexivity|]. now apply Nat.ltb_ge.
Qed.

Lemma int_of_digits_raise g e :
  int_of_digits g = Raise e ->
  e = ValueError (int_limit_exceeded g) /\ (int_max_str_digits < String.length g)%nat.
Proof.
  unfold int_of_digits.
  destruct (int_max_str_digits <? String.length g)%nat eqn:E; [|discriminate].
  intros H. injection H as <-. split; [reflexivity|]. now apply Nat.ltb_lt.
Qed.

(** ** Dictionaries *)

Lemma dict_get_set_same (d : dict) (k : string) (v : value) :
  dict_get (dict_set d k v) k = Some v.
Proof.
  induction d as [|[k' v'] d IH]; cbn.
  - now rewrite String.eqb_refl.
  - destruct (String.eqb k k') eqn:E; cbn; rewrite E; [reflexivity|exact IH].
Qed.

Lemma dict_get_set_other (d : dict) (k k' : string) (v : value) :
  String.eqb k' k = false -> dict_get (dict_set d k v) k' = dict_get d k'.
Proof.
  intros Hk. induction d as [|[k0 v0] d IH]; cbn.
  - now rewrite Hk.
  - destruct (String.eqb k k0) eqn:E; cbn.
    + apply String.eqb_eq in E. subst k0. now rewrite Hk.
    + now rewrite IH.
Qed.

(** ** The log of one request *)

Lemma last_call_snoc (l : list Event) (e : Event) :
  last (map Some (l ++ [e])) None = Some e.
Proof. rewrite map_app. cbn. apply last_last. Qed.

Lemma ensure_token_log w s :
  calls (snd (ensure_token w s)) = calls s
  \/ exists headers form,
       calls (snd (ensure_token w s)) = calls s ++ [PostToken token_url headers form].
Proof.
  destruct (is_token_valid_bool w s) as [[|] E].
  - left. rewrite ensure_token_when_valid by now rewrite E. reflexivity.
  - right. rewrite ensure_token_when_invalid by now rewrite E.
    apply get_amadeus_token_calls.
Qed.

Lemma get_flight_price_stage w o d dd dur s :
  stage w o d dd dur s (get_flight_price w o d dd dur s).
Proof.
  destruct (ensure_token w s) as [[[]|e] s1] eqn:Et.
  - destruct (build_params o d dd dur) as [params|e] eqn:Eb.
    + rewrite (get_flight_price_search _ _ _ _ _ _ _ _ Et Eb).
      destruct (classify_pure params dur
                  (search_endpoint w (auth_headers (token s1)) params)) as [r Hr].
      unfold search_step. rewrite Hr.
      eapply stage_search; eauto.
    + rewrite (get_flight_price_params_failure _ _ _ _ _ _ _ _ Et Eb).
      eapply stage_params; eauto.
  - rewrite (get_flight_price_token_failure _ _ _ _ _ _ _ _ Et).
    eapply stage_token; eauto.
Qed.

(** ** What the search step returns *)

Lemma on_request_exception_unbound (e : exn) (s : Store) :
  exists m, on_request_exception None e s = (Raise (UnboundLocalError m), s).
Proof. eexists. reflexivity. Qed.

Lemma on_request_exception_not_json r m e s :
  body r = NotJson m ->
  on_request_exception (Some r) e s = (Raise (HTTPException 500 (exn_text e)), s).
Proof.
  intros Hb. unfold on_request_exception, try_except, bind, response_json.
  rewrite Hb. reflexivity.
Qed.

Lemma on_request_exception_json r doc e s :
  body r = Json doc ->
  on_request_exception (Some r) e s
  = (Raise (HTTPException (status_code r)
       (if status_code r =? 400 then
          [Lit "Bad request to Amadeus API. Please check your parameters. Error: ";
           ReprJson (source_text doc)]
        else if status_code r =? 401 then
          [Lit "Amadeus authentication failed. Please check your API key and secret."]
        else if status_code r =? 404 then
          [Lit "The requested resource was not found on the Amadeus API."]
        else [Lit "An error occurred while fetching flight data: "] ++ exn_text e)), s).
Proof.
  intros Hb. unfold on_request_exception, try_except, bind, response_json.
  rewrite Hb. reflexivity.
Qed.

Lemma classify_error params duration r m s :
  (forall s0, raise_for_status r s0 = (Raise (HTTPError m), s0)) ->
  classify params duration (Answered r) s
  = on_request_exception (Some r) (HTTPError m) s.
Proof.
  intros H. unfold classify, try_except, bind. rewrite H. reflexivity.
Qed.

Lemma classify_not_json params duration r m s :
  is_error_status (status_code r) = false -> body r = NotJson m ->
  classify params duration (Answered r) s = (Raise (HTTPException 500 m), s).
Proof.
  intros Hs Hb. unfold classify, try_except, bind.
  rewrite (raise_for_status_pass r s Hs). unfold response_json at 1. rewrite Hb.
  cbn [raise is_RequestException].
  now rewrite (on_request_exception_not_json r m _ s Hb).
Qed.

(** Shaping raises on a price that is not a number or on an offer without
    itinerary; the search clause does not catch either. *)
Lemma price_key_raise x e :
  price_key x = Raise e -> exists m, e = ValueError m.
Proof.
  unfold price_key, PyFloat.of_string.
  destruct (PyFloat.parse _); [discriminate|]. intros H. injection H as <-. eauto.
Qed.

Lemma min_loop_raise (l : list Offer) :
  forall best bk e, min_loop price_key best bk l = Raise e -> exists m, e = ValueError m.
Proof.
  induction l as [|x r IH]; intros best bk e; cbn [min_loop]; [discriminate|].
  destruct (price_key x) as [k|e'] eqn:Ek; cbn [rbind].
  - destruct (PyFloat.lt k bk); apply IH.
  - intros H. injection H as <-. eapply price_key_raise; eassumption.
Qed.

Lemma py_min_raise (l : list Offer) e :
  py_min price_key l = Raise e -> exists m, e = ValueError m.
Proof.
  destruct l as [|x r]; cbn [py_min].
  - intros H. injection H as <-. eauto.
  - destruct (price_key x) as [k|e'] eqn:Ek; cbn [rbind].
    + apply min_loop_raise.
    + intros H. injection H as <-. eapply price_key_raise; eassumption.
Qed.

Lemma list_index_raise {A} (l : list A) i e :
  list_index l i = Raise e -> exists m, e = IndexError m.
Proof.
  unfold list_index. destruct (nth_error l i); [discriminate|].
  intros H. injection H as <-. eauto.
Qed.

Lemma shape_response_raise params duration offers e :
  shape_response params duration offers = Raise e ->
  exists m, e = ValueError m \/ e = IndexError m.
Proof.
  unfold shape_response. destruct offers as [|x r]; [discriminate|].
  destruct (py_min price_key (x :: r)) as [best|e1] eqn:E1; cbn [rbind].
  2:{ intros H. injection H as <-. destruct (py_min_raise _ _ E1) as [m ->]. eauto. }
  destruct (list_index (itineraries best) 0) as [i0|e2] eqn:E2; cbn [rbind].
  2:{ intros H. injection H as <-. destruct (list_index_raise _ _ _ E2) as [m ->]. eauto. }
  destruct (price_key best) as [k|e3] eqn:E3; cbn [rbind].
  2:{ intros H. injection H as <-. destruct (price_key_raise _ _ E3) as [m ->]. eauto. }
  destruct (truthy duration && _); [|discriminate].
  destruct (list_index (itineraries best) 1) as [i1|e4] eqn:E4; cbn [rbind]; [discriminate|].
  intros H. injection H as <-. destruct (list_index_raise _ _ _ E4) as [m ->]. eauto.
Qed.

Lemma classify_json params duration r doc s :
  is_error_status (status_code r) = false -> body r = Json doc ->
  classify params duration (Answered r) s
  = (shape_response params duration (offers_of doc), s).
Proof.
  intros Hs Hb. unfold classify, try_except, bind.
  rewrite (raise_for_status_pass r s Hs). unfold response_json. rewrite Hb.
  cbn [ret lift].
  destruct (shape_response params duration (offers_of doc)) as [p|e] eqn:E; [reflexivity|].
  destruct (shape_response_raise _ _ _ _ E) as [m [->| ->]]; reflexivity.
Qed.

(** ** The log at the end of a request *)

Lemma final_refreshed w o d dd dur s :
  refreshed (snd (get_flight_price w o d dd dur s))
  = refreshed (snd (ensure_token w s)).
Proof.
  destruct (get_flight_price_stage w o d dd dur s) as [e s1 Et|e s1 Et Eb|s1 p r Et Eb Ec];
    rewrite Et; cbn [snd]; try reflexivity.
  unfold refreshed. cbn [calls]. rewrite existsb_app. cbn. apply orb_false_r.
Qed.

Lemma final_credential w o d dd dur s :
  token (snd (get_flight_price w o d dd dur s)) = token (snd (ensure_token w s))
  /\ token_expiry (snd (get_flight_price w o d dd dur s))
     = token_expiry (snd (ensure_token w s)).
Proof.
  destruct (get_flight_price_stage w o d dd dur s) as [e s1 Et|e s1 Et Eb|s1 p r Et Eb Ec];
    rewrite Et; cbn [snd]; split; reflexivity.
Qed.

Lemma refreshed_iff_invalid w o d dd dur s :
  refreshed s = false ->
  (refreshed (snd (get_flight_price w o d dd dur s)) = true
   <-> ~ credential_valid (now_in_is_token_valid w) (token s) (token_expiry s)).
Proof.
  intros Hs. rewrite final_refreshed, ensure_token_refreshed, Hs. cbn [orb].
  rewrite <- is_token_valid_true.
  destruct (is_token_valid_bool w s) as [b E]. rewrite E. cbn [fst].
  destruct b; cbn [negb]; split; congruence.
Qed.

Lemma final_searched w o d dd dur s :
  searched s = false ->
  searched (snd (get_flight_price w o d dd dur s)) = true ->
  exists s1 params,
    ensure_token w s = (Ok tt, s1) /\ build_params o d dd dur = Ok params.
Proof.
  intros Hs.
  destruct (get_flight_price_stage w o d dd dur s) as [e s1 Et|e s1 Et Eb|s1 p r Et Eb Ec];
    cbn [snd]; intros H.
  - pose proof (ensure_token_searched w s) as E. rewrite Et in E. cbn [snd] in E.
    congruence.
  - pose proof (ensure_token_searched w s) as E. rewrite Et in E. cbn [snd] in E.
    congruence.
  - eauto.
Qed.

Lemma build_params_no_match o d dd duration :
  duration <> "" -> re_match_days duration = None ->
  build_params o d dd (Some duration) = Raise InvalidArgument.
Proof.
  intros Hne Hm. unfold build_params, return_date.
  destruct duration as [|c r]; [congruence|].
  rewrite Hm. reflexivity.
Qed.

(** ** The answer to the last call *)

Lemma search_response_inv w o d dd dur tok expiry response :
  search_response w (snd (run (get_flight_price w o d dd dur) tok expiry)) = Some response ->
  exists s1 params,
    ensure_token w (mkStore tok expiry []) = (Ok tt, s1)
    /\ build_params o d dd dur = Ok params
    /\ search_endpoint w (auth_headers (token s1)) params = Answered response
    /\ sent_params (snd (run (get_flight_price w o d dd dur) tok expiry)) = Some params
    /\ run (get_flight_price w o d dd dur) tok expiry
       = (fst (classify params dur (Answered response) s1),
          mkStore (token s1) (token_expiry s1)
            (calls s1 ++ [GetOffers search_url (auth_headers (token s1)) params])).
Proof.
  unfold run. set (s := mkStore tok expiry []).
  assert (NoSearch : forall r s1, ensure_token w s = (r, s1) -> search_response w s1 = None).
  { intros r s1 Et. unfold search_response.
    destruct (ensure_token_log w s) as [E|(h & f & E)]; rewrite Et in E; cbn [snd] in E;
      rewrite E; reflexivity. }
  destruct (get_flight_price_stage w o d dd dur s) as [e s1 Et|e s1 Et Eb|s1 p r Et Eb Ec];
    cbn [snd]; intros H.
  - rewrite (NoSearch _ _ Et) in H. discriminate.
  - rewrite (NoSearch _ _ Et) in H. discriminate.
  - unfold search_response in H. cbn [calls] in H. rewrite last_call_snoc in H.
    destruct (search_endpoint w (auth_headers (token s1)) p) as [m|resp] eqn:Er;
      [discriminate|].
    injection H as ->.
    exists s1, p. repeat split; try assumption.
    + unfold sent_params. cbn [calls]. now rewrite last_call_snoc.
    + rewrite Ec. reflexivity.
Qed.

(** ** The error of the duration *)

Lemma strptime_ymd_raise s e :
  Calendar.strptime_ymd s = Raise e ->
  exists m, e = ValueError m /\ m <> invalid_duration_format.
Proof.
  unfold Calendar.strptime_ymd.
  destruct (Calendar.re_ymd s) as [[[[y m] d] rest]|].
  - destruct (negb (Str.is_empty rest)).
    { intros H. injection H as <-. eexists. split; [reflexivity|discriminate]. }
    destruct (y <? 1).
    { intros H. injection H as <-. eexists. split; [reflexivity|discriminate]. }
    destruct (Calendar.days_in_month y m <? d); [|discriminate].
    intros H. injection H as <-. eexists. split; [reflexivity|discriminate].
  - intros H. injection H as <-. eexists. split; [reflexivity|discriminate].
Qed.

Lemma timedelta_days_raise n e :
  Calendar.timedelta_days n = Raise e -> exists m, e = OverflowError m.
Proof.
  unfold Calendar.timedelta_days.
  destruct (_ || _); [intros H; injection H as <-; eauto|].
  destruct (_ || _); [intros H; injection H as <-; eauto|discriminate].
Qed.

Lemma calendar_add_raise d n e :
  Calendar.add d n = Raise e -> exists m, e = OverflowError m.
Proof.
  unfold Calendar.add. destruct (_ && _); [discriminate|].
  intros H. injection H as <-. eauto.
Qed.

Lemma build_params_match_raise o d dd duration g e :
  re_match_days duration = Some g ->
  build_params o d dd (Some duration) = Raise e ->
  e <> InvalidArgument.
Proof.
  intros Hm. unfold build_params, return_date.
  destruct duration as [|c r]; [discriminate|].
  rewrite Hm.
  destruct (int_of_digits g) as [k|e0] eqn:E0; cbn [rbind].
  2:{ destruct (int_of_digits_raise _ _ E0) as [-> _].
      cbn. intros H. injection H as <-. discriminate. }
  destruct (Calendar.strptime_ymd dd) as [dep|e1] eqn:E1; cbn [rbind].
  2:{ destruct (strptime_ymd_raise _ _ E1) as (m & -> & Hne).
      cbn. intros H. injection H as <-. unfold InvalidArgument. congruence. }
  destruct (Calendar.timedelta_days k) as [n|e2] eqn:E2; cbn [rbind].
  2:{ destruct (timedelta_days_raise _ _ E2) as (m & ->).
      cbn. intros H. injection H as <-. discriminate. }
  destruct (Calendar.add dep n) as [ret|e3] eqn:E3; cbn [rbind]; [discriminate|].
  destruct (calendar_add_raise _ _ _ E3) as (m & ->).
  cbn. intros H. injection H as <-. discriminate.
Qed.

Lemma classify_not_invalid_argument params duration reply s :
  fst (classify params duration reply s) <> Raise InvalidArgument.
Proof.
  destruct reply as [msg|r].
  - cbn. discriminate.
  - destruct (is_error_status (status_code r)) eqn:Es.
    + destruct (raise_for_status_error r Es) as [m Hm].
      rewrite (classify_error _ _ _ _ _ Hm).
      destruct (body r) as [doc|dm] eqn:Eb.
      * rewrite (on_request_exception_json _ _ _ _ Eb). cbn [fst].
        unfold InvalidArgument. intros H. injection H as Hc Hd.
        rewrite Hc in Hd. cbn in Hd. discriminate.
      * rewrite (on_request_exception_not_json _ _ _ _ Eb). cbn [fst]. discriminate.
    + destruct (body r) as [doc|dm] eqn:Eb.
      * rewrite (classify_json _ _ _ _ _ Es Eb). cbn [fst].
        destruct (shape_response params duration (offers_of doc)) as [p|e] eqn:E;
          [discriminate|].
        destruct (shape_response_raise _ _ _ _ E) as [m [->| ->]]; discriminate.
      * rewrite (classify_not_json _ _ _ _ _ Es Eb). cbn [fst]. discriminate.
Qed.

Lemma span_append p s : (fst (Str.span p s) ++ snd (Str.span p s))%string = s.
Proof.
  induction s as [|c s IH]; [reflexivity|].
  cbn [Str.span]. destruct (p c); [|reflexivity].
  destruct (Str.span p s) as [a b]. cbn [fst snd] in *. cbn. now rewrite IH.
Qed.

(** Without white space in front, what the pattern of the specification
    accepts is accepted by the pattern of the code, with the same digits. *)
Lemma spec_pattern_accepted duration g :
  spec_duration_pattern duration = Some g ->
  fst (Str.span Chars.is_space duration) = EmptyString ->
  re_match_days duration = Some g.
Proof.
  unfold spec_duration_pattern, re_match_days. intros H Hws.
  pose proof (span_append Chars.is_space duration) as Ha.
  destruct (Str.span Chars.is_space duration) as [ws r0]. cbn [fst snd] in *.
  subst ws. cbn in Ha. subst r0.
  destruct (Str.span Chars.is_digit duration) as [ds r1].
  destruct (Str.is_empty ds); [discriminate|].
  destruct (Str.span Chars.is_space r1) as [ws1 r2].
  destruct (Str.strip_prefix_nocase "days" r2) as [r3|]; [|discriminate].
  destruct (Str.span Chars.is_space r3) as [ws2 r4].
  destruct (Str.is_empty r4); [exact H|discriminate].
Qed.

(** ** Successful requests *)

Lemma run_ok_inv w o d dd dur tok expiry payload s' response doc :
  run (get_flight_price w o d dd dur) tok expiry = (Ok payload, s') ->
  search_response w s' = Some response ->
  body response = Json doc ->
  exists params,
    sent_params s' = Some params
    /\ build_params o d dd dur = Ok params
    /\ shape_response params dur (offers_of doc) = Ok payload.
Proof.
  intros Hrun Hr Hb.
  assert (Hs' : s' = snd (run (get_flight_price w o d dd dur) tok expiry))
    by now rewrite Hrun.
  rewrite Hs' in Hr.
  destruct (search_response_inv _ _ _ _ _ _ _ _ Hr) as (s1 & p & _ & Hp & _ & Hsent & E).
  rewrite <- Hs' in Hsent.
  exists p. split; [exact Hsent|]. split; [exact Hp|].
  pose proof (f_equal fst Hrun) as Hc. rewrite E in Hc. cbn [fst] in Hc.
  destruct (is_error_status (status_code response)) eqn:Es.
  - destruct (raise_for_status_error response Es) as [m Hm].
    rewrite (classify_error _ _ _ _ _ Hm), (on_request_exception_json _ _ _ _ Hb) in Hc.
    discriminate Hc.
  - rewrite (classify_json _ _ _ _ _ Es Hb) in Hc. exact Hc.
Qed.

Lemma shape_response_ok params dur x r payload :
  shape_response params dur (x :: r) = Ok payload ->
  exists best k,
    py_min price_key (x :: r) = Ok best
    /\ price_key best = Ok k
    /\ dict_get payload "journey_type"
       = Some (VStr (if truthy dur then "two-way" else "one-way"))
    /\ dict_get payload "total_price_in_inr" = Some (VFloat k)
    /\ (truthy dur && (1 <? List.length (itineraries best))%nat = true ->
        dict_get payload "return_date" = Some (or_none (dict_get params "returnDate"))
        /\ dict_has payload "return_journey" = true)
    /\ (truthy dur && (1 <? List.length (itineraries best))%nat = false ->
        dict_get payload "return_date" = None
        /\ dict_get payload "return_journey" = None).
Proof.
  unfold shape_response.
  destruct (py_min price_key (x :: r)) as [best|e] eqn:Em; [|discriminate].
  cbn [rbind].
  destruct (list_index (itineraries best) 0) as [i0|e]; [|discriminate]. cbn [rbind].
  destruct (price_key best) as [k|e] eqn:Ek; [|discriminate]. cbn [rbind].
  destruct (truthy dur && (1 <? List.length (itineraries best))%nat) eqn:Et.
  - destruct (list_index (itineraries best) 1) as [i1|e]; [|discriminate]. cbn [rbind].
    intros H. injection H as <-. exists best, k.
    split; [reflexivity|]. split; [exact Ek|]. split; [reflexivity|].
    split; [reflexivity|]. split; [|congruence].
    intros _. split; reflexivity.
  - intros H. injection H as <-. exists best, k.
    split; [reflexivity|]. split; [exact Ek|]. split; [reflexivity|].
    split; [reflexivity|]. split; [congruence|].
    intros _. split; reflexivity.
Qed.

Lemma build_params_return_date o d dd dur params :
  build_params o d dd dur = Ok params ->
  if truthy dur
  then exists rd, dict_get params "returnDate" = Some (VStr rd)
  else dict_get params "returnDate" = None.
Proof.
  unfold build_params.
  destruct dur as [[|c r]|]; cbn [truthy].
  - intros H. injection H as <-. reflexivity.
  - destruct (return_date dd (String c r)) as [rd|e].
    + intros H. injection H as <-. exists rd. reflexivity.
    + destruct (_ || _); discriminate.
  - intros H. injection H as <-. reflexivity.
Qed.

(** ** The return date *)

Lemma build_params_with_return_date o d dd duration g dep :
  re_match_days duration = Some g ->
  (String.length g <= int_max_str_digits)%nat ->
  Calendar.strptime_ymd dd = Ok dep ->
  Calendar.ymd2ord dep + Str.digits_value g <= Calendar.MAXORDINAL ->
  build_params o d dd (Some duration)
  = Ok (dict_set (base_params o d dd) "returnDate"
          (VStr (Calendar.strftime_ymd
                   (Calendar.ord2ymd (Calendar.ymd2ord dep + Str.digits_value g)))))
    /\ 1 <= Calendar.ymd2ord dep + Str.digits_value g <= Calendar.MAXORDINAL.
Proof.
  intros Hm Hlen Hd Hmax.
  destruct (ParseFacts.re_match_days_digits _ _ Hm) as (_ & _ & Hn).
  pose proof (CalendarFacts.ymd2ord_positive dep (ParseFacts.strptime_ymd_valid _ _ Hd))
    as Hpos.
  split; [|lia].
  unfold build_params, return_date.
  destruct duration as [|c r]; [discriminate Hm|].
  rewrite Hm, (int_of_digits_short g Hlen), Hd. cbn [rbind].
  unfold Calendar.timedelta_days, Calendar.MAXORDINAL in *.
  replace ((Str.digits_value g <? -2147483648) || (2147483647 <? Str.digits_value g))
    with false by (symmetry; apply orb_false_iff; split; apply Z.ltb_ge; lia).
  replace ((Str.digits_value g <? -999999999) || (999999999 <? Str.digits_value g))
    with false by (symmetry; apply orb_false_iff; split; apply Z.ltb_ge; lia).
  cbn [rbind]. unfold Calendar.add, Calendar.MAXORDINAL.
  replace ((0 <? Calendar.ymd2ord dep + Str.digits_value g)
           && (Calendar.ymd2ord dep + Str.digits_value g <=? 3652059)) with true
    by (symmetry; apply andb_true_iff; split; [apply Z.ltb_lt|apply Z.leb_le]; lia).
  reflexivity.
Qed.

(** ** The duration pattern as a language *)

Module PatternFacts.

Lemma span_spec p s a b :
  Str.span p s = (a, b) -> s = (a ++ b)%string /\ Str.all p a = true.
Proof.
  revert a b. induction s as [|c s IH]; intros a b; cbn [Str.span].
  - intros H. injection H as <- <-. split; reflexivity.
  - destruct (p c) eqn:E.
    + destruct (Str.span p s) as [a' b'] eqn:Es. intros H. injection H as <- <-.
      destruct (IH a' b' eq_refl) as [-> Hall]. cbn. rewrite E, Hall. split; reflexivity.
    + intros H. injection H as <- <-. split; reflexivity.
Qed.

(** A run of [p]-characters followed by nothing or by a character that is
    not one is what [span] cuts off. *)
Lemma span_exact p a b :
  Str.all p a = true ->
  match b with EmptyString => True | String c _ => p c = false end ->
  Str.span p (a ++ b)%string = (a, b).
Proof.
  intros Ha Hb. induction a as [|c a IH]; cbn.
  - destruct b as [|c b]; [reflexivity|]. cbn. now rewrite Hb.
  - cbn in Ha. apply andb_true_iff in Ha as [Hc Ha]. rewrite Hc, (IH Ha). reflexivity.
Qed.

Lemma strip_prefix_split lit :
  forall s r, Str.strip_prefix_nocase lit s = Some r ->
              exists word, s = (word ++ r)%string
                           /\ Str.strip_prefix_nocase lit word = Some EmptyString.
Proof.
  induction lit as [|a lit IH]; intros s r; cbn [Str.strip_prefix_nocase].
  - intros H. injection H as ->. exists EmptyString. split; reflexivity.
  - destruct s as [|b s]; [discriminate|].
    destruct (Chars.eqb_nocase a b) eqn:E; [|discriminate].
    intros H. destruct (IH _ _ H) as (word & -> & Hw).
    exists (String b word). cbn [Str.strip_prefix_nocase]. rewrite E.
    split; [reflexivity|exact Hw].
Qed.

Lemma strip_prefix_app lit :
  forall word rest, Str.strip_prefix_nocase lit word = Some EmptyString ->
                    Str.strip_prefix_nocase lit (word ++ rest)%string = Some rest.
Proof.
  induction lit as [|a lit IH]; intros word rest; cbn [Str.strip_prefix_nocase].
  - intros H. injection H as ->. reflexivity.
  - destruct word as [|b word]; [discriminate|].
    cbn [Str.strip_prefix_nocase String.append].
    destruct (Chars.eqb_nocase a b); [apply IH|discriminate].
Qed.

Lemma space_is_not_digit c : Chars.is_space c = true -> Chars.is_digit c = false.
Proof.
  unfold Chars.is_space, Chars.is_digit. intros H.
  apply andb_false_iff.
  repeat (apply orb_true_iff in H as [H|H]);
    rewrite ?andb_true_iff, ?Z.leb_le, ?Z.eqb_eq in H;
    rewrite !Z.leb_gt; lia.
Qed.

(** The letter [d], in either case, is neither a digit nor white space. *)
Lemma letter_d c :
  Chars.eqb_nocase "d" c = true ->
  Chars.is_digit c = false /\ Chars.is_space c = false.
Proof.
  destruct c as [[] [] [] [] [] [] [] []]; intros H; vm_compute in H;
    try discriminate H; split; reflexivity.
Qed.

Lemma days_word_head word :
  Str.strip_prefix_nocase "days" word = Some EmptyString ->
  exists c w, word = String c w /\ Chars.eqb_nocase "d" c = true.
Proof.
  destruct word as [|c w]; [discriminate|]. cbn [Str.strip_prefix_nocase].
  destruct (Chars.eqb_nocase "d" c) eqn:E; [|discriminate].
  intros _. eauto.
Qed.

(** [re_match_days] accepts exactly the strings that begin with digits,
    optional white space and the word "days" in any case, and returns the
    digits. *)
Lemma re_match_days_iff duration digits :
  re_match_days duration = Some digits <-> begins_with_days duration digits.
Proof.
  unfold re_match_days, begins_with_days. split.
  - destruct (Str.span Chars.is_digit duration) as [ds r1] eqn:E1.
    destruct (Str.is_empty ds) eqn:Ee; [discriminate|].
    destruct (Str.span Chars.is_space r1) as [ws r2] eqn:E2.
    destruct (Str.strip_prefix_nocase "days" r2) as [r3|] eqn:E3; [|discriminate].
    intros H. injection H as <-.
    destruct (span_spec _ _ _ _ E1) as [-> Hd].
    destruct (span_spec _ _ _ _ E2) as [-> Hs].
    destruct (strip_prefix_split _ _ _ E3) as (word & -> & Hw).
    exists ws, word, r3. repeat split; try assumption.
    intros ->. discriminate Ee.
  - intros (ws & word & rest & -> & Hne & Hd & Hs & Hw).
    destruct (days_word_head word Hw) as (c & w & -> & Hc).
    destruct (letter_d c Hc) as [Hcd Hcs].
    rewrite (span_exact Chars.is_digit digits).
    + destruct digits; [congruence|]. cbn [Str.is_empty].
      rewrite (span_exact Chars.is_space ws); [|exact Hs|exact Hcs].
      now rewrite (strip_prefix_app _ _ rest Hw).
    + exact Hd.
    + destruct ws as [|c' ws]; cbn; [exact Hcd|].
      cbn in Hs. apply andb_true_iff in Hs as [Hs _]. now apply space_is_not_digit.
Qed.

End PatternFacts.

(** ** Dates are determined by their ordinal *)

Module OrdinalFacts.
Import Calendar.

Lemma days_before_year_succ y :
  days_before_year (y + 1)
  = days_before_year y + 365 + (if is_leap y then 1 else 0).
Proof.
  unfold days_before_year, is_leap.
  replace (y + 1 - 1) with y by lia.
  destruct (y mod 4 =? 0) eqn:M4; destruct (y mod 100 =? 0) eqn:M100;
    destruct (y mod 400 =? 0) eqn:M400; cbn [andb orb negb];
    rewrite ?Z.eqb_eq, ?Z.eqb_neq in *;
    Z.to_euclidean_division_equations; lia.
Qed.

Lemma days_before_year_mono y y' : y <= y' -> days_before_year y <= days_before_year y'.
Proof.
  intros H. unfold days_before_year.
  Z.to_euclidean_division_equations. lia.
Qed.

Lemma valid_fields d :
  valid d = true ->
  1 <= year d <= 9999 /\ 1 <= month d <= 12
  /\ 1 <= day d <= days_in_month (year d) (month d).
Proof.
  unfold valid. intros H.
  repeat (apply andb_true_iff in H as [H ?]).
  rewrite ?Z.leb_le in *. lia.
Qed.

Ltac month_cases m :=
  let Hc := fresh "Hc" in
  assert (Hc : m = 1 \/ m = 2 \/ m = 3 \/ m = 4 \/ m = 5 \/ m = 6 \/ m = 7
               \/ m = 8 \/ m = 9 \/ m = 10 \/ m = 11 \/ m = 12) by lia;
  repeat (destruct Hc as [Hc|Hc]); rewrite Hc in *.

Ltac eval_month_tables :=
  repeat match goal with
  | |- context [ table ?t ?i ] =>
      let v := eval vm_compute in (table t i) in change (table t i) with v
  | H : context [ table ?t ?i ] |- _ =>
      let v := eval vm_compute in (table t i) in change (table t i) with v in H
  end;
  cbn [andb Z.ltb Z.eqb Z.compare Pos.compare Pos.compare_cont Pos.eqb] in *.

(** Inside its year a date lies between day 1 and the last day. *)
Lemma day_of_year_bounds d :
  valid d = true ->
  1 <= days_before_month (year d) (month d) + day d
    <= 365 + (if is_leap (year d) then 1 else 0).
Proof.
  intros H. apply valid_fields in H as (_ & Hm & Hd).
  unfold days_in_month, days_before_month in *.
  destruct (is_leap (year d)); month_cases (month d); eval_month_tables; lia.
Qed.

Lemma ymd2ord_year_bounds d :
  valid d = true ->
  days_before_year (year d) < ymd2ord d <= days_before_year (year d + 1).
Proof.
  intros H. pose proof (day_of_year_bounds d H) as B.
  rewrite days_before_year_succ. unfold ymd2ord. lia.
Qed.

Lemma same_year_inj y m1 d1 m2 d2 :
  1 <= m1 <= 12 -> 1 <= d1 <= days_in_month y m1 ->
  1 <= m2 <= 12 -> 1 <= d2 <= days_in_month y m2 ->
  days_before_month y m1 + d1 = days_before_month y m2 + d2 ->
  m1 = m2 /\ d1 = d2.
Proof.
  intros Hm1 Hd1 Hm2 Hd2 E.
  unfold days_in_month, days_before_month in *.
  destruct (is_leap y); month_cases m1; month_cases m2; eval_month_tables; lia.
Qed.

(** Two dates of the calendar with the same ordinal are the same date. *)
Lemma ymd2ord_inj d1 d2 :
  valid d1 = true -> valid d2 = true -> ymd2ord d1 = ymd2ord d2 -> d1 = d2.
Proof.
  intros V1 V2 E.
  pose proof (ymd2ord_year_bounds d1 V1) as B1.
  pose proof (ymd2ord_year_bounds d2 V2) as B2.
  assert (Ey : year d1 = year d2).
  { destruct (Z.lt_trichotomy (year d1) (year d2)) as [L|[L|L]]; [|exact L|].
    - pose proof (days_before_year_mono (year d1 + 1) (year d2) ltac:(lia)). lia.
    - pose proof (days_before_year_mono (year d2 + 1) (year d1) ltac:(lia)). lia. }
  apply valid_fields in V1 as (_ & Hm1 & Hd1).
  apply valid_fields in V2 as (_ & Hm2 & Hd2).
  destruct d1 as [y1 m1 dd1], d2 as [y2 m2 dd2]. cbn [year month day] in *.
  subst y2. unfold ymd2ord in E. cbn [year month day] in E.
  destruct (same_year_inj y1 m1 dd1 m2 dd2 Hm1 Hd1 Hm2 Hd2 ltac:(lia)) as [-> ->].
  reflexivity.
Qed.

End OrdinalFacts.

(** ** The ISO form of a date reads back as the date *)

Module FormatFacts.
Import Calendar.

Lemma below_by_cases (P : Z -> bool) (n : Z) :
  forallb (fun k => P (Z.of_nat k)) (seq 0 (Z.to_nat n)) = true ->
  forall z, 0 <= z < n -> P z = true.
Proof.
  intros H z Hz. rewrite forallb_forall in H.
  specialize (H (Z.to_nat z)). rewrite Z2Nat.id in H by lia.
  apply H. apply in_seq. lia.
Qed.

Lemma year_digits y :
  0 <= y <= 9999 ->
  exists a b c d,
    Str.pad0 4 y = String a (String b (String c (String d EmptyString)))
    /\ Chars.is_digit a && Chars.is_digit b && Chars.is_digit c && Chars.is_digit d = true
    /\ Str.digits_value (String a (String b (String c (String d EmptyString)))) = y.
Proof.
  intros Hy.
  pose proof (below_by_cases
    (fun y => match Str.pad0 4 y with
              | String a (String b (String c (String d EmptyString))) =>
                  Chars.is_digit a && Chars.is_digit b && Chars.is_digit c
                  && Chars.is_digit d && (Str.digits_value (Str.pad0 4 y) =? y)
              | _ => false
              end) 10000 ltac:(vm_compute; reflexivity) y ltac:(lia)) as H.
  cbv beta in H.
  destruct (Str.pad0 4 y) as [|a [|b [|c [|d [|e s]]]]]; try discriminate H.
  apply andb_true_iff in H as [H Hv]. apply Z.eqb_eq in Hv.
  exists a, b, c, d. auto.
Qed.

Lemma re_year_pad y rest :
  0 <= y <= 9999 -> re_year (Str.pad0 4 y ++ rest)%string = Some (y, rest).
Proof.
  intros Hy. destruct (year_digits y Hy) as (a & b & c & d & -> & Hd & Hv).
  cbn [String.append re_year]. rewrite Hd, Hv. reflexivity.
Qed.

Lemma re_month_pad m rest :
  1 <= m <= 12 ->
  re_month (Str.pad0 2 m ++ String "-" rest)%string = Some (m, String "-" rest).
Proof.
  intros Hm.
  assert (Hc : m = 1 \/ m = 2 \/ m = 3 \/ m = 4 \/ m = 5 \/ m = 6 \/ m = 7
               \/ m = 8 \/ m = 9 \/ m = 10 \/ m = 11 \/ m = 12) by lia.
  repeat (destruct Hc as [->|Hc]); try subst m; reflexivity.
Qed.

Lemma re_day_pad d :
  1 <= d <= 31 -> re_day (Str.pad0 2 d) = Some (d, EmptyString).
Proof.
  intros Hd.
  pose proof (below_by_cases
    (fun d => (d =? 0)
              || match re_day (Str.pad0 2 d) with
                 | Some (d', EmptyString) => d' =? d
                 | _ => false
                 end) 32 ltac:(vm_compute; reflexivity) d ltac:(lia)) as H.
  cbv beta in H. apply orb_true_iff in H as [H|H].
  - apply Z.eqb_eq in H. lia.
  - destruct (re_day (Str.pad0 2 d)) as [[d' [|? ?]]|]; try discriminate H.
    apply Z.eqb_eq in H. now subst d'.
Qed.

Lemma length_append (s1 s2 : string) :
  String.length (s1 ++ s2)%string = (String.length s1 + String.length s2)%nat.
Proof. induction s1 as [|c s1 IH]; cbn; [reflexivity|now rewrite IH]. Qed.

Lemma pad0_2_length n : 0 <= n <= 99 -> String.length (Str.pad0 2 n) = 2%nat.
Proof.
  intros Hn.
  pose proof (below_by_cases
    (fun n => Nat.eqb (String.length (Str.pad0 2 n)) 2) 100
    ltac:(vm_compute; reflexivity) n ltac:(lia)) as H.
  now apply Nat.eqb_eq in H.
Qed.

Lemma days_in_month_le_31 y m : 1 <= m <= 12 -> days_in_month y m <= 31.
Proof.
  intros Hm. unfold days_in_month.
  assert (Hc : m = 1 \/ m = 2 \/ m = 3 \/ m = 4 \/ m = 5 \/ m = 6 \/ m = 7
               \/ m = 8 \/ m = 9 \/ m = 10 \/ m = 11 \/ m = 12) by lia.
  repeat (destruct Hc as [->|Hc]); try subst m;
    destruct (is_leap y); vm_compute; discriminate.
Qed.

(** The ISO form of a date of the calendar has ten characters, and
    [strptime] reads them back as the same date. *)
Lemma strptime_isoformat d :
  valid d = true ->
  strptime_ymd (isoformat d) = Ok d
  /\ String.length (isoformat d) = 10%nat.
Proof.
  intros V. apply OrdinalFacts.valid_fields in V as (Hy & Hm & Hd).
  pose proof (days_in_month_le_31 (year d) (month d) Hm) as H31.
  destruct d as [y m dd]. cbn [year month day] in *.
  unfold isoformat. cbn [year month day].
  cbn [String.append].
  split.
  - unfold strptime_ymd, re_ymd.
    rewrite re_year_pad by lia. cbn [re_dash].
    rewrite re_month_pad by lia. cbn [re_dash].
    rewrite re_day_pad by lia. cbn [Str.is_empty negb].
    replace (y <? 1) with false by (symmetry; apply Z.ltb_ge; lia).
    replace (days_in_month y m <? dd) with false by (symmetry; apply Z.ltb_ge; lia).
    reflexivity.
  - destruct (year_digits y ltac:(lia)) as (a & b & c & e & -> & _ & _).
    cbn [String.append String.length].
    rewrite length_append. cbn [String.length].
    rewrite !pad0_2_length by lia. reflexivity.
Qed.

(** From the year 1000 on, padding the year changes nothing: what
    [strftime] writes is the ISO form. *)
Lemma year_unpadded y : 1000 <= y <= 9999 -> Str.of_nonneg y = Str.pad0 4 y.
Proof.
  intros Hy.
  pose proof (below_by_cases
    (fun y => (y <? 1000) || String.eqb (Str.of_nonneg y) (Str.pad0 4 y)) 10000
    ltac:(vm_compute; reflexivity) y ltac:(lia)) as H.
  cbv beta in H. apply orb_true_iff in H as [H|H].
  - apply Z.ltb_lt in H. lia.
  - now apply String.eqb_eq in H.
Qed.

Lemma strftime_isoformat d :
  valid d = true -> 1000 <= year d -> strftime_ymd d = isoformat d.
Proof.
  intros V Hy. apply OrdinalFacts.valid_fields in V as (Hr & _ & _).
  unfold strftime_ymd, isoformat. now rewrite year_unpadded by lia.
Qed.

(** Below the year 1000 what [strftime] writes is shorter than the ISO
    form. *)
Lemma year_short y : 1 <= y < 1000 -> (String.length (Str.of_nonneg y) < 4)%nat.
Proof.
  intros Hy.
  pose proof (below_by_cases
    (fun y => Nat.ltb (String.length (Str.of_nonneg y)) 4) 1000
    ltac:(vm_compute; reflexivity) y ltac:(lia)) as H.
  now apply Nat.ltb_lt in H.
Qed.

Lemma strftime_short d :
  valid d = true -> year d < 1000 -> (String.length (strftime_ymd d) < 10)%nat.
Proof.
  intros V Hy. apply OrdinalFacts.valid_fields in V as (Hr & Hm & Hd).
  pose proof (days_in_month_le_31 (year d) (month d) Hm) as H31.
  pose proof (year_short (year d) ltac:(lia)) as Hs.
  unfold strftime_ymd. rewrite !length_append. cbn [String.length].
  rewrite !pad0_2_length by lia. lia.
Qed.

End FormatFacts.

(** * The properties of the handler *)

(** ** C1: selection of the cheapest offer *)

(** C1: from a non-empty list of offers whose prices read as numbers, the
    handler selects the offer at the first position whose price, read by
    [float], is minimal: no offer is cheaper, and every offer before it is
    dearer.  The total price of a successful result is the price of that
    offer as a float.  Of three offers priced 500, 250 and 999 the one
    priced 250 is selected. *)
Theorem C1_cheapest_offer_is_selected :
  (forall (x : Offer) (r : list Offer) (keys : list spec_float),
     priced (x :: r) keys ->
     exists i best,
       py_min price_key (x :: r) = Ok best
       /\ nth_error (x :: r) i = Some best
       /\ first_minimal keys i)
  /\ (forall (w : World) (origin destination departure_date : string)
             (duration : option string) (tok : string) (expiry : option Z)
             (payload : dict) (s' : Store) (response : Response SearchData)
             (doc : SearchData) (x : Offer) (r : list Offer),
        run (get_flight_price w origin destination departure_date duration) tok expiry
          = (Ok payload, s') ->
        search_response w s' = Some response ->
        body response = Json doc ->
        offers_of doc = x :: r ->
        exists best k,
          py_min price_key (x :: r) = Ok best
          /\ price_key best = Ok k
          /\ dict_get payload "total_price_in_inr" = Some (VFloat k))
  /\ (forall a b c : list Itinerary,
        py_min price_key
          [ {| price := {| grandTotal := "500" |}; itineraries := a |};
            {| price := {| grandTotal := "250" |}; itineraries := b |};
            {| price := {| grandTotal := "999" |}; itineraries := c |} ]
        = Ok {| price := {| grandTotal := "250" |}; itineraries := b |}).
Proof.
  split; [|split].
  - intros x r keys Hp. apply py_min_first_minimal. exact Hp.
  - intros w origin destination departure_date duration tok expiry payload s'
           response doc x r Hrun Hr Hb Ho.
    destruct (run_ok_inv _ _ _ _ _ _ _ _ _ _ _ Hrun Hr Hb) as (params & _ & _ & Hshape).
    rewrite Ho in Hshape.
    destruct (shape_response_ok _ _ _ _ _ Hshape) as (best & k & Hm & Hk & _ & Ht & _).
    exists best, k. auto.
  - intros a b c. reflexivity.
Qed.

Lemma C1_witness :
  exists i best,
    py_min price_key (sample_offers 1) = Ok best
    /\ nth_error (sample_offers 1) i = Some best
    /\ first_minimal
         [PyFloat.of_decimal false 500 0; PyFloat.of_decimal false 250 0;
          PyFloat.of_decimal false 999 0] i.
Proof.
  apply (proj1 C1_cheapest_offer_is_selected).
  repeat constructor.
Defined.

(** ** C2: the error of a malformed duration *)

(** C2 (as the code has it): once the token step has succeeded, the request
    fails with the InvalidArgument error (status 400, the text that shows
    the expected format) if and only if the duration string is not empty and
    does not begin with digits, optional white space and the word "days" in
    any case.  An empty string counts as no duration; white space in front
    is refused, and anything may follow the word.  Strings that the anchored
    pattern of the specification accepts and that have no white space in
    front are accepted.  The pattern of the code fails exactly on the
    strings that do not begin with "<N> days". *)
Theorem C2_invalid_argument_iff_no_match
    (w : World) (origin destination departure_date duration : string)
    (s s1 : Store) :
  ensure_token w s = (Ok tt, s1) ->
  (fst (get_flight_price w origin destination departure_date (Some duration) s)
     = Raise InvalidArgument
   <-> duration <> "" /\ re_match_days duration = None)
  /\ (forall g, spec_duration_pattern duration = Some g ->
                fst (Str.span Chars.is_space duration) = "" ->
                re_match_days duration = Some g)
  /\ (re_match_days duration = None
      <-> ~ exists digits, begins_with_days duration digits).
Proof.
  intros Et. split; [|split; [intros g; apply spec_pattern_accepted|]].
  2:{ split.
      - intros Hn [digits Hb]. apply PatternFacts.re_match_days_iff in Hb. congruence.
      - intros Hn. destruct (re_match_days duration) as [g|] eqn:E; [|reflexivity].
        exfalso. apply Hn. exists g. now apply PatternFacts.re_match_days_iff. }
  split.
  - intros H.
    destruct (build_params origin destination departure_date (Some duration))
      as [params|e] eqn:Eb.
    + rewrite (get_flight_price_search _ _ _ _ _ _ _ _ Et Eb), search_step_outcome in H.
      exfalso. eapply classify_not_invalid_argument. exact H.
    + rewrite (get_flight_price_params_failure _ _ _ _ _ _ _ _ Et Eb) in H.
      cbn [fst] in H. injection H as ->.
      destruct duration as [|c r]; [discriminate Eb|].
      split; [discriminate|].
      destruct (re_match_days (String c r)) as [g|] eqn:Em; [|reflexivity].
      exfalso. eapply build_params_match_raise; eauto.
  - intros [Hne Hm].
    rewrite (get_flight_price_params_failure _ _ _ _ _ _ _ _ Et
               (build_params_no_match _ _ _ _ Hne Hm)).
    reflexivity.
Qed.

Lemma C2_witness :
  fst (get_flight_price (sample_world (offers_response [])) "DEL" "BOM" "2024-03-01"
         (Some "3 weeks") (mkStore "cached" fresh_expiry []))
  = Raise InvalidArgument
  /\ fst (get_flight_price (sample_world (offers_response [])) "DEL" "BOM" "2024-03-01"
            (Some "abc days") (mkStore "cached" fresh_expiry []))
     = Raise InvalidArgument.
Proof.
  split.
  - apply (proj1 (C2_invalid_argument_iff_no_match
                    (sample_world (offers_response [])) "DEL" "BOM" "2024-03-01" "3 weeks"
                    (mkStore "cached" fresh_expiry []) (mkStore "cached" fresh_expiry [])
                    eq_refl)).
    split; [discriminate|reflexivity].
  - apply (proj1 (C2_invalid_argument_iff_no_match
                    (sample_world (offers_response [])) "DEL" "BOM" "2024-03-01" "abc days"
                    (mkStore "cached" fresh_expiry []) (mkStore "cached" fresh_expiry [])
                    eq_refl)).
    split; [discriminate|reflexivity].
Defined.

(** C2 as stated fails in three ways: the empty string is not refused (it
    is read as no duration), a string with white space in front matches the
    pattern of the specification and is refused, and a string with text
    after "days" does not match it and is accepted. *)
Lemma C2_counterexample :
  (spec_duration_pattern "" = None
   /\ fst (run (get_flight_price (sample_world (offers_response [])) "DEL" "BOM"
                  "2024-03-01" (Some "")) "cached" fresh_expiry)
      = Ok no_offers_found)
  /\ (spec_duration_pattern " 3 days" = Some "3"
      /\ fst (run (get_flight_price (sample_world (offers_response [])) "DEL" "BOM"
                     "2024-03-01" (Some " 3 days")) "cached" fresh_expiry)
         = Raise InvalidArgument)
  /\ (spec_duration_pattern "3 daysx" = None
      /\ fst (run (get_flight_price (sample_world (offers_response [])) "DEL" "BOM"
                     "2024-03-01" (Some "3 daysx")) "cached" fresh_expiry)
         = Ok no_offers_found).
Proof. repeat split; reflexivity. Qed.

(** ** C3: the return date of the query *)

(** C3 (as the code has it): for a duration string that begins with
    "<N> days" in any case, N written on at most 4300 digits, and a valid
    departure date, provided the departure date plus N days is not after
    9999-12-31, the query sent to the provider carries as return date what
    [strftime] writes for the one date of the calendar that lies N days
    after the departure date.  When that date lies in the year 1000 or
    later this is its ISO form, ten characters that read back as the date;
    in an earlier year the year is not padded and the text is shorter. *)
Theorem C3_return_date_is_departure_plus_days
    (w : World) (origin destination departure_date duration digits : string)
    (dep : Calendar.date) (s s1 : Store) :
  ensure_token w s = (Ok tt, s1) ->
  begins_with_days duration digits ->
  (String.length digits <= int_max_str_digits)%nat ->
  Calendar.strptime_ymd departure_date = Ok dep ->
  Calendar.ymd2ord dep + Str.digits_value digits <= Calendar.MAXORDINAL ->
  exists params ret,
    sent_params (snd (get_flight_price w origin destination departure_date
                        (Some duration) s)) = Some params
    /\ dict_get params "returnDate" = Some (VStr (Calendar.strftime_ymd ret))
    /\ Calendar.valid ret = true
    /\ Calendar.ymd2ord ret = Calendar.ymd2ord dep + Str.digits_value digits
    /\ (forall d, Calendar.valid d = true ->
                  Calendar.ymd2ord d = Calendar.ymd2ord dep + Str.digits_value digits ->
                  d = ret)
    /\ (1000 <= Calendar.year ret ->
        Calendar.strftime_ymd ret = Calendar.isoformat ret
        /\ Calendar.strptime_ymd (Calendar.strftime_ymd ret) = Ok ret
        /\ String.length (Calendar.strftime_ymd ret) = 10%nat)
    /\ (Calendar.year ret < 1000 ->
        (String.length (Calendar.strftime_ymd ret) < 10)%nat).
Proof.
  intros Et Hdays Hlen Hd Hmax.
  apply PatternFacts.re_match_days_iff in Hdays as Hm.
  destruct (build_params_with_return_date origin destination departure_date
              duration digits dep Hm Hlen Hd Hmax) as [Hb Hrange].
  destruct (CalendarFacts.ord2ymd_correct _ Hrange) as [Hvalid Hord].
  rewrite (get_flight_price_search _ _ _ _ _ _ _ _ Et Hb), search_step_store.
  eexists. exists (Calendar.ord2ymd (Calendar.ymd2ord dep + Str.digits_value digits)).
  split; [|split; [|split; [|split; [|split; [|split]]]]].
  - unfold sent_params. cbn [calls]. rewrite last_call_snoc. reflexivity.
  - apply dict_get_set_same.
  - exact Hvalid.
  - exact Hord.
  - intros d Vd Ed. apply OrdinalFacts.ymd2ord_inj; [exact Vd|exact Hvalid|congruence].
  - intros Hy. rewrite (FormatFacts.strftime_isoformat _ Hvalid Hy).
    split; [reflexivity|]. apply FormatFacts.strptime_isoformat. exact Hvalid.
  - intros Hy. apply FormatFacts.strftime_short; assumption.
Qed.

Lemma C3_witness :
  exists params ret,
    sent_params (snd (sample_run [] "2024-02-28" (Some "2 DAYS"))) = Some params
    /\ dict_get params "returnDate" = Some (VStr (Calendar.strftime_ymd ret))
    /\ Calendar.valid ret = true
    /\ Calendar.ymd2ord ret
       = Calendar.ymd2ord (Calendar.mkdate 2024 2 28) + Str.digits_value "2"
    /\ (forall d, Calendar.valid d = true ->
                  Calendar.ymd2ord d
                  = Calendar.ymd2ord (Calendar.mkdate 2024 2 28) + Str.digits_value "2" ->
                  d = ret)
    /\ (1000 <= Calendar.year ret ->
        Calendar.strftime_ymd ret = Calendar.isoformat ret
        /\ Calendar.strptime_ymd (Calendar.strftime_ymd ret) = Ok ret
        /\ String.length (Calendar.strftime_ymd ret) = 10%nat)
    /\ (Calendar.year ret < 1000 ->
        (String.length (Calendar.strftime_ymd ret) < 10)%nat).
Proof.
  apply (C3_return_date_is_departure_plus_days
           (sample_world (offers_response [])) "DEL" "BOM" "2024-02-28" "2 DAYS" "2"
           (Calendar.mkdate 2024 2 28)
           (mkStore "cached" fresh_expiry []) (mkStore "cached" fresh_expiry [])
           eq_refl).
  - exists " "%string, "DAYS"%string, ""%string.
    split; [reflexivity|]. split; [discriminate|].
    split; [reflexivity|]. split; reflexivity.
  - apply Nat.leb_le. reflexivity.
  - reflexivity.
  - vm_compute. discriminate.
Defined.

(** C3 as stated fails in three ways.  At the end of the calendar: for the
    valid departure date 9999-12-31 and the duration "1 days" the handler
    raises [OverflowError] and sends no query.  Before the year 1000: for
    the departure date 0999-01-01 and "1 days" the return date is sent as
    "999-01-02", which is not the ISO form "0999-01-02".  And on a long
    numeral: the duration of 4300 zeros followed by "1 days" matches the
    pattern with N = 1, and the handler answers 400 with the text of [int]
    and sends no query. *)
Lemma C3_counterexample :
  (re_match_days "1 days" = Some "1"
   /\ Calendar.strptime_ymd "9999-12-31" = Ok (Calendar.mkdate 9999 12 31)
   /\ sample_run [] "9999-12-31" (Some "1 days")
      = (Raise (OverflowError [Lit "date value out of range"]),
         mkStore "cached" fresh_expiry []))
  /\ (Calendar.strptime_ymd "0999-01-01" = Ok (Calendar.mkdate 999 1 1)
      /\ option_map (fun params => dict_get params "returnDate")
           (sent_params (snd (sample_run [] "0999-01-01" (Some "1 days"))))
         = Some (Some (VStr "999-01-02"))
      /\ Calendar.isoformat (Calendar.mkdate 999 1 2) = "0999-01-02")
  /\ (re_match_days (Str.zeros 4300 ++ "1 days") = Some (Str.zeros 4300 ++ "1")%string
      /\ Str.digits_value (Str.zeros 4300 ++ "1") = 1
      /\ sample_run [] "2024-03-01" (Some (Str.zeros 4300 ++ "1 days")%string)
         = (Raise (HTTPException 400
                     [Lit "Exceeds the limit (4300 digits) for integer string conversion: value has ";
                      Lit "4301";
                      Lit " digits; use sys.set_int_max_str_digits() to increase the limit"]),
            mkStore "cached" fresh_expiry [])).
Proof. repeat split; vm_compute; reflexivity. Qed.

(** ** C4: when the token is refreshed *)

(** C4: a token refresh is performed if and only if the cached credential is
    not valid, a credential being valid when the token is not empty and its
    expiry lies more than five minutes after the current time; a cached
    token that is good for ten more minutes triggers no refresh. *)
Theorem C4_refresh_iff_credential_not_valid
    (w : World) (origin destination departure_date : string)
    (duration : option string) (tok : string) (expiry : option Z) :
  (refreshed (snd (run (get_flight_price w origin destination departure_date duration)
                     tok expiry)) = true
   <-> ~ credential_valid (now_in_is_token_valid w) tok expiry)
  /\ (forall c r,
        refreshed (snd (run (get_flight_price w origin destination departure_date duration)
                          (String c r) (Some (now_in_is_token_valid w + ten_minutes))))
        = false).
Proof.
  split.
  - unfold run. apply (refreshed_iff_invalid w _ _ _ _ (mkStore tok expiry [])).
    reflexivity.
  - intros c r. unfold run.
    destruct (refreshed _) eqn:E; [|reflexivity].
    apply refreshed_iff_invalid in E; [|reflexivity].
    exfalso. apply E. cbn [token token_expiry]. split; [discriminate|].
    eexists. split; [reflexivity|].
    unfold ten_minutes, five_minutes, microseconds_per_second. lia.
Qed.

(** ** C5: the journey type *)

(** C5: in every successful search result the journey type is "two-way"
    exactly when a duration was supplied (present and not empty), whatever
    the itineraries of the winning offer; without a duration the type is
    "one-way" and the result has neither a return journey nor a return date;
    with a duration and a winning offer of one itinerary the two fields are
    left out as well. *)
Theorem C5_journey_type_follows_the_duration
    (w : World) (origin destination departure_date : string)
    (duration : option string) (tok : string) (expiry : option Z)
    (payload : dict) (s' : Store) (response : Response SearchData)
    (doc : SearchData) (x : Offer) (r : list Offer) :
  run (get_flight_price w origin destination departure_date duration) tok expiry
    = (Ok payload, s') ->
  search_response w s' = Some response ->
  body response = Json doc ->
  offers_of doc = x :: r ->
  (dict_get payload "journey_type" = Some (VStr "two-way") <-> truthy duration = true)
  /\ (dict_get payload "journey_type" = Some (VStr "one-way") <-> truthy duration = false)
  /\ (truthy duration = false ->
      dict_get payload "return_journey" = None /\ dict_get payload "return_date" = None)
  /\ (forall best,
        py_min price_key (x :: r) = Ok best ->
        (List.length (itineraries best) <= 1)%nat ->
        dict_get payload "return_journey" = None /\ dict_get payload "return_date" = None).
Proof.
  intros Hrun Hr Hb Ho.
  destruct (run_ok_inv _ _ _ _ _ _ _ _ _ _ _ Hrun Hr Hb) as (params & _ & _ & Hshape).
  rewrite Ho in Hshape.
  destruct (shape_response_ok _ _ _ _ _ Hshape) as (best & k & Hm & _ & Hj & _ & _ & Hnone).
  rewrite Hj.
  split; [|split; [|split]].
  - split; [|intros ->; reflexivity].
    destruct (truthy duration); [reflexivity|discriminate].
  - split; [|intros ->; reflexivity].
    destruct (truthy duration); [discriminate|reflexivity].
  - intros Ht. rewrite Ht in Hnone. apply and_comm, (Hnone eq_refl).
  - intros best' Hm' Hlen. assert (best' = best) by congruence. subst best'.
    apply and_comm, Hnone. apply andb_false_iff. right. apply Nat.ltb_ge. exact Hlen.
Qed.

Lemma C5_witness :
  (dict_get (payload_of (sample_run (sample_offers 1) "2024-03-01" (Some "7 days")))
     "journey_type" = Some (VStr "two-way")
   <-> truthy (Some "7 days") = true)
  /\ dict_get (payload_of (sample_run (sample_offers 1) "2024-03-01" (Some "7 days")))
       "return_journey" = None.
Proof.
  pose proof (C5_journey_type_follows_the_duration
                (sample_world (offers_response (sample_offers 1)))
                "DEL" "BOM" "2024-03-01" (Some "7 days") "cached" fresh_expiry
                (payload_of (sample_run (sample_offers 1) "2024-03-01" (Some "7 days")))
                (snd (sample_run (sample_offers 1) "2024-03-01" (Some "7 days")))
                (sample_response 200
                   (Json {| data := Some (sample_offers 1); source_text := "{...}" |}))
                {| data := Some (sample_offers 1); source_text := "{...}" |}
                (sample_offer "500" 2) [sample_offer "250" 1; sample_offer "999" 2]
                eq_refl eq_refl eq_refl eq_refl) as (H2 & _ & _ & Hone).
  split; [exact H2|].
  apply (Hone (sample_offer "250" 1)); [reflexivity|].
  cbn. apply le_n.
Defined.

(** ** C6: errors of the provider *)

(** C6 (as the code has it): when the provider answers the search with an
    error status and a JSON body, the caller gets an error that carries the
    status of the provider: for 400 a bad-request text that quotes the body,
    for 401 the authentication-failure text, for 404 the not-found text, and
    for any other status a generic text that ends with the text of the
    original error.  When the body of the error answer is not JSON, the
    caller gets status 500 with the text of the original error, whatever the
    status of the provider. *)
Theorem C6_provider_errors_are_classified
    (w : World) (origin destination departure_date : string)
    (duration : option string) (tok : string) (expiry : option Z)
    (response : Response SearchData) :
  search_response w
    (snd (run (get_flight_price w origin destination departure_date duration) tok expiry))
    = Some response ->
  is_error_status (status_code response) = true ->
  exists original,
    (forall s0, raise_for_status response s0 = (Raise (HTTPError original), s0))
    /\ (forall doc, body response = Json doc -> status_code response = 400 ->
          fst (run (get_flight_price w origin destination departure_date duration)
                 tok expiry)
          = Raise (HTTPException 400
                     [Lit "Bad request to Amadeus API. Please check your parameters. Error: ";
                      ReprJson (source_text doc)]))
    /\ (forall doc, body response = Json doc -> status_code response = 401 ->
          fst (run (get_flight_price w origin destination departure_date duration)
                 tok expiry)
          = Raise (HTTPException 401
                     [Lit "Amadeus authentication failed. Please check your API key and secret."]))
    /\ (forall doc, body response = Json doc -> status_code response = 404 ->
          fst (run (get_flight_price w origin destination departure_date duration)
                 tok expiry)
          = Raise (HTTPException 404
                     [Lit "The requested resource was not found on the Amadeus API."]))
    /\ (forall doc, body response = Json doc ->
          status_code response <> 400 -> status_code response <> 401 ->
          status_code response <> 404 ->
          fst (run (get_flight_price w origin destination departure_date duration)
                 tok expiry)
          = Raise (HTTPException (status_code response)
                     ([Lit "An error occurred while fetching flight data: "] ++ original)))
    /\ (forall m, body response = NotJson m ->
          fst (run (get_flight_price w origin destination departure_date duration)
                 tok expiry)
          = Raise (HTTPException 500 original)).
Proof.
  intros Hr Hs.
  destruct (search_response_inv _ _ _ _ _ _ _ _ Hr) as (s1 & p & _ & _ & _ & _ & E).
  destruct (raise_for_status_error response Hs) as [original Ho].
  exists original. split; [exact Ho|].
  rewrite E. cbn [fst]. rewrite (classify_error _ _ _ _ _ Ho).
  repeat split.
  - intros doc Hb Hc. rewrite (on_request_exception_json _ _ _ _ Hb), Hc. reflexivity.
  - intros doc Hb Hc. rewrite (on_request_exception_json _ _ _ _ Hb), Hc. reflexivity.
  - intros doc Hb Hc. rewrite (on_request_exception_json _ _ _ _ Hb), Hc. reflexivity.
  - intros doc Hb H400 H401 H404. rewrite (on_request_exception_json _ _ _ _ Hb).
    apply Z.eqb_neq in H400, H401, H404. rewrite H400, H401, H404. reflexivity.
  - intros m Hb. rewrite (on_request_exception_not_json _ _ _ _ Hb). reflexivity.
Qed.

Lemma C6_witness :
  fst (run (get_flight_price
              (sample_world (Answered (sample_response 401
                                         (Json {| data := None; source_text := "{...}" |}))))
              "DEL" "BOM" "2024-03-01" None) "cached" fresh_expiry)
  = Raise (HTTPException 401
             [Lit "Amadeus authentication failed. Please check your API key and secret."]).
Proof.
  destruct (C6_provider_errors_are_classified
              (sample_world (Answered (sample_response 401
                                         (Json {| data := None; source_text := "{...}" |}))))
              "DEL" "BOM" "2024-03-01" None "cached" fresh_expiry
              (sample_response 401 (Json {| data := None; source_text := "{...}" |}))
              eq_refl eq_refl) as (original & _ & _ & H401 & _).
  exact (H401 _ eq_refl eq_refl).
Defined.

(** C6 as stated fails: an answer with status 401 whose body is not JSON
    reaches the caller with status 500 and the text of the HTTP error, and a
    network failure reaches the caller as an [UnboundLocalError] of the
    handler, which carries neither a status nor the text of the failure. *)
Lemma C6_counterexample :
  fst (run (get_flight_price
              (sample_world (Answered (sample_response 401 (NotJson [Lit "Expecting value"]))))
              "DEL" "BOM" "2024-03-01" None) "cached" fresh_expiry)
  = Raise (HTTPException 500
             [Lit "401"; Lit " Client Error: "; Lit "-"; Lit " for url: "; Lit search_url])
  /\ fst (run (get_flight_price (sample_world (Failed [Lit "Connection refused"]))
                 "DEL" "BOM" "2024-03-01" None) "cached" fresh_expiry)
     = Raise (UnboundLocalError
                [Lit "cannot access local variable 'response' where it is not associated with a value"]).
Proof. split; reflexivity. Qed.

(** ** C7: no offers *)

(** C7: when the provider answers the search with an empty list of offers,
    the endpoint returns the message that no offers were found, as an
    ordinary result and not as an error. *)
Theorem C7_empty_offer_list_is_a_result
    (w : World) (origin destination departure_date : string)
    (duration : option string) (tok : string) (expiry : option Z)
    (response : Response SearchData) (doc : SearchData) :
  search_response w
    (snd (run (get_flight_price w origin destination departure_date duration) tok expiry))
    = Some response ->
  is_error_status (status_code response) = false ->
  body response = Json doc ->
  offers_of doc = [] ->
  fst (run (get_flight_price w origin destination departure_date duration) tok expiry)
  = Ok no_offers_found.
Proof.
  intros Hr Hs Hb Ho.
  destruct (search_response_inv _ _ _ _ _ _ _ _ Hr) as (s1 & p & _ & _ & _ & _ & E).
  rewrite E. cbn [fst].
  rewrite (classify_json p duration response doc s1 Hs Hb), Ho. reflexivity.
Qed.

Lemma C7_witness :
  fst (run (get_flight_price (sample_world (offers_response [])) "DEL" "BOM"
              "2024-03-01" (Some "7 days")) "" None)
  = Ok no_offers_found.
Proof.
  apply (C7_empty_offer_list_is_a_result
           (sample_world (offers_response [])) "DEL" "BOM" "2024-03-01" (Some "7 days")
           "" None
           (sample_response 200 (Json {| data := Some []; source_text := "{...}" |}))
           {| data := Some []; source_text := "{...}" |});
    reflexivity.
Defined.

(** ** C8: no search after a malformed duration *)

(** C8 (as the code has it): when the duration string does not parse, the
    request ends without any call to the search endpoint.  The token step
    comes first, so a call to the token endpoint is logged exactly when the
    cached credential is not valid, and the request ends with the error of
    the duration or, after a call to the token endpoint, with an error of
    the refresh: its status 500, or the [OverflowError] of a life time that
    leaves the range of the dates. *)
Theorem C8_no_search_call_on_invalid_duration
    (w : World) (origin destination departure_date duration : string)
    (tok : string) (expiry : option Z) :
  duration <> "" ->
  re_match_days duration = None ->
  searched (snd (run (get_flight_price w origin destination departure_date (Some duration))
                   tok expiry)) = false
  /\ (refreshed (snd (run (get_flight_price w origin destination departure_date
                            (Some duration)) tok expiry)) = true
      <-> ~ credential_valid (now_in_is_token_valid w) tok expiry)
  /\ (fst (run (get_flight_price w origin destination departure_date (Some duration))
             tok expiry) = Raise InvalidArgument
      \/ (refreshed (snd (run (get_flight_price w origin destination departure_date
                                (Some duration)) tok expiry)) = true
          /\ (fst (run (get_flight_price w origin destination departure_date
                          (Some duration)) tok expiry)
              = Raise (HTTPException 500 [Lit "Failed to authenticate with Amadeus API."])
              \/ exists m,
                   fst (run (get_flight_price w origin destination departure_date
                               (Some duration)) tok expiry)
                   = Raise (OverflowError m)))).
Proof.
  intros Hne Hm. unfold run.
  set (s := mkStore tok expiry []).
  pose proof (build_params_no_match origin destination departure_date duration Hne Hm) as Hb.
  split; [|split].
  - destruct (searched _) eqn:E; [|reflexivity].
    apply final_searched in E as (s1 & params & _ & Hp); [|reflexivity].
    congruence.
  - apply (refreshed_iff_invalid w _ _ _ _ s). reflexivity.
  - assert (Hr : forall e s1, ensure_token w s = (Raise e, s1) ->
                   refreshed (snd (get_flight_price w origin destination departure_date
                                     (Some duration) s)) = true).
    { intros e s1 Et. rewrite final_refreshed, ensure_token_refreshed.
      destruct (is_token_valid_bool w s) as [[|] E]; rewrite E; [|reflexivity].
      rewrite ensure_token_when_valid in Et by now rewrite E. discriminate Et. }
    destruct (ensure_token_cases w s) as [[s1 Et]|[[s1 Et]|(m & s1 & Et)]].
    + left. now rewrite (get_flight_price_params_failure _ _ _ _ _ _ _ _ Et Hb).
    + right. split; [exact (Hr _ _ Et)|]. left.
      now rewrite (get_flight_price_token_failure _ _ _ _ _ _ _ _ Et).
    + right. split; [exact (Hr _ _ Et)|]. right. exists m.
      now rewrite (get_flight_price_token_failure _ _ _ _ _ _ _ _ Et).
Qed.

Lemma C8_witness :
  searched (snd (run (get_flight_price (sample_world (offers_response [])) "DEL" "BOM"
                        "2024-03-01" (Some "3 weeks")) "" None)) = false.
Proof.
  apply (C8_no_search_call_on_invalid_duration
           (sample_world (offers_response [])) "DEL" "BOM" "2024-03-01" "3 weeks" "" None).
  - discriminate.
  - reflexivity.
Defined.

(** C8 as stated fails: with no cached token, the malformed duration
    ["3 weeks"] is refused only after the token endpoint has been called. *)
Lemma C8_counterexample :
  re_match_days "3 weeks" = None
  /\ fst (run (get_flight_price (sample_world (offers_response [])) "DEL" "BOM"
                 "2024-03-01" (Some "3 weeks")) "" None) = Raise InvalidArgument
  /\ refreshed (snd (run (get_flight_price (sample_world (offers_response [])) "DEL" "BOM"
                           "2024-03-01" (Some "3 weeks")) "" None)) = true.
Proof. repeat split; reflexivity. Qed.

(** ** C9: the return date of the result *)

(** C9: in a two-way search whose winning offer has two itineraries, the
    return date of the result is the return date that was sent to the
    provider in the query. *)
Theorem C9_return_date_is_the_one_sent
    (w : World) (origin destination departure_date : string)
    (duration : option string) (tok : string) (expiry : option Z)
    (payload : dict) (s' : Store) (response : Response SearchData)
    (doc : SearchData) (best : Offer) :
  run (get_flight_price w origin destination departure_date duration) tok expiry
    = (Ok payload, s') ->
  truthy duration = true ->
  search_response w s' = Some response ->
  body response = Json doc ->
  py_min price_key (offers_of doc) = Ok best ->
  (2 <= List.length (itineraries best))%nat ->
  exists params rd,
    sent_params s' = Some params
    /\ dict_get params "returnDate" = Some (VStr rd)
    /\ dict_get payload "return_date" = Some (VStr rd)
    /\ dict_has payload "return_journey" = true.
Proof.
  intros Hrun Ht Hr Hb Hm Hlen.
  destruct (run_ok_inv _ _ _ _ _ _ _ _ _ _ _ Hrun Hr Hb) as (params & Hsent & Hp & Hshape).
  destruct (offers_of doc) as [|x r] eqn:Ho; [discriminate Hm|].
  destruct (shape_response_ok _ _ _ _ _ Hshape) as (best' & k & Hm' & _ & _ & _ & Hret & _).
  assert (best' = best) by congruence. subst best'.
  pose proof (build_params_return_date _ _ _ _ _ Hp) as Hrd. rewrite Ht in Hrd.
  destruct Hrd as [rd Hrd].
  destruct Hret as [Hdate Hjourney].
  { rewrite Ht. cbn [andb]. apply Nat.ltb_lt. lia. }
  exists params, rd. rewrite Hdate, Hrd. auto.
Qed.

Lemma C9_witness :
  exists params rd,
    sent_params (snd (sample_run (sample_offers 2) "2024-02-28" (Some "2 days")))
      = Some params
    /\ dict_get params "returnDate" = Some (VStr rd)
    /\ dict_get (payload_of (sample_run (sample_offers 2) "2024-02-28" (Some "2 days")))
         "return_date" = Some (VStr rd)
    /\ dict_has (payload_of (sample_run (sample_offers 2) "2024-02-28" (Some "2 days")))
         "return_journey" = true.
Proof.
  apply (C9_return_date_is_the_one_sent
           (sample_world (offers_response (sample_offers 2)))
           "DEL" "BOM" "2024-02-28" (Some "2 days") "cached" fresh_expiry
           (payload_of (sample_run (sample_offers 2) "2024-02-28" (Some "2 days")))
           (snd (sample_run (sample_offers 2) "2024-02-28" (Some "2 days")))
           (sample_response 200
              (Json {| data := Some (sample_offers 2); source_text := "{...}" |}))
           {| data := Some (sample_offers 2); source_text := "{...}" |}
           (sample_offer "250" 2)
           eq_refl eq_refl eq_refl eq_refl eq_refl).
  cbn. apply le_n.
Defined.

(** ** C10: the credential is written by the refresh only *)

(** C10: the cached token and its expiry change only in a token refresh.  A
    request whose validity check succeeds leaves both as they were, whatever
    its outcome, and so does every request during which no call to the token
    endpoint is logged. *)
Theorem C10_credential_changes_only_on_refresh
    (w : World) (origin destination departure_date : string)
    (duration : option string) (s : Store) :
  (fst (is_token_valid w s) = Ok true ->
   token (snd (get_flight_price w origin destination departure_date duration s)) = token s
   /\ token_expiry (snd (get_flight_price w origin destination departure_date duration s))
      = token_expiry s)
  /\ (refreshed s = false ->
      refreshed (snd (get_flight_price w origin destination departure_date duration s))
        = false ->
      token (snd (get_flight_price w origin destination departure_date duration s)) = token s
      /\ token_expiry (snd (get_flight_price w origin destination departure_date duration s))
         = token_expiry s).
Proof.
  assert (Valid : fst (is_token_valid w s) = Ok true ->
    token (snd (get_flight_price w origin destination departure_date duration s)) = token s
    /\ token_expiry (snd (get_flight_price w origin destination departure_date duration s))
       = token_expiry s).
  { intros Hv.
    destruct (final_credential w origin destination departure_date duration s) as [Ht He].
    rewrite Ht, He, (ensure_token_when_valid w s Hv). split; reflexivity. }
  split; [exact Valid|].
  intros Hs Hf. apply Valid.
  rewrite final_refreshed, ensure_token_refreshed, Hs in Hf. cbn [orb] in Hf.
  destruct (is_token_valid_bool w s) as [b E]. rewrite E in *. cbn [fst] in *.
  destruct b; [reflexivity|discriminate].
Qed.

Lemma C10_witness :
  token (snd (get_flight_price (sample_world (offers_response [])) "DEL" "BOM"
                "2024-03-01" (Some "3 weeks") (mkStore "cached" fresh_expiry [])))
  = "cached"
  /\ token_expiry
       (snd (get_flight_price (sample_world (offers_response [])) "DEL" "BOM"
               "2024-03-01" (Some "3 weeks") (mkStore "cached" fresh_expiry [])))
     = fresh_expiry.
Proof.
  apply (proj1 (C10_credential_changes_only_on_refresh
                  (sample_world (offers_response [])) "DEL" "BOM" "2024-03-01"
                  (Some "3 weeks") (mkStore "cached" fresh_expiry []))).
  reflexivity.
Defined.

(** * Further properties of the code *)

(** ** The token refresh *)

Lemma new_expiry_fits w n :
  life_time_fits w n = true ->
  rbind (DateTime.timedelta_seconds n) (DateTime.add (now_in_get_amadeus_token w))
  = Ok (now_in_get_amadeus_token w + n * microseconds_per_second).
Proof.
  unfold life_time_fits. intros H.
  apply andb_true_iff in H as [H H4]. apply andb_true_iff in H as [H H3].
  apply andb_true_iff in H as [H1 H2].
  apply Z.leb_le in H1, H2, H3. apply Z.ltb_lt in H4.
  unfold DateTime.timedelta_seconds. cbv zeta.
  replace ((n / DateTime.seconds_per_day <? -2147483648)
           || (2147483647 <? n / DateTime.seconds_per_day)) with false
    by (symmetry; apply orb_false_iff; split; apply Z.ltb_ge; lia).
  replace ((n / DateTime.seconds_per_day <? -999999999)
           || (999999999 <? n / DateTime.seconds_per_day)) with false
    by (symmetry; apply orb_false_iff; split; apply Z.ltb_ge; lia).
  cbn [rbind]. unfold DateTime.add. cbv zeta.
  replace ((0 <=? now_in_get_amadeus_token w + n * microseconds_per_second)
           && (now_in_get_amadeus_token w + n * microseconds_per_second
               <? DateTime.end_of_calendar)) with true; [reflexivity|].
  symmetry. apply andb_true_iff. split; [now apply Z.leb_le|now apply Z.ltb_lt].
Qed.

Lemma new_expiry_unfit w n :
  life_time_fits w n = false ->
  exists m,
    rbind (DateTime.timedelta_seconds n) (DateTime.add (now_in_get_amadeus_token w))
    = Raise (OverflowError m).
Proof.
  intros H.
  destruct (DateTime.timedelta_seconds n) as [delta|e] eqn:Ed; cbn [rbind].
  2:{ destruct (timedelta_seconds_raise _ _ Ed) as [m ->]. eauto. }
  destruct (DateTime.add (now_in_get_amadeus_token w) delta) as [r|e] eqn:Ea.
  2:{ destruct (datetime_add_raise _ _ _ Ea) as [m ->]. eauto. }
  exfalso.
  assert (Hd : -999999999 <= n / DateTime.seconds_per_day <= 999999999).
  { revert Ed. unfold DateTime.timedelta_seconds. cbv zeta.
    destruct (_ || _); [discriminate|].
    destruct (_ || _) eqn:E; [discriminate|]. intros _.
    apply orb_false_iff in E as [E1 E2]. apply Z.ltb_ge in E1, E2. lia. }
  apply timedelta_seconds_ok in Ed. subst delta.
  apply datetime_add_ok in Ea as [-> Hr].
  unfold life_time_fits in H.
  apply andb_false_iff in H as [H|H]; [|apply Z.ltb_ge in H; lia].
  apply andb_false_iff in H as [H|H]; [|apply Z.leb_gt in H; lia].
  apply andb_false_iff in H as [H|H]; apply Z.leb_gt in H; lia.
Qed.

(** X1: a refresh posts the client-credentials form once.  When the token
    endpoint does not answer, or answers with an error status or with a body
    that is not JSON, the refresh raises the 500 error of the authentication
    and the stored token and expiry stay as they were.  Otherwise the new
    token is stored first; then, when its life time fits the dates, its
    expiry (the clock plus the life time) is stored as well and the refresh
    succeeds, and when it does not, the refresh raises an [OverflowError]
    that is not caught, and the new token stays with the old expiry. *)
Theorem X1_refresh_stores_or_fails
    (w : World) (s : Store) :
  calls (snd (get_amadeus_token w s))
    = calls s ++ [PostToken token_url token_headers (token_form w)]
  /\ (forall resp doc,
        token_endpoint w (token_form w) = Answered resp ->
        is_error_status (status_code resp) = false ->
        body resp = Json doc ->
        token (snd (get_amadeus_token w s)) = access_token doc
        /\ (life_time_fits w (expires_in doc) = true ->
            fst (get_amadeus_token w s) = Ok tt
            /\ token_expiry (snd (get_amadeus_token w s))
               = Some (now_in_get_amadeus_token w
                       + expires_in doc * microseconds_per_second))
        /\ (life_time_fits w (expires_in doc) = false ->
            (exists m, fst (get_amadeus_token w s) = Raise (OverflowError m))
            /\ token_expiry (snd (get_amadeus_token w s)) = token_expiry s))
  /\ (fst (get_amadeus_token w s) = Ok tt ->
      exists resp doc,
        token_endpoint w (token_form w) = Answered resp
        /\ is_error_status (status_code resp) = false
        /\ body resp = Json doc
        /\ life_time_fits w (expires_in doc) = true)
  /\ ((forall resp doc,
         token_endpoint w (token_form w) = Answered resp ->
         is_error_status (status_code resp) = false ->
         body resp = Json doc -> False) ->
      fst (get_amadeus_token w s) = Raise authentication_failed
      /\ token (snd (get_amadeus_token w s)) = token s
      /\ token_expiry (snd (get_amadeus_token w s)) = token_expiry s).
Proof.
  rewrite get_amadeus_token_cases. cbv zeta.
  destruct (token_endpoint w (token_form w)) as [msg|resp].
  { split; [reflexivity|]. split; [discriminate|]. split; [discriminate|]. auto. }
  destruct (is_error_status (status_code resp)) eqn:Es.
  { split; [reflexivity|]. split; [|split; [discriminate|auto]].
    intros resp' doc' H1 H2 _. injection H1 as <-. congruence. }
  destruct (body resp) as [doc|m] eqn:Eb.
  2:{ split; [reflexivity|]. split; [|split; [discriminate|auto]].
      intros resp' doc' H1 _ H3. injection H1 as <-. congruence. }
  destruct (life_time_fits w (expires_in doc)) eqn:Ef.
  - rewrite (new_expiry_fits w _ Ef).
    split; [reflexivity|]. split; [|split].
    + intros resp' doc' H1 _ H3. injection H1 as <-. rewrite Eb in H3.
      injection H3 as <-. rewrite Ef. split; [reflexivity|]. split; [auto|discriminate].
    + intros _. exists resp, doc. auto.
    + intros H. exfalso. exact (H resp doc eq_refl Es Eb).
  - destruct (new_expiry_unfit w _ Ef) as [m ->].
    split; [reflexivity|]. split; [|split].
    + intros resp' doc' H1 _ H3. injection H1 as <-. rewrite Eb in H3.
      injection H3 as <-. rewrite Ef. split; [reflexivity|]. split; [discriminate|].
      intros _. split; [exists m; reflexivity|reflexivity].
    + discriminate.
    + intros H. exfalso. exact (H resp doc eq_refl Es Eb).
Qed.

Lemma X1_witness :
  token (snd (get_amadeus_token (sample_world (offers_response [])) (mkStore "" None [])))
  = "T"
  /\ fst (get_amadeus_token (sample_world (offers_response [])) (mkStore "" None []))
     = Ok tt
  /\ token_expiry (snd (get_amadeus_token (sample_world (offers_response []))
                          (mkStore "" None [])))
     = Some (10 + 1799 * microseconds_per_second).
Proof.
  destruct (proj1 (proj2 (X1_refresh_stores_or_fails
                            (sample_world (offers_response [])) (mkStore "" None [])))
              {| status_code := 200; reason := "OK"; url := "-";
                 body := Json {| access_token := "T"; expires_in := 1799 |} |}
              {| access_token := "T"; expires_in := 1799 |}
              eq_refl eq_refl eq_refl) as (Ht & Hfit & _).
  split; [exact Ht|]. exact (Hfit eq_refl).
Defined.

(** ** The calls of one request *)

Lemma get_amadeus_token_log w s :
  calls (snd (get_amadeus_token w s))
  = calls s ++ [PostToken token_url token_headers (token_form w)].
Proof.
  rewrite get_amadeus_token_cases. cbv zeta.
  destruct (token_endpoint w (token_form w)) as [msg|resp]; [reflexivity|].
  destruct (is_error_status (status_code resp)); [reflexivity|].
  destruct (body resp); [|reflexivity].
  destruct (rbind _ _); reflexivity.
Qed.

Lemma get_amadeus_token_success w s s1 :
  get_amadeus_token w s = (Ok tt, s1) ->
  exists resp doc,
    token_endpoint w (token_form w) = Answered resp
    /\ is_error_status (status_code resp) = false
    /\ body resp = Json doc
    /\ life_time_fits w (expires_in doc) = true
    /\ s1 = mkStore (access_token doc)
              (Some (now_in_get_amadeus_token w
                     + expires_in doc * microseconds_per_second))
              (calls s ++ [PostToken token_url token_headers (token_form w)]).
Proof.
  rewrite get_amadeus_token_cases. cbv zeta.
  destruct (token_endpoint w (token_form w)) as [msg|resp]; [discriminate|].
  destruct (is_error_status (status_code resp)) eqn:Es; [discriminate|].
  destruct (body resp) as [doc|m] eqn:Eb; [|discriminate].
  destruct (life_time_fits w (expires_in doc)) eqn:Ef.
  - rewrite (new_expiry_fits w _ Ef). intros H. injection H as <-.
    exists resp, doc. auto.
  - destruct (new_expiry_unfit w _ Ef) as [m ->]. discriminate.
Qed.

Lemma ensure_token_exact w s :
  (fst (is_token_valid w s) = Ok true /\ ensure_token w s = (Ok tt, s))
  \/ (fst (is_token_valid w s) = Ok false
      /\ ensure_token w s = get_amadeus_token w s
      /\ calls (snd (ensure_token w s))
         = calls s ++ [PostToken token_url token_headers (token_form w)]).
Proof.
  destruct (is_token_valid_bool w s) as [[|] E].
  - left. split; [now rewrite E|]. apply ensure_token_when_valid. now rewrite E.
  - right. split; [now rewrite E|].
    rewrite ensure_token_when_invalid by now rewrite E.
    split; [reflexivity|]. apply get_amadeus_token_log.
Qed.

(** X2: a request makes at most one call to the token endpoint, followed by
    at most one call to the search endpoint, and nothing else: no call is
    repeated.  The search call goes to the flight-offers address with the
    header "Bearer" and the token that is stored when the request ends. *)
Theorem X2_at_most_one_refresh_then_one_search
    (w : World) (origin destination departure_date : string)
    (duration : option string) (tok : string) (expiry : option Z) :
  exists post get,
    calls (snd (run (get_flight_price w origin destination departure_date duration)
                  tok expiry)) = post ++ get
    /\ (post = [] \/ post = [PostToken token_url token_headers (token_form w)])
    /\ (get = []
        \/ exists params,
             get = [GetOffers search_url
                      (auth_headers
                         (token (snd (run (get_flight_price w origin destination
                                             departure_date duration) tok expiry))))
                      params]).
Proof.
  unfold run. set (s := mkStore tok expiry []).
  assert (Hpost : exists post,
             calls (snd (ensure_token w s)) = post
             /\ (post = [] \/ post = [PostToken token_url token_headers (token_form w)])).
  { destruct (ensure_token_exact w s) as [[_ E]|(_ & _ & E)]; rewrite E; eauto. }
  destruct Hpost as (post & Hc & Hp).
  destruct (get_flight_price_stage w origin destination departure_date duration s)
    as [e s1 Et|e s1 Et Eb|s1 p r Et Eb Ec]; rewrite Et in Hc; cbn [snd] in *.
  - exists post, []. rewrite app_nil_r. auto.
  - exists post, []. rewrite app_nil_r. auto.
  - exists post, [GetOffers search_url (auth_headers (token s1)) p].
    rewrite Hc. split; [reflexivity|]. split; [exact Hp|]. right. eauto.
Qed.

(** X3: when a request has called the token endpoint and then the search
    endpoint, the refresh has succeeded and the search carries the token
    that the token endpoint has just handed out, not the cached one. *)
Theorem X3_search_uses_the_new_token
    (w : World) (origin destination departure_date : string)
    (duration : option string) (tok : string) (expiry : option Z)
    (u : string) (headers params : dict) :
  refreshed (snd (run (get_flight_price w origin destination departure_date duration)
                    tok expiry)) = true ->
  In (GetOffers u headers params)
     (calls (snd (run (get_flight_price w origin destination departure_date duration)
                    tok expiry))) ->
  exists resp doc,
    token_endpoint w (token_form w) = Answered resp
    /\ is_error_status (status_code resp) = false
    /\ body resp = Json doc
    /\ headers = auth_headers (access_token doc)
    /\ token (snd (run (get_flight_price w origin destination departure_date duration)
                     tok expiry)) = access_token doc.
Proof.
  unfold run. set (s := mkStore tok expiry []).
  intros Hr Hin.
  rewrite final_refreshed in Hr.
  destruct (get_flight_price_stage w origin destination departure_date duration s)
    as [e s1 Et|e s1 Et Eb|s1 p r Et Eb Ec]; cbn [snd] in *.
  - exfalso.
    destruct (ensure_token_exact w s) as [[_ E]|(_ & _ & E)]; rewrite Et in E.
    + discriminate E.
    + cbn [snd] in E. rewrite E in Hin. cbn in Hin. destruct Hin as [H|[]].
      discriminate H.
  - exfalso.
    destruct (ensure_token_exact w s) as [[_ E]|(_ & _ & E)]; rewrite Et in E.
    + injection E as ->. exact Hin.
    + cbn [snd] in E. rewrite E in Hin. cbn in Hin. destruct Hin as [H|[]].
      discriminate H.
  - cbn [calls] in Hin.
    destruct (ensure_token_exact w s) as [[_ E]|(_ & E & Ecalls)].
    { rewrite Et in E. injection E as ->. rewrite Et in Hr. cbn in Hr. discriminate Hr. }
    rewrite Et in E, Ecalls. cbn [snd] in Ecalls.
    rewrite Ecalls in Hin. cbn in Hin.
    destruct Hin as [H|[H|[]]]; [discriminate H|]. injection H as <- <- <-.
    symmetry in E.
    destruct (get_amadeus_token_success _ _ _ E) as (resp & doc & H1 & H2 & H3 & _ & ->).
    exists resp, doc. cbn [token]. auto.
Qed.

Lemma X3_witness :
  exists resp doc,
    token_endpoint (sample_world (offers_response [])) (token_form (sample_world (offers_response [])))
      = Answered resp
    /\ is_error_status (status_code resp) = false
    /\ body resp = Json doc
    /\ auth_headers "T" = auth_headers (access_token doc)
    /\ token (snd (run (get_flight_price (sample_world (offers_response [])) "DEL" "BOM"
                          "2024-03-01" None) "stale" None)) = access_token doc.
Proof.
  apply (X3_search_uses_the_new_token
           (sample_world (offers_response [])) "DEL" "BOM" "2024-03-01" None "stale" None
           search_url (auth_headers "T") (base_params "DEL" "BOM" "2024-03-01")).
  - reflexivity.
  - right. left. reflexivity.
Defined.

(** ** From one request to the next *)

Lemma credential_after_refresh w o d dd dur tok expiry resp doc :
  ~ credential_valid (now_in_is_token_valid w) tok expiry ->
  token_endpoint w (token_form w) = Answered resp ->
  is_error_status (status_code resp) = false ->
  body resp = Json doc ->
  life_time_fits w (expires_in doc) = true ->
  token (snd (run (get_flight_price w o d dd dur) tok expiry)) = access_token doc
  /\ token_expiry (snd (run (get_flight_price w o d dd dur) tok expiry))
     = Some (now_in_get_amadeus_token w + expires_in doc * microseconds_per_second).
Proof.
  intros Hinv Hr Hs Hb Hf. unfold run. set (s := mkStore tok expiry []).
  destruct (final_credential w o d dd dur s) as [-> ->].
  destruct (ensure_token_exact w s) as [[Hv _]|(_ & E & _)].
  { exfalso. apply Hinv. apply (is_token_valid_true w s). exact Hv. }
  rewrite E, get_amadeus_token_cases. cbv zeta.
  rewrite Hr, Hs, Hb, (new_expiry_fits w _ Hf). split; reflexivity.
Qed.

(** X4: after a request that has refreshed the token with success (the
    token endpoint has answered with JSON and no error status, and the life
    time of the token fits the dates), the next request calls the token
    endpoint again exactly when the token handed out is empty or when, at
    the clock of the next request, no more than five minutes are left of
    its life time.  A token whose life time is five minutes or less is
    therefore fetched again by every request. *)
Theorem X4_next_request_reuses_a_fresh_token
    (w1 w2 : World)
    (origin1 destination1 departure_date1 : string) (duration1 : option string)
    (origin2 destination2 departure_date2 : string) (duration2 : option string)
    (tok : string) (expiry : option Z)
    (resp : Response TokenData) (doc : TokenData) :
  ~ credential_valid (now_in_is_token_valid w1) tok expiry ->
  token_endpoint w1 (token_form w1) = Answered resp ->
  is_error_status (status_code resp) = false ->
  body resp = Json doc ->
  life_time_fits w1 (expires_in doc) = true ->
  (refreshed
     (snd (run (get_flight_price w2 origin2 destination2 departure_date2 duration2)
             (token (snd (run (get_flight_price w1 origin1 destination1
                                 departure_date1 duration1) tok expiry)))
             (token_expiry (snd (run (get_flight_price w1 origin1 destination1
                                        departure_date1 duration1) tok expiry)))))
   = true
   <-> ~ (access_token doc <> ""
          /\ now_in_get_amadeus_token w1 + expires_in doc * microseconds_per_second
             - now_in_is_token_valid w2 > five_minutes))
  /\ (expires_in doc * microseconds_per_second <= five_minutes ->
      now_in_get_amadeus_token w1 <= now_in_is_token_valid w2 ->
      refreshed
        (snd (run (get_flight_price w2 origin2 destination2 departure_date2 duration2)
                (token (snd (run (get_flight_price w1 origin1 destination1
                                    departure_date1 duration1) tok expiry)))
                (token_expiry (snd (run (get_flight_price w1 origin1 destination1
                                           departure_date1 duration1) tok expiry)))))
      = true).
Proof.
  intros Hinv Hr Hs Hb Hf.
  destruct (credential_after_refresh w1 origin1 destination1 departure_date1 duration1
              tok expiry resp doc Hinv Hr Hs Hb Hf) as [-> ->].
  assert (Iff : refreshed
     (snd (run (get_flight_price w2 origin2 destination2 departure_date2 duration2)
             (access_token doc)
             (Some (now_in_get_amadeus_token w1
                    + expires_in doc * microseconds_per_second)))) = true
   <-> ~ (access_token doc <> ""
          /\ now_in_get_amadeus_token w1 + expires_in doc * microseconds_per_second
             - now_in_is_token_valid w2 > five_minutes)).
  { unfold run.
    rewrite (refreshed_iff_invalid w2 _ _ _ _ (mkStore _ _ [])) by reflexivity.
    cbn [token token_expiry]. unfold credential_valid.
    split; intros H C; apply H; destruct C as [C1 C2]; (split; [exact C1|]).
    - eexists. split; [reflexivity|exact C2].
    - destruct C2 as (e & Ee & He). injection Ee as <-. exact He. }
  split; [exact Iff|].
  intros Hlife Hclock. apply Iff. intros [_ C]. lia.
Qed.

Lemma X4_witness :
  refreshed
    (snd (run (get_flight_price (sample_world (offers_response [])) "DEL" "BOM"
                 "2024-03-02" None)
            (token (snd (run (get_flight_price (sample_world (offers_response []))
                                "DEL" "BOM" "2024-03-01" None) "" None)))
            (token_expiry (snd (run (get_flight_price (sample_world (offers_response []))
                                       "DEL" "BOM" "2024-03-01" None) "" None)))))
  = true
  <-> ~ ("T" <> ""
         /\ 10 + 1799 * microseconds_per_second - 0 > five_minutes).
Proof.
  apply (proj1 (X4_next_request_reuses_a_fresh_token
                  (sample_world (offers_response [])) (sample_world (offers_response []))
                  "DEL" "BOM" "2024-03-01" None "DEL" "BOM" "2024-03-02" None "" None
                  {| status_code := 200; reason := "OK"; url := "-";
                     body := Json {| access_token := "T"; expires_in := 1799 |} |}
                  {| access_token := "T"; expires_in := 1799 |}
                  (fun H => proj1 H eq_refl) eq_refl eq_refl eq_refl eq_refl)).
Defined.


(** ** The departure date and the query *)

Lemma build_params_bad_date o d dd duration g e :
  re_match_days duration = Some g ->
  (String.length g <= int_max_str_digits)%nat ->
  Calendar.strptime_ymd dd = Raise e ->
  build_params o d dd (Some duration) = Raise (HTTPException 400 (exn_text e)).
Proof.
  intros Hm Hlen Hd. unfold build_params, return_date.
  destruct duration as [|c r]; [discriminate Hm|].
  rewrite Hm, (int_of_digits_short g Hlen), Hd. cbn [rbind].
  destruct (strptime_ymd_raise _ _ Hd) as (m & -> & _). reflexivity.
Qed.

Lemma build_params_long_numeral o d dd duration g :
  re_match_days duration = Some g ->
  (int_max_str_digits < String.length g)%nat ->
  build_params o d dd (Some duration)
  = Raise (HTTPException 400 (int_limit_exceeded g)).
Proof.
  intros Hm Hlen. unfold build_params, return_date.
  destruct duration as [|c r]; [discriminate Hm|].
  rewrite Hm, (int_of_digits_long g Hlen). reflexivity.
Qed.

Lemma build_params_no_duration o d dd duration :
  truthy duration = false -> build_params o d dd duration = Ok (base_params o d dd).
Proof.
  unfold build_params. destruct duration as [[|c r]|]; try reflexivity. discriminate.
Qed.

(** X5: what is checked of a request with a duration, and in which order.
    With a duration that begins with "<N> days", the number is read first:
    when it has more than 4300 digits the request ends with status 400 and
    the text of [int], whatever the departure date.  Then the departure date
    is read: a date that [strptime] refuses ends the request with status 400
    and the text of [strptime].  Both happen before any search call.
    Without a duration the departure date is not looked at: whatever the
    string, it goes to the provider as it is. *)
Theorem X5_departure_date_is_checked_with_a_duration_only
    (w : World) (origin destination departure_date : string) (s s1 : Store) :
  ensure_token w s = (Ok tt, s1) ->
  (forall duration digits,
     begins_with_days duration digits ->
     (int_max_str_digits < String.length digits)%nat ->
     get_flight_price w origin destination departure_date (Some duration) s
     = (Raise (HTTPException 400 (int_limit_exceeded digits)), s1))
  /\ (forall duration digits e,
        begins_with_days duration digits ->
        (String.length digits <= int_max_str_digits)%nat ->
        Calendar.strptime_ymd departure_date = Raise e ->
        get_flight_price w origin destination departure_date (Some duration) s
        = (Raise (HTTPException 400 (exn_text e)), s1))
  /\ (forall duration,
        truthy duration = false ->
        sent_params (snd (get_flight_price w origin destination departure_date
                            duration s))
        = Some (base_params origin destination departure_date)
        /\ dict_get (base_params origin destination departure_date) "departureDate"
           = Some (VStr departure_date)).
Proof.
  intros Et. split; [|split].
  - intros duration digits Hdays Hlen.
    apply PatternFacts.re_match_days_iff in Hdays.
    apply (get_flight_price_params_failure _ _ _ _ _ _ _ _ Et).
    eapply build_params_long_numeral; eauto.
  - intros duration digits e Hdays Hlen Hd.
    apply PatternFacts.re_match_days_iff in Hdays.
    apply (get_flight_price_params_failure _ _ _ _ _ _ _ _ Et).
    eapply build_params_bad_date; eauto.
  - intros duration Ht. split; [|reflexivity].
    rewrite (get_flight_price_search _ _ _ _ _ _ _ _ Et
               (build_params_no_duration _ _ _ _ Ht)), search_step_store.
    unfold sent_params. cbn [calls]. now rewrite last_call_snoc.
Qed.

Lemma X5_witness :
  get_flight_price (sample_world (offers_response [])) "DEL" "BOM" "01/03/2024"
    (Some "7 days") (mkStore "cached" fresh_expiry [])
  = (Raise (HTTPException 400
              [Lit "time data "; ReprStr "01/03/2024";
               Lit " does not match format "; ReprStr "%Y-%m-%d"]),
     mkStore "cached" fresh_expiry [])
  /\ sent_params (snd (get_flight_price (sample_world (offers_response [])) "DEL" "BOM"
                         "01/03/2024" None (mkStore "cached" fresh_expiry [])))
     = Some (base_params "DEL" "BOM" "01/03/2024").
Proof.
  destruct (X5_departure_date_is_checked_with_a_duration_only
              (sample_world (offers_response [])) "DEL" "BOM" "01/03/2024"
              (mkStore "cached" fresh_expiry []) (mkStore "cached" fresh_expiry [])
              eq_refl) as (_ & Hdate & Hnone).
  split.
  - apply (Hdate "7 days" "7"%string
             (ValueError [Lit "time data "; ReprStr "01/03/2024";
                          Lit " does not match format "; ReprStr "%Y-%m-%d"])).
    + exists " "%string, "days"%string, ""%string.
      split; [reflexivity|]. split; [discriminate|].
      split; [reflexivity|]. split; reflexivity.
    + apply Nat.leb_le. reflexivity.
    + reflexivity.
  - apply (Hnone None). reflexivity.
Defined.

Lemma sent_params_inv w o d dd dur tok expiry params :
  sent_params (snd (run (get_flight_price w o d dd dur) tok expiry)) = Some params ->
  build_params o d dd dur = Ok params.
Proof.
  unfold run. set (s := mkStore tok expiry []).
  assert (NoSearch : forall r s1, ensure_token w s = (r, s1) -> sent_params s1 = None).
  { intros r s1 Et. unfold sent_params.
    destruct (ensure_token_log w s) as [E|(h & f & E)]; rewrite Et in E; cbn [snd] in E;
      rewrite E; reflexivity. }
  destruct (get_flight_price_stage w o d dd dur s) as [e s1 Et|e s1 Et Eb|s1 p r Et Eb Ec];
    cbn [snd]; intros H.
  - rewrite (NoSearch _ _ Et) in H. discriminate.
  - rewrite (NoSearch _ _ Et) in H. discriminate.
  - unfold sent_params in H. cbn [calls] in H. rewrite last_call_snoc in H.
    injection H as <-. exact Eb.
Qed.

Lemma timedelta_days_ok n m : Calendar.timedelta_days n = Ok m -> m = n.
Proof.
  unfold Calendar.timedelta_days.
  destruct (_ || _); [discriminate|]. destruct (_ || _); [discriminate|].
  intros H. now injection H.
Qed.

Lemma build_params_ok_inv o d dd c r params :
  build_params o d dd (Some (String c r)) = Ok params ->
  exists digits dep ret,
    re_match_days (String c r) = Some digits
    /\ (String.length digits <= int_max_str_digits)%nat
    /\ Calendar.strptime_ymd dd = Ok dep
    /\ Calendar.valid ret = true
    /\ Calendar.ymd2ord ret = Calendar.ymd2ord dep + Str.digits_value digits
    /\ params = base_params o d dd ++ [("returnDate", VStr (Calendar.strftime_ymd ret))].
Proof.
  unfold build_params, return_date.
  destruct (re_match_days (String c r)) as [g|] eqn:Em; [|discriminate].
  destruct (int_of_digits g) as [k|e] eqn:Ek; cbn [rbind].
  2:{ destruct (_ || _); discriminate. }
  apply int_of_digits_ok in Ek as [-> Hlen].
  destruct (Calendar.strptime_ymd dd) as [dep|e] eqn:Ed; cbn [rbind].
  2:{ destruct (_ || _); discriminate. }
  destruct (Calendar.timedelta_days (Str.digits_value g)) as [n|e] eqn:En; cbn [rbind].
  2:{ destruct (_ || _); discriminate. }
  apply timedelta_days_ok in En. subst n.
  unfold Calendar.add.
  destruct ((0 <? Calendar.ymd2ord dep + Str.digits_value g)
            && (Calendar.ymd2ord dep + Str.digits_value g <=? Calendar.MAXORDINAL)) eqn:Er;
    cbn [rbind].
  2:{ discriminate. }
  apply andb_true_iff in Er as [R1 R2]. apply Z.ltb_lt in R1. apply Z.leb_le in R2.
  destruct (CalendarFacts.ord2ymd_correct (Calendar.ymd2ord dep + Str.digits_value g)
              ltac:(lia)) as [Hv Ho].
  intros H. injection H as <-.
  exists g, dep, (Calendar.ord2ymd (Calendar.ymd2ord dep + Str.digits_value g)).
  repeat split; auto.
Qed.

(** X6: the query of every search call holds the origin, the destination
    and the departure date as the caller gave them, one adult, the currency
    INR and at most 10 offers.  It holds nothing else when no duration is
    given; with a duration it holds in addition a return date, and then the
    duration begins with "<N> days", N on at most 4300 digits, the departure
    date is a date of the calendar and the return date is what [strftime]
    writes for the date N days later: its ISO form when that date lies in
    the year 1000 or later, and a shorter text, the year not padded, before. *)
Theorem X6_what_a_query_holds
    (w : World) (origin destination departure_date : string)
    (duration : option string) (tok : string) (expiry : option Z) (params : dict) :
  sent_params (snd (run (get_flight_price w origin destination departure_date duration)
                      tok expiry)) = Some params ->
  dict_get params "originLocationCode" = Some (VStr origin)
  /\ dict_get params "destinationLocationCode" = Some (VStr destination)
  /\ dict_get params "departureDate" = Some (VStr departure_date)
  /\ dict_get params "adults" = Some (VInt 1)
  /\ dict_get params "currencyCode" = Some (VStr "INR")
  /\ dict_get params "max" = Some (VInt 10)
  /\ (truthy duration = false ->
      dict_keys params = ["originLocationCode"; "destinationLocationCode";
                          "departureDate"; "adults"; "currencyCode"; "max"])
  /\ (truthy duration = true ->
      exists text digits dep ret,
        duration = Some text
        /\ begins_with_days text digits
        /\ (String.length digits <= int_max_str_digits)%nat
        /\ Calendar.strptime_ymd departure_date = Ok dep
        /\ Calendar.valid ret = true
        /\ Calendar.ymd2ord ret = Calendar.ymd2ord dep + Str.digits_value digits
        /\ dict_get params "returnDate" = Some (VStr (Calendar.strftime_ymd ret))
        /\ (1000 <= Calendar.year ret ->
            Calendar.strftime_ymd ret = Calendar.isoformat ret)
        /\ (Calendar.year ret < 1000 ->
            (String.length (Calendar.strftime_ymd ret) < 10)%nat)
        /\ dict_keys params = ["originLocationCode"; "destinationLocationCode";
                               "departureDate"; "adults"; "currencyCode"; "max";
                               "returnDate"]).
Proof.
  intros Hs. apply sent_params_inv in Hs.
  destruct duration as [[|c r]|].
  - cbn in Hs. injection Hs as <-.
    repeat split; try reflexivity; discriminate.
  - destruct (build_params_ok_inv _ _ _ _ _ _ Hs)
      as (g & dep & ret & Hm & Hlen & Hd & Hv & Ho & ->).
    split; [reflexivity|]. split; [reflexivity|]. split; [reflexivity|].
    split; [reflexivity|]. split; [reflexivity|]. split; [reflexivity|].
    split; [discriminate|]. intros _.
    exists (String c r), g, dep, ret.
    split; [reflexivity|]. split; [now apply PatternFacts.re_match_days_iff|].
    split; [exact Hlen|].
    split; [exact Hd|]. split; [exact Hv|]. split; [exact Ho|].
    split; [reflexivity|].
    split; [intros Hy; now apply FormatFacts.strftime_isoformat|].
    split; [intros Hy; now apply FormatFacts.strftime_short|].
    reflexivity.
  - cbn in Hs. injection Hs as <-.
    repeat split; try reflexivity; discriminate.
Qed.

Lemma X6_witness :
  exists text digits dep ret,
    Some "7 days"%string = Some text
    /\ begins_with_days text digits
    /\ (String.length digits <= int_max_str_digits)%nat
    /\ Calendar.strptime_ymd "0999-12-20" = Ok dep
    /\ Calendar.valid ret = true
    /\ Calendar.ymd2ord ret = Calendar.ymd2ord dep + Str.digits_value digits
    /\ dict_get (dict_set (base_params "DEL" "BOM" "0999-12-20") "returnDate"
                   (VStr "999-12-27"))
         "returnDate" = Some (VStr (Calendar.strftime_ymd ret))
    /\ (1000 <= Calendar.year ret ->
        Calendar.strftime_ymd ret = Calendar.isoformat ret)
    /\ (Calendar.year ret < 1000 ->
        (String.length (Calendar.strftime_ymd ret) < 10)%nat)
    /\ dict_keys (dict_set (base_params "DEL" "BOM" "0999-12-20") "returnDate"
                    (VStr "999-12-27"))
       = ["originLocationCode"; "destinationLocationCode";
          "departureDate"; "adults"; "currencyCode"; "max"; "returnDate"].
Proof.
  destruct (X6_what_a_query_holds
              (sample_world (offers_response [])) "DEL" "BOM" "0999-12-20"
              (Some "7 days") "cached" fresh_expiry
              (dict_set (base_params "DEL" "BOM" "0999-12-20") "returnDate"
                 (VStr "999-12-27"))
              eq_refl)
    as (_ & _ & _ & _ & _ & _ & _ & Hd).
  exact (Hd eq_refl).
Defined.


(** ** The outcomes of a request *)

Lemma classify_failed params dur msg s :
  classify params dur (Failed msg) s = (Raise (UnboundLocalError response_unbound), s).
Proof. reflexivity. Qed.

Lemma classify_error_status params dur r s :
  is_error_status (status_code r) = true ->
  exists c m, fst (classify params dur (Answered r) s) = Raise (HTTPException c m)
              /\ (c = status_code r \/ c = 500).
Proof.
  intros Es. destruct (raise_for_status_error r Es) as [m Hm].
  rewrite (classify_error _ _ _ _ _ Hm).
  destruct (body r) as [doc|dm] eqn:Eb.
  - rewrite (on_request_exception_json _ _ _ _ Eb). cbn [fst]. eauto.
  - rewrite (on_request_exception_not_json _ _ _ _ Eb). cbn [fst]. eauto.
Qed.



(** X7: the handler returns a result only when the search call was made and
    the provider answered it with a status that is no error and a JSON body.
    The result is then the message that no offers were found exactly when
    the body holds no offer. *)
Theorem X7_a_result_needs_an_answer
    (w : World) (origin destination departure_date : string)
    (duration : option string) (tok : string) (expiry : option Z) (payload : dict) :
  fst (run (get_flight_price w origin destination departure_date duration) tok expiry)
    = Ok payload ->
  exists response doc,
    search_response w
      (snd (run (get_flight_price w origin destination departure_date duration) tok expiry))
      = Some response
    /\ is_error_status (status_code response) = false
    /\ body response = Json doc
    /\ (offers_of doc = [] -> payload = no_offers_found)
    /\ (offers_of doc <> [] -> dict_get payload "message" = None).
Proof.
  unfold run. set (s := mkStore tok expiry []).
  destruct (get_flight_price_stage w origin destination departure_date duration s)
    as [e s1 Et|e s1 Et Eb|s1 p r Et Eb Ec]; cbn [fst snd]; try discriminate.
  intros ->.
  unfold search_response. cbn [calls]. rewrite last_call_snoc.
  destruct (search_endpoint w (auth_headers (token s1)) p) as [msg|resp].
  { rewrite classify_failed in Ec. discriminate Ec. }
  pose proof (f_equal fst Ec) as Hc. cbn [fst] in Hc.
  destruct (is_error_status (status_code resp)) eqn:Es.
  { destruct (classify_error_status p duration resp s1 Es) as (c & m & H & _).
    rewrite H in Hc. discriminate Hc. }
  destruct (body resp) as [doc|dm] eqn:Ebody.
  2:{ rewrite (classify_not_json _ _ _ _ _ Es Ebody) in Hc. discriminate Hc. }
  rewrite (classify_json _ _ _ _ _ Es Ebody) in Hc. cbn [fst] in Hc.
  exists resp, doc. split; [reflexivity|]. split; [exact Es|]. split; [exact Ebody|].
  split.
  - intros Ho. rewrite Ho in Hc. cbn in Hc. congruence.
  - intros Hne. destruct (offers_of doc) as [|x r]; [congruence|].
    destruct (shape_response_ok _ _ _ _ _ Hc) as (best & k & _ & _ & _ & _ & _ & _).
    revert Hc. unfold shape_response.
    destruct (py_min price_key (x :: r)) as [b|]; [|discriminate]. cbn [rbind].
    destruct (list_index (itineraries b) 0) as [i0|]; [|discriminate]. cbn [rbind].
    destruct (price_key b) as [kb|]; [|discriminate]. cbn [rbind].
    destruct (truthy duration && _).
    + destruct (list_index (itineraries b) 1) as [i1|]; [|discriminate]. cbn [rbind].
      intros H. injection H as <-. reflexivity.
    + intros H. injection H as <-. reflexivity.
Qed.

Lemma X7_witness :
  exists response doc,
    search_response (sample_world (offers_response (sample_offers 2)))
      (snd (sample_run (sample_offers 2) "2024-03-01" (Some "7 days"))) = Some response
    /\ is_error_status (status_code response) = false
    /\ body response = Json doc
    /\ offers_of doc = sample_offers 2.
Proof.
  destruct (X7_a_result_needs_an_answer
              (sample_world (offers_response (sample_offers 2))) "DEL" "BOM" "2024-03-01"
              (Some "7 days") "cached" fresh_expiry
              (payload_of (sample_run (sample_offers 2) "2024-03-01" (Some "7 days")))
              eq_refl) as (response & doc & Hr & Hs & Hb & _).
  exists response, doc. split; [exact Hr|]. split; [exact Hs|]. split; [exact Hb|].
  cbv in Hr. injection Hr as <-. cbv in Hb. injection Hb as <-. reflexivity.
Defined.




(** ** Prices that [float] does not read as numbers *)

Lemma price_key_parse x :
  price_key x
  = match PyFloat.parse (grandTotal (price x)) with
    | Some k => Ok k
    | None => Raise (ValueError [Lit "could not convert string to float: ";
                                 ReprStr (grandTotal (price x))])
    end.
Proof. reflexivity. Qed.

Lemma min_loop_bad_price (l : list Offer) :
  forall best bk x,
    In x l -> PyFloat.parse (grandTotal (price x)) = None ->
    exists y, In y l
      /\ PyFloat.parse (grandTotal (price y)) = None
      /\ min_loop price_key best bk l
         = Raise (ValueError [Lit "could not convert string to float: ";
                              ReprStr (grandTotal (price y))]).
Proof.
  induction l as [|a r IH]; intros best bk x Hin Hx; [destruct Hin|].
  cbn [min_loop]. rewrite (price_key_parse a).
  destruct (PyFloat.parse (grandTotal (price a))) as [k|] eqn:Ea; cbn [rbind].
  - destruct Hin as [->|Hin]; [congruence|].
    destruct (PyFloat.lt k bk);
      [destruct (IH a k x Hin Hx) as (y & Hy & Hp & E)
      |destruct (IH best bk x Hin Hx) as (y & Hy & Hp & E)];
      exists y; (split; [now right|split; [exact Hp|exact E]]).
  - exists a. split; [now left|]. split; [exact Ea|reflexivity].
Qed.

Lemma py_min_bad_price (l : list Offer) x :
  In x l -> PyFloat.parse (grandTotal (price x)) = None ->
  exists y, In y l
    /\ PyFloat.parse (grandTotal (price y)) = None
    /\ py_min price_key l
       = Raise (ValueError [Lit "could not convert string to float: ";
                            ReprStr (grandTotal (price y))]).
Proof.
  intros Hin Hx. destruct l as [|a r]; [destruct Hin|]. cbn [py_min].
  rewrite (price_key_parse a).
  destruct (PyFloat.parse (grandTotal (price a))) as [k|] eqn:Ea; cbn [rbind].
  - destruct Hin as [->|Hin]; [congruence|].
    destruct (min_loop_bad_price r a k x Hin Hx) as (y & Hy & Hp & E).
    exists y. split; [now right|]. split; [exact Hp|exact E].
  - exists a. split; [now left|]. split; [exact Ea|reflexivity].
Qed.

(** X9: when the provider answers the search with a status that is no error
    and one of the offers, the cheapest or not, has a price that [float]
    does not read, the request raises the [ValueError] of [float] for such
    an offer.  The error clause of the search does not catch it, so it is
    no [HTTPException] and carries no status of the handler. *)
Theorem X9_an_unreadable_price_fails_the_request
    (w : World) (origin destination departure_date : string)
    (duration : option string) (tok : string) (expiry : option Z)
    (response : Response SearchData) (doc : SearchData) (x : Offer) :
  search_response w
    (snd (run (get_flight_price w origin destination departure_date duration) tok expiry))
    = Some response ->
  is_error_status (status_code response) = false ->
  body response = Json doc ->
  In x (offers_of doc) ->
  PyFloat.parse (grandTotal (price x)) = None ->
  exists y,
    In y (offers_of doc)
    /\ PyFloat.parse (grandTotal (price y)) = None
    /\ fst (run (get_flight_price w origin destination departure_date duration) tok expiry)
       = Raise (ValueError [Lit "could not convert string to float: ";
                            ReprStr (grandTotal (price y))]).
Proof.
  intros Hr Hs Hb Hin Hx.
  destruct (search_response_inv _ _ _ _ _ _ _ _ Hr) as (s1 & p & _ & _ & _ & _ & E).
  rewrite E. cbn [fst]. rewrite (classify_json p duration response doc s1 Hs Hb).
  cbn [fst].
  destruct (py_min_bad_price _ _ Hin Hx) as (y & Hy & Hp & Em).
  exists y. split; [exact Hy|]. split; [exact Hp|].
  unfold shape_response. destruct (offers_of doc) as [|a r]; [destruct Hin|].
  rewrite Em. reflexivity.
Qed.

Lemma X9_witness :
  exists y,
    In y [sample_offer "250" 1; sample_offer "12,5" 1]
    /\ PyFloat.parse (grandTotal (price y)) = None
    /\ fst (sample_run [sample_offer "250" 1; sample_offer "12,5" 1] "2024-03-01" None)
       = Raise (ValueError [Lit "could not convert string to float: ";
                            ReprStr (grandTotal (price y))]).
Proof.
  apply (X9_an_unreadable_price_fails_the_request
           (sample_world (offers_response [sample_offer "250" 1; sample_offer "12,5" 1]))
           "DEL" "BOM" "2024-03-01" None "cached" fresh_expiry
           (sample_response 200
              (Json {| data := Some [sample_offer "250" 1; sample_offer "12,5" 1];
                       source_text := "{...}" |}))
           {| data := Some [sample_offer "250" 1; sample_offer "12,5" 1];
              source_text := "{...}" |}
           (sample_offer "12,5" 1)).
  - reflexivity.
  - reflexivity.
  - reflexivity.
  - right. left. reflexivity.
  - vm_compute. reflexivity.
Defined.

(** ** Prices that are not a number *)

Lemma lt_nan_r k : PyFloat.lt k S754_nan = false.
Proof. destruct k as [| | |[] ? ?]; reflexivity. Qed.

Lemma is_nan_eq k : PyFloat.is_nan k = true -> k = S754_nan.
Proof. destruct k; try discriminate. reflexivity. Qed.

Lemma min_loop_nan_best (l : list Offer) (best : Offer) :
  (forall y, In y l -> exists ky, price_key y = Ok ky) ->
  min_loop price_key best S754_nan l = Ok best.
Proof.
  induction l as [|a r IH]; intros Hall; [reflexivity|].
  cbn [min_loop]. destruct (Hall a (or_introl eq_refl)) as [ka Ea]. rewrite Ea.
  cbn [rbind]. rewrite lt_nan_r. apply IH. intros y Hy. apply Hall. now right.
Qed.

Lemma min_loop_number (l : list Offer) :
  forall best bk b,
    price_key best = Ok bk -> PyFloat.is_nan bk = false ->
    min_loop price_key best bk l = Ok b ->
    exists kb, price_key b = Ok kb /\ PyFloat.is_nan kb = false.
Proof.
  induction l as [|a r IH]; intros best bk b Hk Hn; cbn [min_loop].
  - intros H. injection H as <-. eauto.
  - destruct (price_key a) as [ka|e] eqn:Ea; cbn [rbind]; [|discriminate].
    destruct (PyFloat.lt ka bk) eqn:El.
    + apply IH; [exact Ea|].
      destruct ka; try reflexivity. discriminate El.
    + apply IH; assumption.
Qed.

(** X10: prices that read as NaN.  [min] compares with [<], which is false
    whenever one side is a NaN.  So when the price of the first offer reads
    as a NaN and the other prices can be read, the first offer is selected
    whatever the other prices are, and the total price of the result is a
    NaN; and when the price of the first offer reads as a number, the price
    of the selected offer is a number as well, a NaN further down the list
    being never selected. *)
Theorem X10_a_price_that_is_not_a_number :
  (forall (x : Offer) (r : list Offer) (k : spec_float),
     price_key x = Ok k -> PyFloat.is_nan k = true ->
     (forall y, In y r -> exists ky, price_key y = Ok ky) ->
     py_min price_key (x :: r) = Ok x)
  /\ (forall (x best : Offer) (r : list Offer) (k : spec_float),
        price_key x = Ok k -> PyFloat.is_nan k = false ->
        py_min price_key (x :: r) = Ok best ->
        exists kb, price_key best = Ok kb /\ PyFloat.is_nan kb = false)
  /\ (forall (w : World) (origin destination departure_date : string)
             (duration : option string) (tok : string) (expiry : option Z)
             (payload : dict) (s' : Store) (response : Response SearchData)
             (doc : SearchData) (x : Offer) (r : list Offer) (k : spec_float),
        run (get_flight_price w origin destination departure_date duration) tok expiry
          = (Ok payload, s') ->
        search_response w s' = Some response ->
        body response = Json doc ->
        offers_of doc = x :: r ->
        price_key x = Ok k -> PyFloat.is_nan k = true ->
        dict_get payload "total_price_in_inr" = Some (VFloat S754_nan)).
Proof.
  split; [|split].
  - intros x r k Hk Hn Hall. cbn [py_min]. rewrite Hk. cbn [rbind].
    rewrite (is_nan_eq k Hn). now apply min_loop_nan_best.
  - intros x best r k Hk Hn. cbn [py_min]. rewrite Hk. cbn [rbind].
    now apply min_loop_number.
  - intros w origin destination departure_date duration tok expiry payload s'
           response doc x r k Hrun Hr Hb Ho Hk Hn.
    destruct (run_ok_inv _ _ _ _ _ _ _ _ _ _ _ Hrun Hr Hb) as (params & _ & _ & Hshape).
    rewrite Ho in Hshape.
    destruct (shape_response_ok _ _ _ _ _ Hshape) as (best & kb & Hm & Hkb & _ & Ht & _).
    rewrite Ht. do 2 f_equal.
    assert (Hbest : best = x).
    { revert Hm. cbn [py_min]. rewrite Hk. cbn [rbind]. rewrite (is_nan_eq k Hn).
      clear. revert x. induction r as [|a r IH]; intros x; cbn [min_loop].
      - intros H. now injection H.
      - destruct (price_key a) as [ka|]; cbn [rbind]; [|discriminate].
        rewrite lt_nan_r. apply IH. }
    subst best. rewrite Hk in Hkb. injection Hkb as <-. now apply is_nan_eq.
Qed.

Lemma X10_witness :
  py_min price_key [sample_offer "nan" 1; sample_offer "250" 1; sample_offer "-inf" 1]
  = Ok (sample_offer "nan" 1).
Proof.
  apply (proj1 X10_a_price_that_is_not_a_number
           (sample_offer "nan" 1) [sample_offer "250" 1; sample_offer "-inf" 1] S754_nan).
  - reflexivity.
  - reflexivity.
  - intros y [<-|[<-|[]]]; eexists; vm_compute; reflexivity.
Defined.

(** ** Offers without itinerary *)

(** X11: when the offer that [min] selects has no itinerary, the request
    raises the [IndexError] of the list, which the error clause of the
    search does not catch; and when it has one, the request does not fail
    on the itineraries. *)
Theorem X11_selected_offer_without_itinerary
    (w : World) (origin destination departure_date : string)
    (duration : option string) (tok : string) (expiry : option Z)
    (response : Response SearchData) (doc : SearchData) (best : Offer) :
  search_response w
    (snd (run (get_flight_price w origin destination departure_date duration) tok expiry))
    = Some response ->
  is_error_status (status_code response) = false ->
  body response = Json doc ->
  py_min price_key (offers_of doc) = Ok best ->
  (itineraries best = [] ->
   fst (run (get_flight_price w origin destination departure_date duration) tok expiry)
   = Raise (IndexError [Lit "list index out of range"]))
  /\ (itineraries best <> [] ->
      exists payload,
        fst (run (get_flight_price w origin destination departure_date duration) tok expiry)
        = Ok payload).
Proof.
  intros Hr Hs Hb Hm.
  destruct (search_response_inv _ _ _ _ _ _ _ _ Hr) as (s1 & p & _ & _ & _ & _ & E).
  rewrite E. cbn [fst]. rewrite (classify_json p duration response doc s1 Hs Hb).
  cbn [fst]. unfold shape_response.
  destruct (offers_of doc) as [|a r]; [discriminate Hm|].
  rewrite Hm. cbn [rbind].
  assert (Hk : exists k, price_key best = Ok k).
  { clear - Hm. revert Hm. cbn [py_min].
    destruct (price_key a) as [ka|] eqn:Ea; cbn [rbind]; [|discriminate].
    revert a ka Ea. induction r as [|b r IH]; intros a ka Ea; cbn [min_loop].
    - intros H. injection H as <-. eauto.
    - destruct (price_key b) as [kb|] eqn:Eb; cbn [rbind]; [|discriminate].
      destruct (PyFloat.lt kb ka); eapply IH; eassumption. }
  destruct Hk as [k Hk].
  split.
  - intros Hi. rewrite Hi. reflexivity.
  - intros Hi. destruct (itineraries best) as [|i0 [|i1 rest]]; [congruence| |];
      cbn [list_index nth_error rbind]; rewrite Hk; cbn [rbind].
    + rewrite andb_false_r. eauto.
    + destruct (truthy duration); cbn; eauto.
Qed.

Lemma X11_witness :
  fst (sample_run (sample_offers 0) "2024-03-01" None)
  = Raise (IndexError [Lit "list index out of range"]).
Proof.
  apply (proj1 (X11_selected_offer_without_itinerary
                  (sample_world (offers_response (sample_offers 0)))
                  "DEL" "BOM" "2024-03-01" None "cached" fresh_expiry
                  (sample_response 200
                     (Json {| data := Some (sample_offers 0); source_text := "{...}" |}))
                  {| data := Some (sample_offers 0); source_text := "{...}" |}
                  (sample_offer "250" 0) eq_refl eq_refl eq_refl eq_refl)).
  reflexivity.
Defined.

(** ** The shape of an itinerary *)

Lemma read_segment_info (segment : Segment) :
  read_segment (segment_info segment) = Some segment.
Proof. destruct segment as [c n [di dt] [ai at'] du]. reflexivity. Qed.

Lemma read_segments_info (l : list Segment) :
  read_segments (map segment_info l) = Some l.
Proof.
  induction l as [|x r IH]; [reflexivity|].
  cbn [map read_segments]. now rewrite read_segment_info, IH.
Qed.

(** X12: [parse_itinerary_details] loses nothing of what it reads.  The
    shape has the total duration and one entry for each segment, in the
    order of the itinerary, and a reader that takes the seven texts of each
    entry and the total duration back by their keys gets the itinerary it
    was made from; so two itineraries with the same shape are the same. *)
Theorem X12_the_shape_of_an_itinerary_loses_nothing (itinerary : Itinerary) :
  read_itinerary (parse_itinerary_details itinerary) = Some itinerary
  /\ exists entries,
       parse_itinerary_details itinerary
       = VDict [("total_duration", VStr (itinerary_duration itinerary));
                ("segments", VList entries)]
       /\ List.length entries = List.length (segments itinerary)
       /\ forall i, nth_error entries i
                    = option_map segment_info (nth_error (segments itinerary) i).
Proof.
  split.
  - destruct itinerary as [t segs]. unfold parse_itinerary_details, read_itinerary.
    cbn [itinerary_duration segments].
    generalize (read_segments_info segs). generalize (map segment_info segs).
    intros l Hl. cbn. now rewrite Hl.
  - exists (map segment_info (segments itinerary)).
    split; [reflexivity|]. split; [apply length_map|].
    intros i. apply nth_error_map.
Qed.

(** ** The journeys of a result *)

(** X13: in a result made from offers, the outbound journey is the shape of
    the first itinerary of the selected offer.  With a duration and a second
    itinerary the result has five members, in this order: the journey type,
    the total price, the outbound journey, the return journey, which is the
    shape of the second itinerary, and the return date, which is a text and
    never the null value.  Otherwise the result has the first three members
    only; further itineraries are ignored. *)
Theorem X13_the_journeys_of_a_result
    (w : World) (origin destination departure_date : string)
    (duration : option string) (tok : string) (expiry : option Z)
    (payload : dict) (s' : Store) (response : Response SearchData)
    (doc : SearchData) (x : Offer) (r : list Offer) :
  run (get_flight_price w origin destination departure_date duration) tok expiry
    = (Ok payload, s') ->
  search_response w s' = Some response ->
  body response = Json doc ->
  offers_of doc = x :: r ->
  exists best first,
    py_min price_key (x :: r) = Ok best
    /\ nth_error (itineraries best) 0 = Some first
    /\ dict_get payload "outbound_journey" = Some (parse_itinerary_details first)
    /\ match nth_error (itineraries best) 1 with
       | Some second =>
           if truthy duration then
             dict_get payload "return_journey" = Some (parse_itinerary_details second)
             /\ (exists rd, dict_get payload "return_date" = Some (VStr rd))
             /\ dict_keys payload
                = ["journey_type"; "total_price_in_inr"; "outbound_journey";
                   "return_journey"; "return_date"]
           else
             dict_keys payload
             = ["journey_type"; "total_price_in_inr"; "outbound_journey"]
       | None =>
           dict_keys payload = ["journey_type"; "total_price_in_inr"; "outbound_journey"]
       end.
Proof.
  intros Hrun Hr Hb Ho.
  destruct (run_ok_inv _ _ _ _ _ _ _ _ _ _ _ Hrun Hr Hb) as (params & _ & Hp & Hshape).
  rewrite Ho in Hshape. revert Hshape. unfold shape_response.
  destruct (py_min price_key (x :: r)) as [best|]; [|discriminate]. cbn [rbind].
  pose proof (build_params_return_date _ _ _ _ _ Hp) as Hrd.
  destruct (itineraries best) as [|i0 [|i1 rest]] eqn:Ei;
    cbn [list_index nth_error rbind]; [discriminate| |];
    (destruct (price_key best) as [k|]; [|discriminate]); cbn [rbind].
  - rewrite andb_false_r. intros H. injection H as <-.
    exists best, i0. rewrite Ei. cbn [nth_error].
    split; [reflexivity|]. split; [reflexivity|]. split; reflexivity.
  - destruct (truthy duration) eqn:Et; cbn [andb List.length Nat.ltb Nat.leb].
    + destruct Hrd as [rd Hrd]. rewrite Hrd. cbn [or_none].
      intros H. injection H as <-.
      exists best, i0. rewrite Ei. cbn [nth_error].
      split; [reflexivity|]. split; [reflexivity|]. split; [reflexivity|].
      split; [reflexivity|]. split; [exists rd; reflexivity|reflexivity].
    + intros H. injection H as <-.
      exists best, i0. rewrite Ei. cbn [nth_error].
      split; [reflexivity|]. split; [reflexivity|]. split; reflexivity.
Qed.

Lemma X13_witness :
  exists best first,
    py_min price_key (sample_offers 3) = Ok best
    /\ nth_error (itineraries best) 0 = Some first
    /\ dict_get (payload_of (sample_run (sample_offers 3) "2024-03-01" (Some "7 days")))
         "outbound_journey" = Some (parse_itinerary_details first)
    /\ match nth_error (itineraries best) 1 with
       | Some second =>
           if truthy (Some "7 days") then
             dict_get (payload_of (sample_run (sample_offers 3) "2024-03-01" (Some "7 days")))
               "return_journey" = Some (parse_itinerary_details second)
             /\ (exists rd,
                   dict_get (payload_of (sample_run (sample_offers 3) "2024-03-01"
                                           (Some "7 days")))
                     "return_date" = Some (VStr rd))
             /\ dict_keys (payload_of (sample_run (sample_offers 3) "2024-03-01"
                                         (Some "7 days")))
                = ["journey_type"; "total_price_in_inr"; "outbound_journey";
                   "return_journey"; "return_date"]
           else
             dict_keys (payload_of (sample_run (sample_offers 3) "2024-03-01" (Some "7 days")))
             = ["journey_type"; "total_price_in_inr"; "outbound_journey"]
       | None =>
           dict_keys (payload_of (sample_run (sample_offers 3) "2024-03-01" (Some "7 days")))
           = ["journey_type"; "total_price_in_inr"; "outbound_journey"]
       end.
Proof.
  apply (X13_the_journeys_of_a_result
           (sample_world (offers_response (sample_offers 3))) "DEL" "BOM" "2024-03-01"
           (Some "7 days") "cached" fresh_expiry
           (payload_of (sample_run (sample_offers 3) "2024-03-01" (Some "7 days")))
           (snd (sample_run (sample_offers 3) "2024-03-01" (Some "7 days")))
           (sample_response 200
              (Json {| data := Some (sample_offers 3); source_text := "{...}" |}))
           {| data := Some (sample_offers 3); source_text := "{...}" |}
           (sample_offer "500" 2) [sample_offer "250" 3; sample_offer "999" 2]);
    reflexivity.
Defined.

(** ** A search that gets no answer, or an answer that is not JSON *)

(** X14: when the search call was made and the provider gave no answer (no
    connection, time out), the request raises the [UnboundLocalError] of the
    error clause, which reads the response that was never bound; the caller
    gets no [HTTPException], and the text of the failure is lost. *)
Theorem X14_a_search_without_answer
    (w : World) (origin destination departure_date : string)
    (duration : option string) (tok : string) (expiry : option Z) :
  searched (snd (run (get_flight_price w origin destination departure_date duration)
                   tok expiry)) = true ->
  search_response w
    (snd (run (get_flight_price w origin destination departure_date duration) tok expiry))
    = None ->
  exists params failure m,
    sent_params (snd (run (get_flight_price w origin destination departure_date duration)
                        tok expiry)) = Some params
    /\ search_endpoint w
         (auth_headers
            (token (snd (run (get_flight_price w origin destination departure_date
                                duration) tok expiry))))
         params = Failed failure
    /\ fst (run (get_flight_price w origin destination departure_date duration) tok expiry)
       = Raise (UnboundLocalError m).
Proof.
  unfold run. set (s := mkStore tok expiry []).
  assert (Hs : searched s = false) by reflexivity.
  destruct (get_flight_price_stage w origin destination departure_date duration s)
    as [e s1 Et|e s1 Et Eb|s1 p r Et Eb Ec]; cbn [fst snd]; intros H Hr.
  - pose proof (ensure_token_searched w s) as E. rewrite Et in E. cbn [snd] in E.
    congruence.
  - pose proof (ensure_token_searched w s) as E. rewrite Et in E. cbn [snd] in E.
    congruence.
  - unfold search_response in Hr. cbn [calls] in Hr. rewrite last_call_snoc in Hr.
    cbn [token].
    destruct (search_endpoint w (auth_headers (token s1)) p) as [msg|resp] eqn:Er;
      [|discriminate Hr].
    rewrite classify_failed in Ec. injection Ec as <-.
    exists p, msg, response_unbound.
    split; [unfold sent_params; cbn [calls]; now rewrite last_call_snoc|].
    split; [exact Er|reflexivity].
Qed.

Lemma X14_witness :
  exists params failure m,
    sent_params
      (snd (run (get_flight_price (sample_world (Failed [Lit "Connection refused"]))
                   "DEL" "BOM" "2024-03-01" None) "cached" fresh_expiry)) = Some params
    /\ search_endpoint (sample_world (Failed [Lit "Connection refused"]))
         (auth_headers
            (token (snd (run (get_flight_price
                                (sample_world (Failed [Lit "Connection refused"]))
                                "DEL" "BOM" "2024-03-01" None) "cached" fresh_expiry))))
         params = Failed failure
    /\ fst (run (get_flight_price (sample_world (Failed [Lit "Connection refused"]))
                   "DEL" "BOM" "2024-03-01" None) "cached" fresh_expiry)
       = Raise (UnboundLocalError m).
Proof.
  apply (X14_a_search_without_answer
           (sample_world (Failed [Lit "Connection refused"]))
           "DEL" "BOM" "2024-03-01" None "cached" fresh_expiry); reflexivity.
Defined.

(** X15: when the provider answers the search with a status that is no error
    and a body that is not JSON, the caller gets status 500 with the text of
    the decoding error. *)
Theorem X15_an_answer_that_is_not_json
    (w : World) (origin destination departure_date : string)
    (duration : option string) (tok : string) (expiry : option Z)
    (response : Response SearchData) (decode_error : message) :
  search_response w
    (snd (run (get_flight_price w origin destination departure_date duration) tok expiry))
    = Some response ->
  is_error_status (status_code response) = false ->
  body response = NotJson decode_error ->
  fst (run (get_flight_price w origin destination departure_date duration) tok expiry)
  = Raise (HTTPException 500 decode_error).
Proof.
  intros Hr Hs Hb.
  destruct (search_response_inv _ _ _ _ _ _ _ _ Hr) as (s1 & p & _ & _ & _ & _ & E).
  rewrite E. cbn [fst].
  now rewrite (classify_not_json p duration response decode_error s1 Hs Hb).
Qed.

Lemma X15_witness :
  fst (run (get_flight_price
              (sample_world (Answered (sample_response 200 (NotJson [Lit "Expecting value"]))))
              "DEL" "BOM" "2024-03-01" (Some "7 days")) "" None)
  = Raise (HTTPException 500 [Lit "Expecting value"]).
Proof.
  apply (X15_an_answer_that_is_not_json
           (sample_world (Answered (sample_response 200 (NotJson [Lit "Expecting value"]))))
           "DEL" "BOM" "2024-03-01" (Some "7 days") "" None
           (sample_response 200 (NotJson [Lit "Expecting value"]))
           [Lit "Expecting value"]); reflexivity.
Defined.


(** ** The end of the calendar *)

(** X16: for a duration that begins with "<N> days", N on at most 4300
    digits, and a valid departure date, when the departure date plus N days
    lies after 9999-12-31 the request raises an [OverflowError] once the
    token step is done.  The clause around the duration catches
    [ValueError] and [IndexError] only, so the caller gets no status 400,
    and no search call is made. *)
Theorem X16_a_return_date_after_the_last_day
    (w : World) (origin destination departure_date duration digits : string)
    (dep : Calendar.date) (s s1 : Store) :
  ensure_token w s = (Ok tt, s1) ->
  begins_with_days duration digits ->
  (String.length digits <= int_max_str_digits)%nat ->
  Calendar.strptime_ymd departure_date = Ok dep ->
  Calendar.MAXORDINAL < Calendar.ymd2ord dep + Str.digits_value digits ->
  exists m,
    get_flight_price w origin destination departure_date (Some duration) s
    = (Raise (OverflowError m), s1).
Proof.
  intros Et Hdays Hlen Hd Hmax.
  apply PatternFacts.re_match_days_iff in Hdays as Hm.
  assert (Hb : exists m, build_params origin destination departure_date (Some duration)
                         = Raise (OverflowError m)).
  { unfold build_params, return_date.
    destruct duration as [|c r]; [discriminate Hm|].
    rewrite Hm, (int_of_digits_short digits Hlen), Hd. cbn [rbind].
    destruct (Calendar.timedelta_days (Str.digits_value digits)) as [n|e] eqn:E;
      cbn [rbind].
    - apply timedelta_days_ok in E. subst n.
      unfold Calendar.add.
      replace (Calendar.ymd2ord dep + Str.digits_value digits <=? Calendar.MAXORDINAL)
        with false by (symmetry; apply Z.leb_gt; exact Hmax).
      rewrite andb_false_r. cbn. eauto.
    - destruct (timedelta_days_raise _ _ E) as [m ->]. cbn. eauto. }
  destruct Hb as [m Hb]. exists m.
  apply (get_flight_price_params_failure _ _ _ _ _ _ _ _ Et Hb).
Qed.

Lemma X16_witness :
  exists m,
    get_flight_price (sample_world (offers_response [])) "DEL" "BOM" "9999-12-25"
      (Some "7 days") (mkStore "cached" fresh_expiry [])
    = (Raise (OverflowError m), mkStore "cached" fresh_expiry []).
Proof.
  apply (X16_a_return_date_after_the_last_day
           (sample_world (offers_response [])) "DEL" "BOM" "9999-12-25" "7 days" "7"
           (Calendar.mkdate 9999 12 25)
           (mkStore "cached" fresh_expiry []) (mkStore "cached" fresh_expiry [])
           eq_refl).
  - exists " "%string, "days"%string, ""%string.
    split; [reflexivity|]. split; [discriminate|].
    split; [reflexivity|]. split; reflexivity.
  - apply Nat.leb_le. reflexivity.
  - reflexivity.
  - vm_compute. reflexivity.
Defined.

(** ** After a refresh that failed *)

Lemma get_amadeus_token_failure w s e :
  fst (get_amadeus_token w s) = Raise e ->
  exists tok1,
    get_amadeus_token w s
    = (Raise e,
       mkStore tok1 (token_expiry s)
         (calls s ++ [PostToken token_url token_headers (token_form w)]))
    /\ ((e = authentication_failed /\ tok1 = token s)
        \/ (exists m resp doc,
              e = OverflowError m
              /\ token_endpoint w (token_form w) = Answered resp
              /\ is_error_status (status_code resp) = false
              /\ body resp = Json doc
              /\ life_time_fits w (expires_in doc) = false
              /\ tok1 = access_token doc)).
Proof.
  rewrite get_amadeus_token_cases. cbv zeta.
  destruct (token_endpoint w (token_form w)) as [msg|resp] eqn:Er.
  { cbn [fst]. intros H. injection H as <-. exists (token s). auto. }
  destruct (is_error_status (status_code resp)) eqn:Es.
  { cbn [fst]. intros H. injection H as <-. exists (token s). auto. }
  destruct (body resp) as [doc|dm] eqn:Eb.
  2:{ cbn [fst]. intros H. injection H as <-. exists (token s). auto. }
  destruct (life_time_fits w (expires_in doc)) eqn:Ef.
  - rewrite (new_expiry_fits w _ Ef). discriminate.
  - destruct (new_expiry_unfit w _ Ef) as [m ->]. cbn [fst calls].
    intros H. injection H as <-. exists (access_token doc).
    split; [reflexivity|]. right. exists m, resp, doc.
    split; [reflexivity|]. split; [first [reflexivity|exact Er]|]. split; [exact Es|].
    split; [exact Eb|]. split; [exact Ef|reflexivity].
Qed.

(** X17: what is left of a refresh that failed.  When the cached credential
    is not valid and the refresh fails, the request ends with the error of
    the refresh after the one call to the token endpoint, and the expiry is
    left as it was.  With the 500 error of the authentication the token is
    left as well; with the [OverflowError] of a life time that does not fit
    the dates, the new token has replaced the old one.  Unless the old
    token was empty and the refresh has stored a new one, the next request,
    at the same or a later time, calls the token endpoint again before
    anything else. *)
Theorem X17_a_failed_refresh_is_tried_again
    (w1 w2 : World)
    (origin1 destination1 departure_date1 : string) (duration1 : option string)
    (origin2 destination2 departure_date2 : string) (duration2 : option string)
    (tok : string) (expiry : option Z) (e : exn) :
  ~ credential_valid (now_in_is_token_valid w1) tok expiry ->
  fst (get_amadeus_token w1 (mkStore tok expiry [])) = Raise e ->
  now_in_is_token_valid w1 <= now_in_is_token_valid w2 ->
  exists tok1,
    run (get_flight_price w1 origin1 destination1 departure_date1 duration1) tok expiry
    = (Raise e,
       mkStore tok1 expiry [PostToken token_url token_headers (token_form w1)])
    /\ ((e = authentication_failed /\ tok1 = tok)
        \/ (exists m resp doc,
              e = OverflowError m
              /\ token_endpoint w1 (token_form w1) = Answered resp
              /\ is_error_status (status_code resp) = false
              /\ body resp = Json doc
              /\ life_time_fits w1 (expires_in doc) = false
              /\ tok1 = access_token doc))
    /\ (e = authentication_failed \/ tok <> "" ->
        exists rest,
          calls (snd (run (get_flight_price w2 origin2 destination2 departure_date2
                             duration2) tok1 expiry))
          = PostToken token_url token_headers (token_form w2) :: rest).
Proof.
  intros Hinv He Hclock.
  destruct (get_amadeus_token_failure w1 (mkStore tok expiry []) e He)
    as (tok1 & Eg & Hcases).
  cbn [token token_expiry calls app] in Eg, Hcases.
  exists tok1. split; [|split; [exact Hcases|]].
  { unfold run. set (s := mkStore tok expiry []).
    destruct (ensure_token_exact w1 s) as [[Hv _]|(_ & E & _)].
    { exfalso. apply Hinv. apply (is_token_valid_true w1 s). exact Hv. }
    apply get_flight_price_token_failure. rewrite E. exact Eg. }
  intros Hkept.
  assert (Hinv2 : ~ credential_valid (now_in_is_token_valid w2) tok1 expiry).
  { intros [Ht (x & Ex & Hx)]. apply Hinv.
    assert (Hx1 : exists x0, expiry = Some x0
                             /\ x0 - now_in_is_token_valid w1 > five_minutes)
      by (exists x; split; [exact Ex|lia]).
    destruct Hkept as [Ha|Hne].
    - destruct Hcases as [[_ ->]|(m & resp & doc & -> & _)]; [|discriminate Ha].
      split; assumption.
    - split; assumption. }
  unfold run. set (s := mkStore tok1 expiry []).
  destruct (ensure_token_exact w2 s) as [[Hv _]|(_ & _ & El)].
  { exfalso. apply Hinv2. apply (is_token_valid_true w2 s). exact Hv. }
  cbn [calls s app] in El.
  destruct (get_flight_price_stage w2 origin2 destination2 departure_date2 duration2 s)
    as [e0 s1 Et|e0 s1 Et Eb|s1 p r Et Eb Ec]; rewrite Et in El; cbn [snd] in *.
  - exists []. exact El.
  - exists []. exact El.
  - cbn [calls]. rewrite El. eexists. reflexivity.
Qed.

Lemma X17_witness :
  exists tok1,
    run (get_flight_price (long_lived_world 1000000000000000)
           "DEL" "BOM" "2024-03-01" None) "old" None
    = (Raise (OverflowError [Lit "Python int too large to convert to C int"]),
       mkStore tok1 None
         [PostToken token_url token_headers
            (token_form (long_lived_world 1000000000000000))])
    /\ tok1 = "T"
    /\ exists rest,
         calls (snd (run (get_flight_price (sample_world (offers_response []))
                            "DEL" "BOM" "2024-03-02" None) tok1 None))
         = PostToken token_url token_headers
             (token_form (sample_world (offers_response []))) :: rest.
Proof.
  assert (Hinv : ~ credential_valid
                     (now_in_is_token_valid (long_lived_world 1000000000000000))
                     "old" None).
  { intros [_ (x & Hx & _)]. discriminate Hx. }
  destruct (X17_a_failed_refresh_is_tried_again
              (long_lived_world 1000000000000000) (sample_world (offers_response []))
              "DEL" "BOM" "2024-03-01" None "DEL" "BOM" "2024-03-02" None "old" None
              (OverflowError [Lit "Python int too large to convert to C int"])
              Hinv eq_refl (Z.le_refl 0))
    as (tok1 & Hrun & Hcases & Hnext).
  exists tok1. split; [exact Hrun|]. split.
  - destruct Hcases as [[Ha _]|(m & resp & doc & _ & Hr & _ & Hb & _ & ->)];
      [discriminate Ha|].
    cbv in Hr. injection Hr as <-. cbv in Hb. injection Hb as <-. reflexivity.
  - apply Hnext. right. discriminate.
Defined.
